(** * Html5QrcodeScanner: session, permission and mode-switch state machine

    A shallow embedding of the scanner widget class [Html5QrcodeScanner]
    (html5-qrcode-scanner.ts / dist/es2015/html5-qrcode-scanner.js).

    The class is a single-threaded event-driven object: user gestures and
    promise settlements run handlers to completion, each handler mutating
    the fields of [this] and the DOM elements it created.  The embedding
    keeps the fields in one record, the DOM elements the widget creates in
    a [Layout] record, and every handler as a total function on that
    record.  A promise-returning call to a collaborator is recorded in the
    [effects] trace; its [then]/[catch] continuations are separate
    functions that take the outcome as an argument. *)

From Stdlib Require Import Bool List String ZArith QArith Lia.
Import ListNotations.
Local Open Scope string_scope.

Set Implicit Arguments.

(** ** Values *)

Inductive Html5QrcodeScanType := SCAN_TYPE_CAMERA | SCAN_TYPE_FILE.

Inductive Html5QrcodeScannerStatus :=
| STATUS_DEFAULT
| STATUS_SUCCESS
| STATUS_WARNING
| STATUS_REQUESTING_PERMISSION.

(** Values that are thrown or carried by a rejected promise. *)
Inductive JsError :=
| Thrown (message : string)
| TypeError
| NotFoundError.

(** A promise outcome handed to a [then]/[catch] chain. *)
Inductive Settled (A : Type) :=
| Resolved (value : A)
| Rejected (error : JsError).
Arguments Rejected {A} error.

(** What a handler body does: run to the end or throw. *)
Inductive Completion (S : Type) :=
| Normal (s : S)
| Throws (error : JsError) (s : S).

Record CameraDevice := { cam_id : string; cam_label : string }.

(** Texts produced by [Html5QrcodeScannerStrings], kept symbolic, and
    error values placed in the header as they are. *)
Inductive HeaderText :=
| cameraPermissionRequesting
| noCameraFound
| loadingImage
| lastMatch (decodedText : string)
| errorText (error : JsError).

Inductive Display := DisplayUnset | DisplayNone | DisplayBlock | DisplayInlineBlock.
Inductive HeaderColours := ColoursUnset | ColoursDefault | ColoursSuccess | ColoursWarning.
Inductive ScanRegionContent := RegionEmpty | RegionImage (kind : Html5QrcodeScanType).
Inductive SwapLinkText := TEXT_IF_CAMERA_SCAN_SELECTED | TEXT_IF_FILE_SCAN_SELECTED.
Inductive StartButtonText := scanButtonStartScanningText | scanButtonScanningStarting.
Inductive Opacity := OpacityUnset | OpacityFull | OpacityHalf.
Inductive ContainerContent := ContentOfPage | ContentEmpty | ContentScannerLayout.
Inductive ContainerBorder := BorderOfPage | BorderSolidSilver | BorderNone.

(** Calls that leave the class, in the order they are made. *)
Inductive Effect :=
| LogError (message : string)
| CallHasPermissions
| CallGetCameras
| CallStart (cameraId : string)
| CallStop
| CallClear
| CallScanFile (file : string)
| CallZoomApply (zoomValue : Q)
| CallerSuccess (decodedText : string)
| CallerError (error : JsError)
| ClearResolved
| ClearRejected (error : JsError)
| Uncaught (error : JsError).

(** ** Configuration *)

(** [Html5QrcodeScannerConfig]: the fields this class reads.  The other
    fields (qrbox, aspectRatio, formatsToSupport, ...) are only copied to
    the decoding engine. *)
Record Html5QrcodeScannerConfig := {
  fps : option Q;
  rememberLastUsedCamera : option bool;
  supportedScanTypes : option (list Html5QrcodeScanType);
  showTorchButtonIfSupported : option bool;
  showZoomSliderIfSupported : option bool;
  defaultZoomValueIfSupported : option Q
}.

(** [Html5QrcodeConstants] is imported from "./core"; its values are taken
    as a parameter of the constructor. *)
Record Html5QrcodeConstants := {
  SCAN_DEFAULT_FPS : Q;
  DEFAULT_REMEMBER_LAST_CAMERA_USED : bool;
  DEFAULT_SUPPORTED_SCAN_TYPE : list Html5QrcodeScanType
}.

(** JavaScript truthiness of an optional number: [undefined] and [0] are
    falsy. *)
Definition truthy_number (x : option Q) : bool :=
  match x with
  | Some q => negb (Qeq_bool q 0)
  | None => false
  end.

(** [x === true] for [boolean | undefined]. *)
Definition is_true (x : option bool) : bool :=
  match x with
  | Some true => true
  | _ => false
  end.

(** ** Collaborators *)

Record Html5Qrcode := { isScanning : bool }.

Record ZoomCapability := {
  zoom_isSupported : bool;
  zoom_min : Q;
  zoom_max : Q;
  zoom_step : Q
}.

Record CameraCapabilities := {
  zoomFeature : ZoomCapability;
  torchFeature_isSupported : bool
}.

(** What the scanner sets on the zoom slider ("./ui/scanner/camera-zoom-ui")
    and on the torch button ("./ui/scanner/torch-button"). *)
Record ZoomValues := { zv_min : Q; zv_max : Q; zv_value : Q; zv_step : Q }.

Record TorchButton := { tb_shown : bool }.

Record PermissionButton := { pb_disabled : bool }.

(** [ScanTypeSelector]: the validated, ordered scan types; the first one
    is the default. *)
Record ScanTypeSelector := {
  defaultScanType : Html5QrcodeScanType;
  otherScanTypes : list Html5QrcodeScanType
}.

(** ** The widget's state *)

Record PersistedDataManager := {
  hasPermission : bool;
  lastUsedCameraId : option string
}.

Definition set_hasPermission (v : bool) (r : PersistedDataManager) : PersistedDataManager :=
  {| hasPermission := v; lastUsedCameraId := lastUsedCameraId r |}.

Definition set_lastUsedCameraId (v : option string) (r : PersistedDataManager) : PersistedDataManager :=
  {| hasPermission := hasPermission r; lastUsedCameraId := v |}.

Record HeaderMessageContainer := {
  hm_innerText : option HeaderText;
  hm_display : Display;
  hm_colours : HeaderColours
}.

Definition set_hm_innerText (v : option HeaderText) (r : HeaderMessageContainer) : HeaderMessageContainer :=
  {| hm_innerText := v; hm_display := hm_display r; hm_colours := hm_colours r |}.

Definition set_hm_display (v : Display) (r : HeaderMessageContainer) : HeaderMessageContainer :=
  {| hm_innerText := hm_innerText r; hm_display := v; hm_colours := hm_colours r |}.

Definition set_hm_colours (v : HeaderColours) (r : HeaderMessageContainer) : HeaderMessageContainer :=
  {| hm_innerText := hm_innerText r; hm_display := hm_display r; hm_colours := v |}.

Record FileSelectionUi := {
  fs_shown : bool;
  fs_value : option string
}.

Definition set_fs_shown (v : bool) (r : FileSelectionUi) : FileSelectionUi :=
  {| fs_shown := v; fs_value := fs_value r |}.

Definition set_fs_value (v : option string) (r : FileSelectionUi) : FileSelectionUi :=
  {| fs_shown := fs_shown r; fs_value := v |}.

Record SwitchLink := {
  link_innerText : SwapLinkText;
  link_display : Display
}.

Definition set_link_innerText (v : SwapLinkText) (r : SwitchLink) : SwitchLink :=
  {| link_innerText := v; link_display := link_display r |}.

Definition set_link_display (v : Display) (r : SwitchLink) : SwitchLink :=
  {| link_innerText := link_innerText r; link_display := v |}.

Record CameraSelectionUi := {
  cs_cameras : list CameraDevice;
  cs_value : string;
  cs_enabled : bool
}.

Definition set_cs_cameras (v : list CameraDevice) (r : CameraSelectionUi) : CameraSelectionUi :=
  {| cs_cameras := v; cs_value := cs_value r; cs_enabled := cs_enabled r |}.

Definition set_cs_value (v : string) (r : CameraSelectionUi) : CameraSelectionUi :=
  {| cs_cameras := cs_cameras r; cs_value := v; cs_enabled := cs_enabled r |}.

Definition set_cs_enabled (v : bool) (r : CameraSelectionUi) : CameraSelectionUi :=
  {| cs_cameras := cs_cameras r; cs_value := cs_value r; cs_enabled := v |}.

Record StartButton := {
  sb_innerText : StartButtonText;
  sb_disabled : bool;
  sb_opacity : Opacity;
  sb_display : Display
}.

Definition set_sb_innerText (v : StartButtonText) (r : StartButton) : StartButton :=
  {| sb_innerText := v; sb_disabled := sb_disabled r; sb_opacity := sb_opacity r; sb_display := sb_display r |}.

Definition set_sb_disabled (v : bool) (r : StartButton) : StartButton :=
  {| sb_innerText := sb_innerText r; sb_disabled := v; sb_opacity := sb_opacity r; sb_display := sb_display r |}.

Definition set_sb_opacity (v : Opacity) (r : StartButton) : StartButton :=
  {| sb_innerText := sb_innerText r; sb_disabled := sb_disabled r; sb_opacity := v; sb_display := sb_display r |}.

Definition set_sb_display (v : Display) (r : StartButton) : StartButton :=
  {| sb_innerText := sb_innerText r; sb_disabled := sb_disabled r; sb_opacity := sb_opacity r; sb_display := v |}.

Record StopButton := {
  stop_disabled : bool;
  stop_display : Display
}.

Definition set_stop_disabled (v : bool) (r : StopButton) : StopButton :=
  {| stop_disabled := v; stop_display := stop_display r |}.

Definition set_stop_display (v : Display) (r : StopButton) : StopButton :=
  {| stop_disabled := stop_disabled r; stop_display := v |}.

Record CameraZoomUi := {
  zu_shown : bool;
  zu_values : option ZoomValues;
  zu_callback : option ZoomCapability
}.

Definition set_zu_shown (v : bool) (r : CameraZoomUi) : CameraZoomUi :=
  {| zu_shown := v; zu_values := zu_values r; zu_callback := zu_callback r |}.

Definition set_zu_values (v : option ZoomValues) (r : CameraZoomUi) : CameraZoomUi :=
  {| zu_shown := zu_shown r; zu_values := v; zu_callback := zu_callback r |}.

Definition set_zu_callback (v : option ZoomCapability) (r : CameraZoomUi) : CameraZoomUi :=
  {| zu_shown := zu_shown r; zu_values := zu_values r; zu_callback := v |}.

Record CameraSection := {
  cameraSelectUi : CameraSelectionUi;
  cameraActionStartButton : StartButton;
  cameraActionStopButton : StopButton;
  torchButton : option TorchButton;
  cameraZoomUi : CameraZoomUi
}.

Definition set_cameraSelectUi (v : CameraSelectionUi) (r : CameraSection) : CameraSection :=
  {| cameraSelectUi := v; cameraActionStartButton := cameraActionStartButton r; cameraActionStopButton := cameraActionStopButton r; torchButton := torchButton r; cameraZoomUi := cameraZoomUi r |}.

Definition set_cameraActionStartButton (v : StartButton) (r : CameraSection) : CameraSection :=
  {| cameraSelectUi := cameraSelectUi r; cameraActionStartButton := v; cameraActionStopButton := cameraActionStopButton r; torchButton := torchButton r; cameraZoomUi := cameraZoomUi r |}.

Definition set_cameraActionStopButton (v : StopButton) (r : CameraSection) : CameraSection :=
  {| cameraSelectUi := cameraSelectUi r; cameraActionStartButton := cameraActionStartButton r; cameraActionStopButton := v; torchButton := torchButton r; cameraZoomUi := cameraZoomUi r |}.

Definition set_torchButton (v : option TorchButton) (r : CameraSection) : CameraSection :=
  {| cameraSelectUi := cameraSelectUi r; cameraActionStartButton := cameraActionStartButton r; cameraActionStopButton := cameraActionStopButton r; torchButton := v; cameraZoomUi := cameraZoomUi r |}.

Definition set_cameraZoomUi (v : CameraZoomUi) (r : CameraSection) : CameraSection :=
  {| cameraSelectUi := cameraSelectUi r; cameraActionStartButton := cameraActionStartButton r; cameraActionStopButton := cameraActionStopButton r; torchButton := torchButton r; cameraZoomUi := v |}.

Record Layout := {
  headerMessageContainer : HeaderMessageContainer;
  qrCodeScanRegion : ScanRegionContent;
  scpCameraScanRegion_display : Display;
  requestPermissionContainer_attached : bool;
  requestPermissionContainer : list PermissionButton;
  fileSelectionUi : FileSelectionUi;
  switchScanTypeLink : option SwitchLink;
  cameraSection : option CameraSection
}.

Definition set_headerMessageContainer (v : HeaderMessageContainer) (r : Layout) : Layout :=
  {| headerMessageContainer := v; qrCodeScanRegion := qrCodeScanRegion r; scpCameraScanRegion_display := scpCameraScanRegion_display r; requestPermissionContainer_attached := requestPermissionContainer_attached r; requestPermissionContainer := requestPermissionContainer r; fileSelectionUi := fileSelectionUi r; switchScanTypeLink := switchScanTypeLink r; cameraSection := cameraSection r |}.

Definition set_qrCodeScanRegion (v : ScanRegionContent) (r : Layout) : Layout :=
  {| headerMessageContainer := headerMessageContainer r; qrCodeScanRegion := v; scpCameraScanRegion_display := scpCameraScanRegion_display r; requestPermissionContainer_attached := requestPermissionContainer_attached r; requestPermissionContainer := requestPermissionContainer r; fileSelectionUi := fileSelectionUi r; switchScanTypeLink := switchScanTypeLink r; cameraSection := cameraSection r |}.

Definition set_scpCameraScanRegion_display (v : Display) (r : Layout) : Layout :=
  {| headerMessageContainer := headerMessageContainer r; qrCodeScanRegion := qrCodeScanRegion r; scpCameraScanRegion_display := v; requestPermissionContainer_attached := requestPermissionContainer_attached r; requestPermissionContainer := requestPermissionContainer r; fileSelectionUi := fileSelectionUi r; switchScanTypeLink := switchScanTypeLink r; cameraSection := cameraSection r |}.

Definition set_requestPermissionContainer_attached (v : bool) (r : Layout) : Layout :=
  {| headerMessageContainer := headerMessageContainer r; qrCodeScanRegion := qrCodeScanRegion r; scpCameraScanRegion_display := scpCameraScanRegion_display r; requestPermissionContainer_attached := v; requestPermissionContainer := requestPermissionContainer r; fileSelectionUi := fileSelectionUi r; switchScanTypeLink := switchScanTypeLink r; cameraSection := cameraSection r |}.

Definition set_requestPermissionContainer (v : list PermissionButton) (r : Layout) : Layout :=
  {| headerMessageContainer := headerMessageContainer r; qrCodeScanRegion := qrCodeScanRegion r; scpCameraScanRegion_display := scpCameraScanRegion_display r; requestPermissionContainer_attached := requestPermissionContainer_attached r; requestPermissionContainer := v; fileSelectionUi := fileSelectionUi r; switchScanTypeLink := switchScanTypeLink r; cameraSection := cameraSection r |}.

Definition set_fileSelectionUi (v : FileSelectionUi) (r : Layout) : Layout :=
  {| headerMessageContainer := headerMessageContainer r; qrCodeScanRegion := qrCodeScanRegion r; scpCameraScanRegion_display := scpCameraScanRegion_display r; requestPermissionContainer_attached := requestPermissionContainer_attached r; requestPermissionContainer := requestPermissionContainer r; fileSelectionUi := v; switchScanTypeLink := switchScanTypeLink r; cameraSection := cameraSection r |}.

Definition set_switchScanTypeLink (v : option SwitchLink) (r : Layout) : Layout :=
  {| headerMessageContainer := headerMessageContainer r; qrCodeScanRegion := qrCodeScanRegion r; scpCameraScanRegion_display := scpCameraScanRegion_display r; requestPermissionContainer_attached := requestPermissionContainer_attached r; requestPermissionContainer := requestPermissionContainer r; fileSelectionUi := fileSelectionUi r; switchScanTypeLink := v; cameraSection := cameraSection r |}.

Definition set_cameraSection (v : option CameraSection) (r : Layout) : Layout :=
  {| headerMessageContainer := headerMessageContainer r; qrCodeScanRegion := qrCodeScanRegion r; scpCameraScanRegion_display := scpCameraScanRegion_display r; requestPermissionContainer_attached := requestPermissionContainer_attached r; requestPermissionContainer := requestPermissionContainer r; fileSelectionUi := fileSelectionUi r; switchScanTypeLink := switchScanTypeLink r; cameraSection := v |}.

Record Container := {
  innerHTML : ContainerContent;
  border : ContainerBorder
}.

Definition set_innerHTML (v : ContainerContent) (r : Container) : Container :=
  {| innerHTML := v; border := border r |}.

Definition set_border (v : ContainerBorder) (r : Container) : Container :=
  {| innerHTML := innerHTML r; border := v |}.

Record Html5QrcodeScanner := {
  container : Container;
  config : Html5QrcodeScannerConfig;
  verbose : bool;
  currentScanType : Html5QrcodeScanType;
  sectionSwapAllowed : bool;
  persistedDataManager : PersistedDataManager;
  scanTypeSelector : ScanTypeSelector;
  html5Qrcode : option Html5Qrcode;
  qrCodeSuccessCallback : option bool;
  qrCodeErrorCallback : option bool;
  lastMatchFound : option string;
  cameraScanImage : bool;
  fileScanImage : bool;
  permissionButton : option nat;
  layout : option Layout;
  effects : list Effect
}.

Definition set_container (v : Container) (r : Html5QrcodeScanner) : Html5QrcodeScanner :=
  {| container := v; config := config r; verbose := verbose r; currentScanType := currentScanType r; sectionSwapAllowed := sectionSwapAllowed r; persistedDataManager := persistedDataManager r; scanTypeSelector := scanTypeSelector r; html5Qrcode := html5Qrcode r; qrCodeSuccessCallback := qrCodeSuccessCallback r; qrCodeErrorCallback := qrCodeErrorCallback r; lastMatchFound := lastMatchFound r; cameraScanImage := cameraScanImage r; fileScanImage := fileScanImage r; permissionButton := permissionButton r; layout := layout r; effects := effects r |}.

Definition set_config (v : Html5QrcodeScannerConfig) (r : Html5QrcodeScanner) : Html5QrcodeScanner :=
  {| container := container r; config := v; verbose := verbose r; currentScanType := currentScanType r; sectionSwapAllowed := sectionSwapAllowed r; persistedDataManager := persistedDataManager r; scanTypeSelector := scanTypeSelector r; html5Qrcode := html5Qrcode r; qrCodeSuccessCallback := qrCodeSuccessCallback r; qrCodeErrorCallback := qrCodeErrorCallback r; lastMatchFound := lastMatchFound r; cameraScanImage := cameraScanImage r; fileScanImage := fileScanImage r; permissionButton := permissionButton r; layout := layout r; effects := effects r |}.

Definition set_verbose (v : bool) (r : Html5QrcodeScanner) : Html5QrcodeScanner :=
  {| container := container r; config := config r; verbose := v; currentScanType := currentScanType r; sectionSwapAllowed := sectionSwapAllowed r; persistedDataManager := persistedDataManager r; scanTypeSelector := scanTypeSelector r; html5Qrcode := html5Qrcode r; qrCodeSuccessCallback := qrCodeSuccessCallback r; qrCodeErrorCallback := qrCodeErrorCallback r; lastMatchFound := lastMatchFound r; cameraScanImage := cameraScanImage r; fileScanImage := fileScanImage r; permissionButton := permissionButton r; layout := layout r; effects := effects r |}.

Definition set_currentScanType (v : Html5QrcodeScanType) (r : Html5QrcodeScanner) : Html5QrcodeScanner :=
  {| container := container r; config := config r; verbose := verbose r; currentScanType := v; sectionSwapAllowed := sectionSwapAllowed r; persistedDataManager := persistedDataManager r; scanTypeSelector := scanTypeSelector r; html5Qrcode := html5Qrcode r; qrCodeSuccessCallback := qrCodeSuccessCallback r; qrCodeErrorCallback := qrCodeErrorCallback r; lastMatchFound := lastMatchFound r; cameraScanImage := cameraScanImage r; fileScanImage := fileScanImage r; permissionButton := permissionButton r; layout := layout r; effects := effects r |}.

Definition set_sectionSwapAllowed (v : bool) (r : Html5QrcodeScanner) : Html5QrcodeScanner :=
  {| container := container r; config := config r; verbose := verbose r; currentScanType := currentScanType r; sectionSwapAllowed := v; persistedDataManager := persistedDataManager r; scanTypeSelector := scanTypeSelector r; html5Qrcode := html5Qrcode r; qrCodeSuccessCallback := qrCodeSuccessCallback r; qrCodeErrorCallback := qrCodeErrorCallback r; lastMatchFound := lastMatchFound r; cameraScanImage := cameraScanImage r; fileScanImage := fileScanImage r; permissionButton := permissionButton r; layout := layout r; effects := effects r |}.

Definition set_persistedDataManager (v : PersistedDataManager) (r : Html5QrcodeScanner) : Html5QrcodeScanner :=
  {| container := container r; config := config r; verbose := verbose r; currentScanType := currentScanType r; sectionSwapAllowed := sectionSwapAllowed r; persistedDataManager := v; scanTypeSelector := scanTypeSelector r; html5Qrcode := html5Qrcode r; qrCodeSuccessCallback := qrCodeSuccessCallback r; qrCodeErrorCallback := qrCodeErrorCallback r; lastMatchFound := lastMatchFound r; cameraScanImage := cameraScanImage r; fileScanImage := fileScanImage r; permissionButton := permissionButton r; layout := layout r; effects := effects r |}.

Definition set_scanTypeSelector (v : ScanTypeSelector) (r : Html5QrcodeScanner) : Html5QrcodeScanner :=
  {| container := container r; config := config r; verbose := verbose r; currentScanType := currentScanType r; sectionSwapAllowed := sectionSwapAllowed r; persistedDataManager := persistedDataManager r; scanTypeSelector := v; html5Qrcode := html5Qrcode r; qrCodeSuccessCallback := qrCodeSuccessCallback r; qrCodeErrorCallback := qrCodeErrorCallback r; lastMatchFound := lastMatchFound r; cameraScanImage := cameraScanImage r; fileScanImage := fileScanImage r; permissionButton := permissionButton r; layout := layout r; effects := effects r |}.

Definition set_html5Qrcode (v : option Html5Qrcode) (r : Html5QrcodeScanner) : Html5QrcodeScanner :=
  {| container := container r; config := config r; verbose := verbose r; currentScanType := currentScanType r; sectionSwapAllowed := sectionSwapAllowed r; persistedDataManager := persistedDataManager r; scanTypeSelector := scanTypeSelector r; html5Qrcode := v; qrCodeSuccessCallback := qrCodeSuccessCallback r; qrCodeErrorCallback := qrCodeErrorCallback r; lastMatchFound := lastMatchFound r; cameraScanImage := cameraScanImage r; fileScanImage := fileScanImage r; permissionButton := permissionButton r; layout := layout r; effects := effects r |}.

Definition set_qrCodeSuccessCallback (v : option bool) (r : Html5QrcodeScanner) : Html5QrcodeScanner :=
  {| container := container r; config := config r; verbose := verbose r; currentScanType := currentScanType r; sectionSwapAllowed := sectionSwapAllowed r; persistedDataManager := persistedDataManager r; scanTypeSelector := scanTypeSelector r; html5Qrcode := html5Qrcode r; qrCodeSuccessCallback := v; qrCodeErrorCallback := qrCodeErrorCallback r; lastMatchFound := lastMatchFound r; cameraScanImage := cameraScanImage r; fileScanImage := fileScanImage r; permissionButton := permissionButton r; layout := layout r; effects := effects r |}.

Definition set_qrCodeErrorCallback (v : option bool) (r : Html5QrcodeScanner) : Html5QrcodeScanner :=
  {| container := container r; config := config r; verbose := verbose r; currentScanType := currentScanType r; sectionSwapAllowed := sectionSwapAllowed r; persistedDataManager := persistedDataManager r; scanTypeSelector := scanTypeSelector r; html5Qrcode := html5Qrcode r; qrCodeSuccessCallback := qrCodeSuccessCallback r; qrCodeErrorCallback := v; lastMatchFound := lastMatchFound r; cameraScanImage := cameraScanImage r; fileScanImage := fileScanImage r; permissionButton := permissionButton r; layout := layout r; effects := effects r |}.

Definition set_lastMatchFound (v : option string) (r : Html5QrcodeScanner) : Html5QrcodeScanner :=
  {| container := container r; config := config r; verbose := verbose r; currentScanType := currentScanType r; sectionSwapAllowed := sectionSwapAllowed r; persistedDataManager := persistedDataManager r; scanTypeSelector := scanTypeSelector r; html5Qrcode := html5Qrcode r; qrCodeSuccessCallback := qrCodeSuccessCallback r; qrCodeErrorCallback := qrCodeErrorCallback r; lastMatchFound := v; cameraScanImage := cameraScanImage r; fileScanImage := fileScanImage r; permissionButton := permissionButton r; layout := layout r; effects := effects r |}.

Definition set_cameraScanImage (v : bool) (r : Html5QrcodeScanner) : Html5QrcodeScanner :=
  {| container := container r; config := config r; verbose := verbose r; currentScanType := currentScanType r; sectionSwapAllowed := sectionSwapAllowed r; persistedDataManager := persistedDataManager r; scanTypeSelector := scanTypeSelector r; html5Qrcode := html5Qrcode r; qrCodeSuccessCallback := qrCodeSuccessCallback r; qrCodeErrorCallback := qrCodeErrorCallback r; lastMatchFound := lastMatchFound r; cameraScanImage := v; fileScanImage := fileScanImage r; permissionButton := permissionButton r; layout := layout r; effects := effects r |}.

Definition set_fileScanImage (v : bool) (r : Html5QrcodeScanner) : Html5QrcodeScanner :=
  {| container := container r; config := config r; verbose := verbose r; currentScanType := currentScanType r; sectionSwapAllowed := sectionSwapAllowed r; persistedDataManager := persistedDataManager r; scanTypeSelector := scanTypeSelector r; html5Qrcode := html5Qrcode r; qrCodeSuccessCallback := qrCodeSuccessCallback r; qrCodeErrorCallback := qrCodeErrorCallback r; lastMatchFound := lastMatchFound r; cameraScanImage := cameraScanImage r; fileScanImage := v; permissionButton := permissionButton r; layout := layout r; effects := effects r |}.

Definition set_permissionButton (v : option nat) (r : Html5QrcodeScanner) : Html5QrcodeScanner :=
  {| container := container r; config := config r; verbose := verbose r; currentScanType := currentScanType r; sectionSwapAllowed := sectionSwapAllowed r; persistedDataManager := persistedDataManager r; scanTypeSelector := scanTypeSelector r; html5Qrcode := html5Qrcode r; qrCodeSuccessCallback := qrCodeSuccessCallback r; qrCodeErrorCallback := qrCodeErrorCallback r; lastMatchFound := lastMatchFound r; cameraScanImage := cameraScanImage r; fileScanImage := fileScanImage r; permissionButton := v; layout := layout r; effects := effects r |}.

Definition set_layout (v : option Layout) (r : Html5QrcodeScanner) : Html5QrcodeScanner :=
  {| container := container r; config := config r; verbose := verbose r; currentScanType := currentScanType r; sectionSwapAllowed := sectionSwapAllowed r; persistedDataManager := persistedDataManager r; scanTypeSelector := scanTypeSelector r; html5Qrcode := html5Qrcode r; qrCodeSuccessCallback := qrCodeSuccessCallback r; qrCodeErrorCallback := qrCodeErrorCallback r; lastMatchFound := lastMatchFound r; cameraScanImage := cameraScanImage r; fileScanImage := fileScanImage r; permissionButton := permissionButton r; layout := v; effects := effects r |}.

Definition set_effects (v : list Effect) (r : Html5QrcodeScanner) : Html5QrcodeScanner :=
  {| container := container r; config := config r; verbose := verbose r; currentScanType := currentScanType r; sectionSwapAllowed := sectionSwapAllowed r; persistedDataManager := persistedDataManager r; scanTypeSelector := scanTypeSelector r; html5Qrcode := html5Qrcode r; qrCodeSuccessCallback := qrCodeSuccessCallback r; qrCodeErrorCallback := qrCodeErrorCallback r; lastMatchFound := lastMatchFound r; cameraScanImage := cameraScanImage r; fileScanImage := fileScanImage r; permissionButton := permissionButton r; layout := layout r; effects := v |}.

Definition emit (e : Effect) (s : Html5QrcodeScanner) : Html5QrcodeScanner :=
  set_effects (effects s ++ [e]) s.

Definition upd_persisted (f : PersistedDataManager -> PersistedDataManager)
    (s : Html5QrcodeScanner) : Html5QrcodeScanner :=
  set_persistedDataManager (f (persistedDataManager s)) s.

(** The DOM fields are assigned together by [createBasicLayout]; handlers
    that touch them exist only once that has run. *)
Definition upd_layout (f : Layout -> Layout) (s : Html5QrcodeScanner)
    : Html5QrcodeScanner :=
  set_layout (option_map f (layout s)) s.

Definition upd_cameraSection (f : CameraSection -> CameraSection)
    (s : Html5QrcodeScanner) : Html5QrcodeScanner :=
  upd_layout (fun u => set_cameraSection (option_map f (cameraSection u)) u) s.

Definition get_cameraSection (s : Html5QrcodeScanner) : option CameraSection :=
  match layout s with
  | Some u => cameraSection u
  | None => None
  end.

(** ** PersistedDataManager ("./storage") *)

(** Modelled from the spec: PreferenceStore (section 4.2), whose source
    file "./storage" is missing: two stored values with get, set and reset
    operations and no logic of its own.  This one is [getPermission()]. *)
Definition hasCameraPermissions (p : PersistedDataManager) : bool :=
  hasPermission p.

(** Modelled from the spec: [setPermission(granted)] of PreferenceStore. *)
Definition setHasPermission (granted : bool) (p : PersistedDataManager) :=
  set_hasPermission granted p.

(** Modelled from the spec: [getLastDevice()], unset when nothing is
    stored. *)
Definition getLastUsedCameraId (p : PersistedDataManager) : option string :=
  lastUsedCameraId p.

(** Modelled from the spec: [setLastDevice(id)] of PreferenceStore. *)
Definition setLastUsedCameraId (id : string) (p : PersistedDataManager) :=
  set_lastUsedCameraId (Some id) p.

(** Modelled from the spec: [resetLastDevice()] of PreferenceStore. *)
Definition resetLastUsedCameraId (p : PersistedDataManager) :=
  set_lastUsedCameraId None p.

(** Modelled from the spec: [resetAll()] of PreferenceStore. *)
Definition reset (p : PersistedDataManager) : PersistedDataManager :=
  {| hasPermission := false; lastUsedCameraId := None |}.

(** ** ScanTypeSelector ("./ui/scanner/scan-type-selector") *)

(** Modelled from the spec: the pure predicate [isCameraMode(mode)] of
    ModeSelector (section 4.1), whose source file is missing. *)
Definition isCameraScanType (t : Html5QrcodeScanType) : bool :=
  match t with SCAN_TYPE_CAMERA => true | SCAN_TYPE_FILE => false end.

(** Modelled from the spec: the pure predicate [isFileMode(mode)]. *)
Definition isFileScanType (t : Html5QrcodeScanType) : bool :=
  match t with SCAN_TYPE_FILE => true | SCAN_TYPE_CAMERA => false end.

Definition scanType_eqb (a b : Html5QrcodeScanType) : bool :=
  match a, b with
  | SCAN_TYPE_CAMERA, SCAN_TYPE_CAMERA => true
  | SCAN_TYPE_FILE, SCAN_TYPE_FILE => true
  | _, _ => false
  end.

Fixpoint has_duplicates (l : list Html5QrcodeScanType) : bool :=
  match l with
  | [] => false
  | t :: rest => existsb (scanType_eqb t) rest || has_duplicates rest
  end.

(** Modelled from the spec: ModeSelector (sections 3 and 4.1), whose
    source file is missing.  No request means the library's default order;
    a set that is empty or holds a duplicate is refused at construction. *)
Definition newScanTypeSelector (K : Html5QrcodeConstants)
    (requested : option (list Html5QrcodeScanType))
    : JsError + ScanTypeSelector :=
  let types :=
    match requested with
    | Some l => l
    | None => DEFAULT_SUPPORTED_SCAN_TYPE K
    end in
  match types with
  | [] => inl (Thrown "supportedScanTypes is empty")
  | t :: rest =>
      if has_duplicates types
      then inl (Thrown "supportedScanTypes has a duplicate")
      else inr {| defaultScanType := t; otherScanTypes := rest |}
  end.

(** Modelled from the spec: [defaultMode()] returns the first element. *)
Definition getDefaultScanType (sel : ScanTypeSelector) : Html5QrcodeScanType :=
  defaultScanType sel.

(** Modelled from the spec: [hasMultipleModes()] is true iff more than
    one mode is configured. *)
Definition hasMoreThanOneScanType (sel : ScanTypeSelector) : bool :=
  match otherScanTypes sel with
  | [] => false
  | _ :: _ => true
  end.

(** Modelled from the spec: the camera path is prepared only when the
    camera is among the configured modes (section 2). *)
Definition isCameraScanRequired (sel : ScanTypeSelector) : bool :=
  existsb isCameraScanType (defaultScanType sel :: otherScanTypes sel).

(** ** [clip] ("./core") *)

Definition Qltb (a b : Q) : bool := negb (Qle_bool b a).

(** Modelled from the spec: [clip] is imported from "./core", which is
    missing; it clamps [value] into [[minValue, maxValue]]. *)
Definition clip (value minValue maxValue : Q) : Q :=
  if Qltb maxValue value then maxValue
  else if Qltb value minValue then minValue
  else value.

(** ** FileSelectionUi ("./ui/scanner/file-selection-ui") *)

(** Modelled from the spec: the file-selection element, whose source is
    missing: whether it is shown, and the pending file-selection value
    that a swap clears (section 4.6, step 3). *)
Definition FileSelectionUi_create (showOnRender : bool) : FileSelectionUi :=
  {| fs_shown := showOnRender; fs_value := None |}.

(** Modelled from the spec: the visibility flag set for file mode. *)
Definition FileSelectionUi_show (ui : FileSelectionUi) : FileSelectionUi :=
  set_fs_shown true ui.

(** Modelled from the spec: the visibility flag cleared for camera mode. *)
Definition FileSelectionUi_hide (ui : FileSelectionUi) : FileSelectionUi :=
  set_fs_shown false ui.

(** Modelled from the spec: any pending file-selection value is cleared. *)
Definition FileSelectionUi_resetValue (ui : FileSelectionUi) : FileSelectionUi :=
  set_fs_value None ui.

(** ** Header message and swap link *)

Definition statusColours (scannerStatus : option Html5QrcodeScannerStatus)
    : HeaderColours :=
  match scannerStatus with
  | Some STATUS_SUCCESS => ColoursSuccess
  | Some STATUS_WARNING => ColoursWarning
  | _ => ColoursDefault
  end.

Definition setHeaderMessage (messageText : HeaderText)
    (scannerStatus : option Html5QrcodeScannerStatus)
    (s : Html5QrcodeScanner) : Html5QrcodeScanner :=
  upd_layout (set_headerMessageContainer
    {| hm_innerText := Some messageText;
       hm_display := DisplayBlock;
       hm_colours := statusColours scannerStatus |}) s.

Definition resetHeaderMessage (s : Html5QrcodeScanner) : Html5QrcodeScanner :=
  upd_layout (fun u => set_headerMessageContainer
    (set_hm_display DisplayNone (headerMessageContainer u)) u) s.

Definition showHideScanTypeSwapLink (shouldDisplay : bool)
    (s : Html5QrcodeScanner) : Html5QrcodeScanner :=
  if hasMoreThanOneScanType (scanTypeSelector s) then
    upd_layout (fun u => set_switchScanTypeLink
      (option_map
         (set_link_display
            (if shouldDisplay then DisplayInlineBlock else DisplayNone))
         (switchScanTypeLink u)) u)
      (set_sectionSwapAllowed shouldDisplay s)
  else s.

(** ** Scan region images *)

(** The first call creates the image and leaves the region to the image's
    [onload] handler; later calls place the image at once. *)
Definition insertCameraScanImageToScanRegion (s : Html5QrcodeScanner) :=
  if cameraScanImage s
  then upd_layout (set_qrCodeScanRegion (RegionImage SCAN_TYPE_CAMERA)) s
  else set_cameraScanImage true s.

Definition insertFileScanImageToScanRegion (s : Html5QrcodeScanner) :=
  if fileScanImage s
  then upd_layout (set_qrCodeScanRegion (RegionImage SCAN_TYPE_FILE)) s
  else set_fileScanImage true s.

(** The [onload] handler of an image that has been created. *)
Definition image_onload (kind : Html5QrcodeScanType) (s : Html5QrcodeScanner) :=
  if (if isCameraScanType kind then cameraScanImage s else fileScanImage s)
  then upd_layout (set_qrCodeScanRegion (RegionImage kind)) s
  else s.

Definition clearScanRegion (s : Html5QrcodeScanner) : Html5QrcodeScanner :=
  upd_layout (set_qrCodeScanRegion RegionEmpty) s.

(** ** The decoding engine ("./html5-qrcode") *)

(** Modelled from the spec: CaptureSessionManager (section 4.5), whose
    source "./html5-qrcode" is missing: the engine is scanning from a
    successful [start] until a successful [stop]; a failed [start] or
    [stop] leaves it as it was. *)
Definition engine_settled (scanning : bool) (s : Html5QrcodeScanner)
    : Html5QrcodeScanner :=
  set_html5Qrcode
    (option_map (fun _ => {| isScanning := scanning |}) (html5Qrcode s)) s.

(** ** Permission button and camera list *)

Fixpoint set_nth {A : Type} (i : nat) (x : A) (l : list A) : list A :=
  match l, i with
  | [], _ => []
  | _ :: rest, O => x :: rest
  | y :: rest, S j => y :: set_nth j x rest
  end.

Definition get_permissionButtons (s : Html5QrcodeScanner)
    : list PermissionButton :=
  match layout s with
  | Some u => requestPermissionContainer u
  | None => []
  end.

Definition set_permissionButton_disabled (i : nat) (d : bool)
    (s : Html5QrcodeScanner) : Html5QrcodeScanner :=
  upd_layout (fun u => set_requestPermissionContainer
    (set_nth i {| pb_disabled := d |} (requestPermissionContainer u)) u) s.

(** Appends a new, enabled button to the request-permission container.
    The button is held by the click handler only: no field of [this] is
    assigned. *)
Definition createPermissionButton (s : Html5QrcodeScanner) : Html5QrcodeScanner :=
  upd_layout (fun u => set_requestPermissionContainer
    (requestPermissionContainer u ++ [{| pb_disabled := false |}]) u) s.

(** [createCameraListUi] up to the call of [Html5Qrcode.getCameras()]. *)
Definition createCameraListUi (s : Html5QrcodeScanner) : Html5QrcodeScanner :=
  emit CallGetCameras
    (setHeaderMessage cameraPermissionRequesting None
       (showHideScanTypeSwapLink false s)).

Definition createPermissionButtonIfNotExists
    (requestPermissionButton : option nat) (s : Html5QrcodeScanner) :=
  match requestPermissionButton with
  | None => createPermissionButton s
  | Some _ => s
  end.

(** A click on the [i]-th permission button.  A disabled button receives
    no click, from the user or from [click()]. *)
Definition permissionButton_click (i : nat) (s : Html5QrcodeScanner)
    : Html5QrcodeScanner :=
  match nth_error (get_permissionButtons s) i with
  | Some b =>
      if pb_disabled b then s
      else createCameraListUi (set_permissionButton_disabled i true s)
  | None => s
  end.

(** ** Camera selection, start and stop *)

(** Modelled from the spec: DeviceCatalog (section 4.4), whose source
    "./ui/scanner/camera-selection-ui" is missing: the enumerated devices in
    the order returned, one current value, initially the first device. *)
Definition CameraSelectionUi_create (cameras : list CameraDevice)
    : CameraSelectionUi :=
  {| cs_cameras := cameras;
     cs_value := match cameras with c :: _ => cam_id c | [] => "" end;
     cs_enabled := true |}.

(** Modelled from the spec: exactly one device is enumerated
    ([selectSingleIfOnlyOne], section 4.4). *)
Definition hasSingleItem (ui : CameraSelectionUi) : bool :=
  (List.length (cs_cameras ui) =? 1)%nat.

(** Modelled from the spec: the id is present in the current collection
    ([restorePreferred], section 4.4). *)
Definition hasValue (id : string) (ui : CameraSelectionUi) : bool :=
  existsb (fun c => String.eqb (cam_id c) id) (cs_cameras ui).

(** Modelled from the spec: the user chooses a device in the selection
    (section 4.4: selecting a device is a pure state update).  A disabled
    selection cannot be changed, and only an enumerated device can be
    chosen. *)
Definition CameraSelectionUi_select (id : string) (s : Html5QrcodeScanner)
    : Html5QrcodeScanner :=
  match get_cameraSection s with
  | Some c =>
      if cs_enabled (cameraSelectUi c) && hasValue id (cameraSelectUi c)
      then upd_cameraSection (fun c =>
             set_cameraSelectUi (set_cs_value id (cameraSelectUi c)) c) s
      else s
  | None => s
  end.

Definition resetCameraActionStartButton (shouldShow : bool) (b : StartButton)
    : StartButton :=
  {| sb_innerText := scanButtonStartScanningText;
     sb_disabled := false;
     sb_opacity := OpacityFull;
     sb_display := if shouldShow then DisplayInlineBlock else DisplayNone |}.

Definition createAndShowTorchButtonIfSupported (caps : CameraCapabilities)
    (c : CameraSection) : CameraSection :=
  if negb (torchFeature_isSupported caps) then
    set_torchButton
      (option_map (fun _ => {| tb_shown := false |}) (torchButton c)) c
  else set_torchButton (Some {| tb_shown := true |}) c.

(** The callback given to the zoom slider:
    [(zoomValue) => { zoomCapability.apply(zoomValue); }].  It hands the
    value it receives to the capability as it is. *)
Definition onCameraZoomValueChange (zoomValue : Q) (s : Html5QrcodeScanner)
    : Html5QrcodeScanner :=
  emit (CallZoomApply zoomValue) s.

(** Modelled from the spec: the zoom slider, whose source
    "./ui/scanner/camera-zoom-ui" is missing (sections 4.3 and 6,
    [applyZoom] and [onZoomSliderMoved]).  It is a range input: it holds
    one value, reports the value it holds to the callback that is
    installed, and keeps a value the user moves it to within the bounds
    given by [setValues]. *)
Definition CameraZoomUi_onValueChange (s : Html5QrcodeScanner)
    : Html5QrcodeScanner :=
  match get_cameraSection s with
  | Some c =>
      match zu_callback (cameraZoomUi c), zu_values (cameraZoomUi c) with
      | Some _, Some values => onCameraZoomValueChange (zv_value values) s
      | _, _ => s
      end
  | None => s
  end.

(** Modelled from the spec: [setValues] stores the bounds, the step and
    the value, and reports the value. *)
Definition CameraZoomUi_setValues (minValue maxValue defaultValue step : Q)
    (s : Html5QrcodeScanner) : Html5QrcodeScanner :=
  CameraZoomUi_onValueChange
    (upd_cameraSection (fun c =>
       set_cameraZoomUi
         (set_zu_values
            (Some {| zv_min := minValue; zv_max := maxValue;
                     zv_value := defaultValue; zv_step := step |})
            (cameraZoomUi c)) c) s).

(** Modelled from the spec: the user moves the slider towards [value].
    A hidden slider cannot be moved; a shown one takes the value clamped
    into its bounds and reports it. *)
Definition CameraZoomUi_input (value : Q) (s : Html5QrcodeScanner)
    : Html5QrcodeScanner :=
  match get_cameraSection s with
  | Some c =>
      match zu_values (cameraZoomUi c) with
      | Some values =>
          if zu_shown (cameraZoomUi c) then
            CameraZoomUi_onValueChange
              (upd_cameraSection (fun c =>
                 set_cameraZoomUi
                   (set_zu_values
                      (Some {| zv_min := zv_min values;
                               zv_max := zv_max values;
                               zv_value :=
                                 clip value (zv_min values) (zv_max values);
                               zv_step := zv_step values |})
                      (cameraZoomUi c)) c) s)
          else s
      | None => s
      end
  | None => s
  end.

Definition renderCameraZoomUiIfSupported (caps : CameraCapabilities)
    (s : Html5QrcodeScanner) : Html5QrcodeScanner :=
  let zoomCapability := zoomFeature caps in
  if negb (zoom_isSupported zoomCapability) then s
  else
    let s := upd_cameraSection (fun c =>
      set_cameraZoomUi
        (set_zu_callback (Some zoomCapability) (cameraZoomUi c)) c) s in
    let defaultZoom :=
      match defaultZoomValueIfSupported (config s) with
      | Some z => if truthy_number (Some z) then z else 1
      | None => 1
      end in
    let defaultZoom :=
      clip defaultZoom (zoom_min zoomCapability) (zoom_max zoomCapability) in
    let s :=
      CameraZoomUi_setValues (zoom_min zoomCapability)
        (zoom_max zoomCapability) defaultZoom (zoom_step zoomCapability) s in
    upd_cameraSection (fun c =>
      set_cameraZoomUi (set_zu_shown true (cameraZoomUi c)) c) s.

(** The failure callback given to the torch button. *)
Definition torchButton_onFailure (errorMessage : JsError)
    (s : Html5QrcodeScanner) : Html5QrcodeScanner :=
  match get_cameraSection s with
  | Some c =>
      match torchButton c with
      | Some _ =>
          setHeaderMessage (errorText errorMessage) (Some STATUS_WARNING) s
      | None => s
      end
  | None => s
  end.

(** The click listener of the start button. *)
Definition cameraActionStartButton_onclick (c : CameraSection)
    (s : Html5QrcodeScanner) : Html5QrcodeScanner :=
  let s := upd_cameraSection (fun c =>
    set_cameraActionStartButton
      (set_sb_opacity OpacityHalf
         (set_sb_disabled true
            (set_sb_innerText scanButtonScanningStarting
               (cameraActionStartButton c))))
      (set_cameraSelectUi (set_cs_enabled false (cameraSelectUi c)) c)) s in
  let s :=
    if hasMoreThanOneScanType (scanTypeSelector s)
    then showHideScanTypeSwapLink false s else s in
  let s := resetHeaderMessage s in
  let cameraId := cs_value (cameraSelectUi c) in
  let s := upd_persisted (setLastUsedCameraId cameraId) s in
  match html5Qrcode s with
  | Some _ => emit (CallStart cameraId) s
  | None => emit (Uncaught TypeError) s
  end.

Definition cameraActionStartButton_click (s : Html5QrcodeScanner)
    : Html5QrcodeScanner :=
  match get_cameraSection s with
  | Some c =>
      if sb_disabled (cameraActionStartButton c) then s
      else cameraActionStartButton_onclick c s
  | None => s
  end.

Definition start_then (caps : CameraCapabilities) (s : Html5QrcodeScanner)
    : Html5QrcodeScanner :=
  let s := upd_cameraSection (fun c =>
    set_cameraActionStartButton
      (resetCameraActionStartButton false (cameraActionStartButton c))
      (set_cameraActionStopButton
         {| stop_disabled := false; stop_display := DisplayInlineBlock |} c)) s in
  let s :=
    if is_true (showTorchButtonIfSupported (config s))
    then upd_cameraSection (createAndShowTorchButtonIfSupported caps) s
    else s in
  if is_true (showZoomSliderIfSupported (config s))
  then renderCameraZoomUiIfSupported caps s
  else s.

Definition start_catch (error : JsError) (s : Html5QrcodeScanner)
    : Html5QrcodeScanner :=
  let s := showHideScanTypeSwapLink true s in
  let s := upd_cameraSection (fun c =>
    set_cameraActionStartButton
      (resetCameraActionStartButton true (cameraActionStartButton c))
      (set_cameraSelectUi (set_cs_enabled true (cameraSelectUi c)) c)) s in
  setHeaderMessage (errorText error) (Some STATUS_WARNING) s.

Definition start_settled (o : Settled CameraCapabilities)
    (s : Html5QrcodeScanner) : Html5QrcodeScanner :=
  match o with
  | Resolved caps => start_then caps (engine_settled true s)
  | Rejected error => start_catch error s
  end.

(** The click listener of the stop button. *)
Definition cameraActionStopButton_onclick (s : Html5QrcodeScanner)
    : Html5QrcodeScanner :=
  match html5Qrcode s with
  | None => emit (Uncaught (Thrown "html5Qrcode not defined")) s
  | Some _ =>
      emit CallStop
        (upd_cameraSection (fun c =>
           set_cameraActionStopButton
             (set_stop_disabled true (cameraActionStopButton c)) c) s)
  end.

Definition cameraActionStopButton_click (s : Html5QrcodeScanner)
    : Html5QrcodeScanner :=
  match get_cameraSection s with
  | Some c =>
      if stop_disabled (cameraActionStopButton c) then s
      else cameraActionStopButton_onclick s
  | None => s
  end.

Definition stop_then (s : Html5QrcodeScanner) : Html5QrcodeScanner :=
  let s :=
    if hasMoreThanOneScanType (scanTypeSelector s)
    then showHideScanTypeSwapLink true s else s in
  let s := upd_cameraSection (fun c =>
    set_cameraZoomUi
      (set_zu_shown false (set_zu_callback None (cameraZoomUi c)))
      (set_torchButton
         (option_map (fun _ => {| tb_shown := false |}) (torchButton c))
         (set_cameraActionStartButton
            (set_sb_display DisplayInlineBlock
               (set_sb_disabled false (cameraActionStartButton c)))
            (set_cameraActionStopButton
               (set_stop_display DisplayNone (cameraActionStopButton c))
               (set_cameraSelectUi
                  (set_cs_enabled true (cameraSelectUi c)) c))))) s in
  insertCameraScanImageToScanRegion s.

Definition stop_catch (error : JsError) (s : Html5QrcodeScanner)
    : Html5QrcodeScanner :=
  setHeaderMessage (errorText error) (Some STATUS_WARNING)
    (upd_cameraSection (fun c =>
       set_cameraActionStopButton
         (set_stop_disabled false (cameraActionStopButton c)) c) s).

Definition stop_settled (o : Settled unit) (s : Html5QrcodeScanner)
    : Html5QrcodeScanner :=
  match o with
  | Resolved _ => stop_then (engine_settled false s)
  | Rejected error => stop_catch error s
  end.

(** The elements [renderCameraSelection] creates, before any click. *)
Definition new_cameraSection (cameras : list CameraDevice) : CameraSection :=
  {| cameraSelectUi := CameraSelectionUi_create cameras;
     cameraActionStartButton :=
       {| sb_innerText := scanButtonStartScanningText;
          sb_disabled := false;
          sb_opacity := OpacityUnset;
          sb_display := DisplayUnset |};
     cameraActionStopButton :=
       {| stop_disabled := true; stop_display := DisplayNone |};
     torchButton := None;
     cameraZoomUi :=
       {| zu_shown := false; zu_values := None; zu_callback := None |} |}.

Definition renderCameraSelection (cameras : list CameraDevice)
    (s : Html5QrcodeScanner) : Html5QrcodeScanner :=
  let selectUi := CameraSelectionUi_create cameras in
  let s := upd_layout (set_cameraSection (Some (new_cameraSection cameras))) s in
  let s :=
    if hasSingleItem selectUi
    then cameraActionStartButton_click s else s in
  match getLastUsedCameraId (persistedDataManager s) with
  | Some cameraId =>
      if String.eqb cameraId "" then s
      else if hasValue cameraId selectUi then
        cameraActionStartButton_click
          (upd_cameraSection (fun c =>
             set_cameraSelectUi (set_cs_value cameraId (cameraSelectUi c)) c) s)
      else upd_persisted resetLastUsedCameraId s
  | None => s
  end.

Definition requestPermissionContainer_isChild (s : Html5QrcodeScanner) : bool :=
  match layout s with
  | Some u => requestPermissionContainer_attached u
  | None => false
  end.

Definition getCameras_then (requestPermissionButton : option nat)
    (cameras : list CameraDevice) (s : Html5QrcodeScanner)
    : Completion Html5QrcodeScanner :=
  let s := upd_persisted (setHasPermission true) s in
  let s := showHideScanTypeSwapLink true s in
  let s := resetHeaderMessage s in
  match cameras with
  | _ :: _ =>
      if requestPermissionContainer_isChild s then
        Normal (renderCameraSelection cameras
                  (upd_layout (set_requestPermissionContainer_attached false) s))
      else Throws NotFoundError s
  | [] =>
      Normal (createPermissionButtonIfNotExists requestPermissionButton
                (setHeaderMessage noCameraFound (Some STATUS_WARNING) s))
  end.

Definition getCameras_catch (requestPermissionButton : option nat)
    (error : JsError) (s : Html5QrcodeScanner) : Html5QrcodeScanner :=
  let s := upd_persisted (setHasPermission false) s in
  let s :=
    match requestPermissionButton with
    | Some i => set_permissionButton_disabled i false s
    | None => createPermissionButtonIfNotExists requestPermissionButton s
    end in
  let s := setHeaderMessage (errorText error) (Some STATUS_WARNING) s in
  showHideScanTypeSwapLink true s.

(** [p.then(f).catch(g)]: [g] also receives what [f] throws. *)
Definition getCameras_settled (requestPermissionButton : option nat)
    (o : Settled (list CameraDevice)) (s : Html5QrcodeScanner)
    : Html5QrcodeScanner :=
  match o with
  | Resolved cameras =>
      match getCameras_then requestPermissionButton cameras s with
      | Normal s' => s'
      | Throws error s' => getCameras_catch requestPermissionButton error s'
      end
  | Rejected error => getCameras_catch requestPermissionButton error s
  end.

(** ** Permission check at render *)

Definition createPermissionsUi (s : Html5QrcodeScanner) : Html5QrcodeScanner :=
  if isCameraScanType (currentScanType s)
     && hasCameraPermissions (persistedDataManager s)
  then emit CallHasPermissions s
  else createPermissionButton s.

Definition createPermissionsUi_settled (o : Settled bool)
    (s : Html5QrcodeScanner) : Html5QrcodeScanner :=
  match o with
  | Resolved true => createCameraListUi s
  | Resolved false =>
      createPermissionButton (upd_persisted (setHasPermission false) s)
  | Rejected _ =>
      createPermissionButton (upd_persisted (setHasPermission false) s)
  end.

(** ** Result callbacks installed by [render] *)

Definition option_string_eqb (a : option string) (b : string) : bool :=
  match a with
  | Some x => String.eqb x b
  | None => false
  end.

(** The wrapper stored in [this.qrCodeSuccessCallback]; [callerSupplied]
    tells whether [render] was given a success callback. *)
Definition successWrapper (callerSupplied : bool) (decodedText : string)
    (s : Html5QrcodeScanner) : Html5QrcodeScanner :=
  if callerSupplied then emit (CallerSuccess decodedText) s
  else if option_string_eqb (lastMatchFound s) decodedText then s
  else
    setHeaderMessage (lastMatch decodedText) (Some STATUS_SUCCESS)
      (set_lastMatchFound (Some decodedText) s).

Definition errorWrapper (callerSupplied : bool) (error : JsError)
    (s : Html5QrcodeScanner) : Html5QrcodeScanner :=
  if callerSupplied then emit (CallerError error) s else s.

(** The engine reports a decoded text, or a frame without one, to the
    callbacks it was started with. *)
Definition engine_decoded (decodedText : string) (s : Html5QrcodeScanner) :=
  match qrCodeSuccessCallback s with
  | Some callerSupplied => successWrapper callerSupplied decodedText s
  | None => s
  end.

Definition engine_decodeFailed (error : JsError) (s : Html5QrcodeScanner) :=
  match qrCodeErrorCallback s with
  | Some callerSupplied => errorWrapper callerSupplied error s
  | None => s
  end.

(** ** File scan *)

(** The file input takes the chosen file as its value and calls
    [onFileSelected]. *)
Definition onFileSelected (file : string) (s : Html5QrcodeScanner)
    : Html5QrcodeScanner :=
  let s := upd_layout (fun u =>
    set_fileSelectionUi (set_fs_value (Some file) (fileSelectionUi u)) u) s in
  match html5Qrcode s with
  | None => emit (Uncaught (Thrown "html5Qrcode not defined")) s
  | Some _ =>
      if negb (isFileScanType (currentScanType s)) then s
      else emit (CallScanFile file) (setHeaderMessage loadingImage None s)
  end.

Definition scanFile_then (decodedText : string) (s : Html5QrcodeScanner)
    : Completion Html5QrcodeScanner :=
  let s := resetHeaderMessage s in
  match qrCodeSuccessCallback s with
  | Some callerSupplied => Normal (successWrapper callerSupplied decodedText s)
  | None => Throws TypeError s
  end.

Definition scanFile_catch (error : JsError) (s : Html5QrcodeScanner)
    : Html5QrcodeScanner :=
  let s := setHeaderMessage (errorText error) (Some STATUS_WARNING) s in
  match qrCodeErrorCallback s with
  | Some callerSupplied => errorWrapper callerSupplied error s
  | None => emit (Uncaught TypeError) s
  end.

Definition scanFile_settled (o : Settled string) (s : Html5QrcodeScanner)
    : Html5QrcodeScanner :=
  match o with
  | Resolved decodedText =>
      match scanFile_then decodedText s with
      | Normal s' => s'
      | Throws error s' => scanFile_catch error s'
      end
  | Rejected error => scanFile_catch error s
  end.

(** ** Section swap *)

Definition startCameraScanIfPermissionExistsOnSwap (s : Html5QrcodeScanner) :=
  if hasCameraPermissions (persistedDataManager s)
  then emit CallHasPermissions s
  else s.

Definition permissionsOnSwap_then (hasPermissions : bool)
    (s : Html5QrcodeScanner) : Completion Html5QrcodeScanner :=
  if hasPermissions then
    match permissionButton s with
    | None =>
        Throws (Thrown "Permission button not found")
          (emit (LogError "Permission button not found, fail;") s)
    | Some i => Normal (permissionButton_click i s)
    end
  else Normal (upd_persisted (setHasPermission false) s).

Definition permissionsOnSwap_catch (error : JsError) (s : Html5QrcodeScanner) :=
  upd_persisted (setHasPermission false) s.

Definition permissionsOnSwap_settled (o : Settled bool)
    (s : Html5QrcodeScanner) : Html5QrcodeScanner :=
  match o with
  | Resolved hasPermissions =>
      match permissionsOnSwap_then hasPermissions s with
      | Normal s' => s'
      | Throws error s' => permissionsOnSwap_catch error s'
      end
  | Rejected error => permissionsOnSwap_catch error s
  end.

(** The swap handler in three parts: the cleanup that closes the guard,
    the activation of the other scan type, the reopening of the guard. *)
Definition swap_cleanup (s : Html5QrcodeScanner) : Html5QrcodeScanner :=
  let s := resetHeaderMessage s in
  let s := upd_layout (fun u =>
    set_fileSelectionUi (FileSelectionUi_resetValue (fileSelectionUi u)) u) s in
  set_sectionSwapAllowed false s.

Definition swap_activate (s : Html5QrcodeScanner) : Html5QrcodeScanner :=
  if isCameraScanType (currentScanType s) then
    let s := clearScanRegion s in
    let s := upd_layout (fun u =>
      set_switchScanTypeLink
        (option_map (set_link_innerText TEXT_IF_FILE_SCAN_SELECTED)
           (switchScanTypeLink u))
        (set_fileSelectionUi (FileSelectionUi_show (fileSelectionUi u))
           (set_scpCameraScanRegion_display DisplayNone u))) s in
    let s := set_currentScanType SCAN_TYPE_FILE s in
    insertFileScanImageToScanRegion s
  else
    let s := clearScanRegion s in
    let s := upd_layout (fun u =>
      set_switchScanTypeLink
        (option_map (set_link_innerText TEXT_IF_CAMERA_SCAN_SELECTED)
           (switchScanTypeLink u))
        (set_fileSelectionUi (FileSelectionUi_hide (fileSelectionUi u))
           (set_scpCameraScanRegion_display DisplayBlock u))) s in
    let s := set_currentScanType SCAN_TYPE_CAMERA s in
    let s := insertCameraScanImageToScanRegion s in
    startCameraScanIfPermissionExistsOnSwap s.

Definition switchScanTypeLink_onclick (s : Html5QrcodeScanner)
    : Html5QrcodeScanner :=
  if negb (sectionSwapAllowed s) then
    if verbose s
    then emit (LogError "Section swap called when not allowed") s
    else s
  else set_sectionSwapAllowed true (swap_activate (swap_cleanup s)).

(** A click on the swap link, which exists once [createSectionSwap] ran. *)
Definition switchScanTypeLink_click (s : Html5QrcodeScanner)
    : Html5QrcodeScanner :=
  match layout s with
  | Some u =>
      match switchScanTypeLink u with
      | Some _ => switchScanTypeLink_onclick s
      | None => s
      end
  | None => s
  end.

(** ** render and clear *)

Definition createSectionSwap (s : Html5QrcodeScanner) : Html5QrcodeScanner :=
  upd_layout (set_switchScanTypeLink (Some
    {| link_innerText :=
         if isCameraScanType (currentScanType s)
         then TEXT_IF_CAMERA_SCAN_SELECTED else TEXT_IF_FILE_SCAN_SELECTED;
       link_display := DisplayUnset |})) s.

Definition createBasicLayout (s : Html5QrcodeScanner) : Html5QrcodeScanner :=
  let s := set_container
    {| innerHTML := ContentScannerLayout; border := BorderSolidSilver |} s in
  let s := set_layout (Some
    {| headerMessageContainer :=
         {| hm_innerText := None;
            hm_display := DisplayNone;
            hm_colours := ColoursUnset |};
       qrCodeScanRegion := RegionEmpty;
       scpCameraScanRegion_display :=
         if isCameraScanType (currentScanType s)
         then DisplayBlock else DisplayNone;
       requestPermissionContainer_attached := true;
       requestPermissionContainer := [];
       fileSelectionUi :=
         FileSelectionUi_create (isFileScanType (currentScanType s));
       switchScanTypeLink := None;
       cameraSection := None |}) s in
  let s :=
    if isCameraScanType (currentScanType s)
    then insertCameraScanImageToScanRegion s
    else insertFileScanImageToScanRegion s in
  let s :=
    if isCameraScanRequired (scanTypeSelector s)
    then createPermissionsUi s else s in
  if hasMoreThanOneScanType (scanTypeSelector s)
  then createSectionSwap s else s.

(** [qrCodeSuccessCallback] and [qrCodeErrorCallback] tell whether the
    caller passed a callback. *)
Definition render (qrCodeSuccessCallback' qrCodeErrorCallback' : bool)
    (s : Html5QrcodeScanner) : Html5QrcodeScanner :=
  let s := set_lastMatchFound None s in
  let s := set_qrCodeSuccessCallback (Some qrCodeSuccessCallback') s in
  let s := set_qrCodeErrorCallback (Some qrCodeErrorCallback') s in
  let s := set_container
    {| innerHTML := ContentEmpty; border := border (container s) |} s in
  let s := createBasicLayout s in
  set_html5Qrcode (Some {| isScanning := false |}) s.

Definition emptyHtmlContainer (s : Html5QrcodeScanner) : Html5QrcodeScanner :=
  set_container {| innerHTML := ContentEmpty; border := BorderNone |} s.

(** [clear()] up to the first promise it waits for. *)
Definition clear (s : Html5QrcodeScanner) : Html5QrcodeScanner :=
  match html5Qrcode s with
  | Some h =>
      if isScanning h then emit CallStop s
      else emit ClearResolved (emptyHtmlContainer (emit CallClear s))
  | None => emit ClearResolved s
  end.

Definition clear_stop_then (s : Html5QrcodeScanner) : Html5QrcodeScanner :=
  match html5Qrcode s with
  | None => emit ClearResolved s
  | Some _ => emit ClearResolved (emptyHtmlContainer (emit CallClear s))
  end.

Definition clear_stop_catch (error : JsError) (s : Html5QrcodeScanner)
    : Html5QrcodeScanner :=
  let s :=
    if verbose s then emit (LogError "Unable to stop qrcode scanner") s
    else s in
  emit (ClearRejected error) s.

Definition clear_stop_settled (o : Settled unit) (s : Html5QrcodeScanner)
    : Html5QrcodeScanner :=
  match o with
  | Resolved _ => clear_stop_then (engine_settled false s)
  | Rejected error => clear_stop_catch error s
  end.

(** ** Construction *)

(** The first constructor argument, with what the document answers for it:
    an id and whether [getElementById] finds it, or a value and whether it
    is an [HTMLElement]. *)
Inductive ElementOrId :=
| ElementId (elementId : string) (found : bool)
| Element (isHTMLElement : bool).

Definition validateInput (elementOrId : ElementOrId) : JsError + unit :=
  match elementOrId with
  | ElementId elementId found =>
      if found then inr tt
      else inl (Thrown ("HTML Element with id=" ++ elementId ++ " not found"))
  | Element isHTMLElement =>
      if isHTMLElement then inr tt
      else inl (Thrown "HTML Element is not valid")
  end.

Definition option_bool_eqb (a : option bool) (b : bool) : bool :=
  match a with
  | Some x => Bool.eqb x b
  | None => false
  end.

(** [createConfig] fills the caller's object in place and returns it, or
    returns a new object when there is none. *)
Definition createConfig (K : Html5QrcodeConstants)
    (config : option Html5QrcodeScannerConfig) : Html5QrcodeScannerConfig :=
  match config with
  | Some c =>
      {| fps := if truthy_number (fps c) then fps c
                else Some (SCAN_DEFAULT_FPS K);
         rememberLastUsedCamera :=
           if option_bool_eqb (rememberLastUsedCamera c)
                (negb (DEFAULT_REMEMBER_LAST_CAMERA_USED K))
           then rememberLastUsedCamera c
           else Some (DEFAULT_REMEMBER_LAST_CAMERA_USED K);
         supportedScanTypes :=
           match supportedScanTypes c with
           | Some l => Some l
           | None => Some (DEFAULT_SUPPORTED_SCAN_TYPE K)
           end;
         showTorchButtonIfSupported := showTorchButtonIfSupported c;
         showZoomSliderIfSupported := showZoomSliderIfSupported c;
         defaultZoomValueIfSupported := defaultZoomValueIfSupported c |}
  | None =>
      {| fps := Some (SCAN_DEFAULT_FPS K);
         rememberLastUsedCamera := Some (DEFAULT_REMEMBER_LAST_CAMERA_USED K);
         supportedScanTypes := Some (DEFAULT_SUPPORTED_SCAN_TYPE K);
         showTorchButtonIfSupported := None;
         showZoomSliderIfSupported := None;
         defaultZoomValueIfSupported := None |}
  end.

(** The fields as the constructor leaves them, given the configuration
    [createConfig] returned, the selector built from it and the stored
    preferences. *)
Definition constructed (this_config : Html5QrcodeScannerConfig)
    (selector : ScanTypeSelector) (verbose' : option bool)
    (stored : PersistedDataManager) : Html5QrcodeScanner :=
  {| container := {| innerHTML := ContentOfPage; border := BorderOfPage |};
     config := this_config;
     verbose := is_true verbose';
     currentScanType := getDefaultScanType selector;
     sectionSwapAllowed := true;
     persistedDataManager :=
       if negb (is_true (rememberLastUsedCamera this_config))
       then reset stored else stored;
     scanTypeSelector := selector;
     html5Qrcode := None;
     qrCodeSuccessCallback := None;
     qrCodeErrorCallback := None;
     lastMatchFound := None;
     cameraScanImage := false;
     fileScanImage := false;
     permissionButton := None;
     layout := None;
     effects := [] |}.

(** [new Html5QrcodeScanner(elementOrId, config, verbose)].  [stored] is
    what the browser's storage holds when [PersistedDataManager] is
    created.  The last statement reads [config!.rememberLastUsedCamera]
    from the constructor's argument: with a caller's object that is the
    object [createConfig] has just filled, with [undefined] the read
    fails. *)
Definition constructor (K : Html5QrcodeConstants) (elementOrId : ElementOrId)
    (config : option Html5QrcodeScannerConfig) (verbose' : option bool)
    (stored : PersistedDataManager) : JsError + Html5QrcodeScanner :=
  match validateInput elementOrId with
  | inl error => inl error
  | inr _ =>
      let this_config := createConfig K config in
      match newScanTypeSelector K (supportedScanTypes this_config) with
      | inl error => inl error
      | inr selector =>
          match config with
          | None => inl TypeError
          | Some _ => inr (constructed this_config selector verbose' stored)
          end
      end
  end.

(** ** The event loop *)

(** What can happen to a scanner: a public method is called, the user
    acts on an element, a promise settles, the engine reports a frame.
    [pause], [resume], [getState] and the running-track methods only hand
    over to the engine and change no field, so they are no events here.
    [EvCameraSelected id] is the user choosing the device [id] in the
    camera selection, and [EvZoomChange zoomValue] is the user moving the
    zoom slider towards [zoomValue]; the slider keeps what it holds and
    reports within its bounds. *)
Inductive Event :=
| EvRender (qrCodeSuccessCallback' qrCodeErrorCallback' : bool)
| EvClear
| EvClearStopSettled (o : Settled unit)
| EvPermissionsAtRenderSettled (o : Settled bool)
| EvPermissionButtonClick (i : nat)
| EvCameraSelected (id : string)
| EvGetCamerasSettled (requestPermissionButton : option nat)
    (o : Settled (list CameraDevice))
| EvStartClick
| EvStartSettled (o : Settled CameraCapabilities)
| EvStopClick
| EvStopSettled (o : Settled unit)
| EvZoomChange (zoomValue : Q)
| EvTorchFailed (errorMessage : JsError)
| EvSwapClick
| EvPermissionsOnSwapSettled (o : Settled bool)
| EvFileSelected (file : string)
| EvScanFileSettled (o : Settled string)
| EvDecoded (decodedText : string)
| EvDecodeFailed (error : JsError)
| EvImageLoaded (kind : Html5QrcodeScanType).

(** Everything but [render] and [clear] is a handler or continuation
    created while rendering, so it runs on a rendered scanner only. *)
Definition step (e : Event) (s : Html5QrcodeScanner) : Html5QrcodeScanner :=
  match e with
  | EvRender sc ec => render sc ec s
  | EvClear => clear s
  | EvClearStopSettled o => clear_stop_settled o s
  | _ =>
      match layout s with
      | None => s
      | Some _ =>
          match e with
          | EvPermissionsAtRenderSettled o => createPermissionsUi_settled o s
          | EvPermissionButtonClick i => permissionButton_click i s
          | EvGetCamerasSettled b o => getCameras_settled b o s
          | EvStartClick => cameraActionStartButton_click s
          | EvStartSettled o => start_settled o s
          | EvStopClick => cameraActionStopButton_click s
          | EvStopSettled o => stop_settled o s
          | EvZoomChange v => CameraZoomUi_input v s
          | EvCameraSelected id => CameraSelectionUi_select id s
          | EvTorchFailed error => torchButton_onFailure error s
          | EvSwapClick => switchScanTypeLink_click s
          | EvPermissionsOnSwapSettled o => permissionsOnSwap_settled o s
          | EvFileSelected file => onFileSelected file s
          | EvScanFileSettled o => scanFile_settled o s
          | EvDecoded decodedText => engine_decoded decodedText s
          | EvDecodeFailed error => engine_decodeFailed error s
          | EvImageLoaded kind => image_onload kind s
          | _ => s
          end
      end
  end.

Definition run (events : list Event) (s : Html5QrcodeScanner)
    : Html5QrcodeScanner :=
  fold_left (fun s e => step e s) events s.

(** The scanners that exist: built by the constructor, then driven by
    events. *)
Inductive reachable (K : Html5QrcodeConstants) : Html5QrcodeScanner -> Prop :=
| reachable_new elementOrId config verbose' stored s :
    constructor K elementOrId config verbose' stored = inr s ->
    reachable K s
| reachable_step e s :
    reachable K s -> reachable K (step e s).

(** What no handler changes: the [permissionButton] field, the scan type
    selector, and (the guard being written only by the swap link's own
    code) the guard of a scanner with a single scan type. *)
Definition fixed_part (s : Html5QrcodeScanner)
    : option nat * ScanTypeSelector * bool :=
  (permissionButton s, scanTypeSelector s,
   hasMoreThanOneScanType (scanTypeSelector s) || sectionSwapAllowed s).

Definition swap_link_exists (s : Html5QrcodeScanner) : bool :=
  match layout s with
  | Some u =>
      match switchScanTypeLink u with
      | Some _ => true
      | None => false
      end
  | None => false
  end.

(** The events of a section swap: the click and the settlement of the
    permission check it may start. *)
Definition swap_event (e : Event) : bool :=
  match e with
  | EvSwapClick => true
  | EvPermissionsOnSwapSettled _ => true
  | _ => false
  end.

(** ** Sample scanners *)

Definition library_constants : Html5QrcodeConstants :=
  {| SCAN_DEFAULT_FPS := 2;
     DEFAULT_REMEMBER_LAST_CAMERA_USED := true;
     DEFAULT_SUPPORTED_SCAN_TYPE := [SCAN_TYPE_CAMERA; SCAN_TYPE_FILE] |}.

Definition empty_config : Html5QrcodeScannerConfig :=
  {| fps := None;
     rememberLastUsedCamera := None;
     supportedScanTypes := None;
     showTorchButtonIfSupported := None;
     showZoomSliderIfSupported := None;
     defaultZoomValueIfSupported := None |}.

Definition file_first_config : Html5QrcodeScannerConfig :=
  {| fps := None;
     rememberLastUsedCamera := Some true;
     supportedScanTypes := Some [SCAN_TYPE_FILE; SCAN_TYPE_CAMERA];
     showTorchButtonIfSupported := None;
     showZoomSliderIfSupported := Some true;
     defaultZoomValueIfSupported := None |}.

Definition nothing_stored : PersistedDataManager :=
  {| hasPermission := false; lastUsedCameraId := None |}.

Definition permission_stored : PersistedDataManager :=
  {| hasPermission := true; lastUsedCameraId := None |}.

Definition zoom_config : Html5QrcodeScannerConfig :=
  {| fps := Some 10;
     rememberLastUsedCamera := None;
     supportedScanTypes := None;
     showTorchButtonIfSupported := None;
     showZoomSliderIfSupported := Some true;
     defaultZoomValueIfSupported := Some 9 |}.

(** A camera-first scanner with both scan types and nothing stored. *)
Definition camera_first_scanner : Html5QrcodeScanner :=
  constructed (createConfig library_constants (Some zoom_config))
    {| defaultScanType := SCAN_TYPE_CAMERA;
       otherScanTypes := [SCAN_TYPE_FILE] |}
    None nothing_stored.

(** A file-first scanner whose storage says permission was granted. *)
Definition file_first_scanner : Html5QrcodeScanner :=
  constructed (createConfig library_constants (Some file_first_config))
    {| defaultScanType := SCAN_TYPE_FILE;
       otherScanTypes := [SCAN_TYPE_CAMERA] |}
    None permission_stored.

Definition two_cameras : list CameraDevice :=
  [ {| cam_id := "cam-back"; cam_label := "Back camera" |};
    {| cam_id := "cam-front"; cam_label := "Front camera" |} ].

Definition zoom_1_to_5 : CameraCapabilities :=
  {| zoomFeature :=
       {| zoom_isSupported := true; zoom_min := 1; zoom_max := 5;
          zoom_step := 1 # 10 |};
     torchFeature_isSupported := false |}.

Definition file_first_rendered : Html5QrcodeScanner :=
  step (EvRender false false) file_first_scanner.

Definition camera_first_rendered : Html5QrcodeScanner :=
  step (EvRender false false) camera_first_scanner.

(** The camera-first scanner after the user asked for permission and two
    cameras were listed. *)
Definition cameras_listed : Html5QrcodeScanner :=
  run [EvPermissionButtonClick 0;
       EvGetCamerasSettled (Some 0%nat) (Resolved two_cameras)]
    camera_first_rendered.

Definition get_header (s : Html5QrcodeScanner) : option HeaderMessageContainer :=
  option_map headerMessageContainer (layout s).

(** [createBasicLayout] has run: the DOM fields are assigned. *)
Definition rendered (s : Html5QrcodeScanner) : bool :=
  match layout s with
  | Some _ => true
  | None => false
  end.

(** The camera-first scanner after a click on its request-permission
    button, while the camera list is awaited. *)
Definition permission_requested : Html5QrcodeScanner :=
  step (EvPermissionButtonClick 0) camera_first_rendered.

(** The camera-first scanner scanning with the back camera, on a device
    whose zoom goes from 1 to 5. *)
Definition zoom_session : Html5QrcodeScanner :=
  run [EvStartClick; EvStartSettled (Resolved zoom_1_to_5)] cameras_listed.

Definition zoom_callback_installed (s : Html5QrcodeScanner) : bool :=
  match get_cameraSection s with
  | Some c =>
      match zu_callback (cameraZoomUi c) with
      | Some _ => true
      | None => false
      end
  | None => false
  end.

(** The zoom slider is shown with the bounds [lo] and [hi] and the step
    [step], and a callback is installed on it. *)
Definition slider_set_up (lo hi step : Q) (s : Html5QrcodeScanner) : Prop :=
  exists c value zoomCapability,
    get_cameraSection s = Some c /\
    cameraZoomUi c
    = {| zu_shown := true;
         zu_values := Some {| zv_min := lo; zv_max := hi;
                              zv_value := value; zv_step := step |};
         zu_callback := Some zoomCapability |}.

(** The zoom value the camera was last given: the argument of the last
    [zoomCapability.apply]. *)
Definition applied_zoom (s : Html5QrcodeScanner) : option Q :=
  fold_left
    (fun last e =>
       match e with
       | CallZoomApply value => Some value
       | _ => last
       end)
    (effects s) None.

(** The permission checks asked for so far. *)
Definition permission_checks (s : Html5QrcodeScanner) : nat :=
  List.length
    (filter (fun e => match e with CallHasPermissions => true | _ => false end)
       (effects s)).

(** The swaps in flight after a run that began with [pending] of them: a
    click on the swap link that asks for the permission check of the
    camera auto-start begins one, and the settling of such a check ends
    one. *)
Fixpoint swaps_in_flight (events : list Event) (s : Html5QrcodeScanner)
    (pending : nat) : nat :=
  match events with
  | [] => pending
  | e :: events =>
      swaps_in_flight events (step e s)
        match e with
        | EvSwapClick =>
            if (permission_checks s <? permission_checks (step e s))%nat
            then S pending else pending
        | EvPermissionsOnSwapSettled _ => Nat.pred pending
        | _ => pending
        end
  end.

Definition is_thrown {A : Type} (r : JsError + A) : bool :=
  match r with
  | inl _ => true
  | inr _ => false
  end.

(** ** Engine hand-over *)

Definition getHtml5QrcodeOrFail (s : Html5QrcodeScanner)
    : JsError + Html5Qrcode :=
  match html5Qrcode s with
  | Some h => inr h
  | None => inl (Thrown "Code scanner not initialized.")
  end.

(** [pause(shouldPauseVideo)]: the result is the argument with which the
    engine's [pause] is called. *)
Definition pause (shouldPauseVideo : option bool) (s : Html5QrcodeScanner)
    : JsError + bool :=
  let shouldPauseVideo := is_true shouldPauseVideo in
  match getHtml5QrcodeOrFail s with
  | inl error => inl error
  | inr _ => inr shouldPauseVideo
  end.

(** [resume()] and [getState()]: the result is the engine the call is
    handed to. *)
Definition resume (s : Html5QrcodeScanner) : JsError + Html5Qrcode :=
  getHtml5QrcodeOrFail s.

Definition getState (s : Html5QrcodeScanner) : JsError + Html5Qrcode :=
  getHtml5QrcodeOrFail s.

(** ** Observations used in the statements *)

Definition is_some {A : Type} (x : option A) : bool :=
  match x with
  | Some _ => true
  | None => false
  end.

Definition is_uncaught (e : Effect) : bool :=
  match e with
  | Uncaught _ => true
  | _ => false
  end.

(** Nothing was thrown out of a handler so far. *)
Definition quiet (s : Html5QrcodeScanner) : bool :=
  forallb (fun e => negb (is_uncaught e)) (effects s).

(** Whether the scanner is rendered, has an engine and has its two
    callbacks, and whether it has been quiet. *)
Definition readiness (s : Html5QrcodeScanner)
    : bool * bool * bool * bool * bool :=
  (rendered s, is_some (html5Qrcode s), is_some (qrCodeSuccessCallback s),
   is_some (qrCodeErrorCallback s), quiet s).

(** The active scan type with the three things shown according to it:
    the display of the camera region, whether the file selection is shown
    and the text of the swap link. *)
Definition mode_view (s : Html5QrcodeScanner)
    : Html5QrcodeScanType * option (Display * bool * option SwapLinkText) :=
  (currentScanType s,
   option_map (fun u =>
     (scpCameraScanRegion_display u, fs_shown (fileSelectionUi u),
      option_map link_innerText (switchScanTypeLink u))) (layout s)).

(** What [createBasicLayout] and the swap handler show for a scan type. *)
Definition view_of (t : Html5QrcodeScanType) (hasSwapLink : bool)
    : Display * bool * option SwapLinkText :=
  (if isCameraScanType t then DisplayBlock else DisplayNone,
   isFileScanType t,
   if hasSwapLink
   then Some (if isCameraScanType t
              then TEXT_IF_CAMERA_SCAN_SELECTED else TEXT_IF_FILE_SCAN_SELECTED)
   else None).

Definition other_scanType (t : Html5QrcodeScanType) : Html5QrcodeScanType :=
  match t with
  | SCAN_TYPE_CAMERA => SCAN_TYPE_FILE
  | SCAN_TYPE_FILE => SCAN_TYPE_CAMERA
  end.

Definition get_fileSelectionUi (s : Html5QrcodeScanner) : option FileSelectionUi :=
  option_map fileSelectionUi (layout s).

Definition get_scanRegion (s : Html5QrcodeScanner) : option ScanRegionContent :=
  option_map qrCodeScanRegion (layout s).

(** Rendered, with an engine and both callbacks, and quiet so far. *)
Definition all_ready : bool * bool * bool * bool * bool :=
  (true, true, true, true, true).

Definition layout_view (u : Layout) : Display * bool * option SwapLinkText :=
  (scpCameraScanRegion_display u, fs_shown (fileSelectionUi u),
   option_map link_innerText (switchScanTypeLink u)).

(** The view is the one shown for the scan type. *)
Definition view_consistent
    (v : Html5QrcodeScanType * option (Display * bool * option SwapLinkText))
    : Prop :=
  match snd v with
  | None => True
  | Some view => view = view_of (fst v) (is_some (snd view))
  end.

(** The fields and observations that the parts of [render] are compared
    on. *)
Definition render_observation (s : Html5QrcodeScanner) :=
  (currentScanType s, sectionSwapAllowed s, persistedDataManager s,
   lastMatchFound s, scanTypeSelector s, get_cameraSection s,
   swap_link_exists s, rendered s, effects s).

(** The camera controls of [zoom_session]: scanning, the start button
    hidden, the stop button shown, the zoom slider at the clamped
    default. *)
Definition zoom_session_section : CameraSection :=
  {| cameraSelectUi :=
       {| cs_cameras := two_cameras; cs_value := "cam-back";
          cs_enabled := false |};
     cameraActionStartButton :=
       {| sb_innerText := scanButtonStartScanningText;
          sb_disabled := false;
          sb_opacity := OpacityFull;
          sb_display := DisplayNone |};
     cameraActionStopButton :=
       {| stop_disabled := false; stop_display := DisplayInlineBlock |};
     torchButton := None;
     cameraZoomUi :=
       {| zu_shown := true;
          zu_values := Some {| zv_min := 1; zv_max := 5; zv_value := 5;
                               zv_step := 1 # 10 |};
          zu_callback := Some (zoomFeature zoom_1_to_5) |} |}.

(** The enumerated cameras and the selected camera id. *)
Definition selection_of (c : CameraSection) : list CameraDevice * string :=
  (cs_cameras (cameraSelectUi c), cs_value (cameraSelectUi c)).

Definition selection_view (s : Html5QrcodeScanner)
    : option (list CameraDevice * string) :=
  option_map selection_of (get_cameraSection s).

(** The selected id is the id of one of the enumerated cameras. *)
Definition selection_ok (v : option (list CameraDevice * string)) : bool :=
  match v with
  | Some (cameras, value) =>
      existsb (fun c => String.eqb (cam_id c) value) cameras
  | None => true
  end.

(** * Invariants *)

Create Rewrite HintDb fixed.

Lemma fixed_upd_layout f s : fixed_part (upd_layout f s) = fixed_part s.
Proof. reflexivity. Qed.

Lemma fixed_upd_cameraSection f s :
  fixed_part (upd_cameraSection f s) = fixed_part s.
Proof. reflexivity. Qed.

Lemma fixed_upd_persisted f s : fixed_part (upd_persisted f s) = fixed_part s.
Proof. reflexivity. Qed.

Lemma fixed_emit e s : fixed_part (emit e s) = fixed_part s.
Proof. reflexivity. Qed.

Lemma fixed_set_container v s : fixed_part (set_container v s) = fixed_part s.
Proof. reflexivity. Qed.

Lemma fixed_set_layout v s : fixed_part (set_layout v s) = fixed_part s.
Proof. reflexivity. Qed.

Lemma fixed_set_html5Qrcode v s : fixed_part (set_html5Qrcode v s) = fixed_part s.
Proof. reflexivity. Qed.

Lemma fixed_set_lastMatchFound v s :
  fixed_part (set_lastMatchFound v s) = fixed_part s.
Proof. reflexivity. Qed.

Lemma fixed_set_qrCodeSuccessCallback v s :
  fixed_part (set_qrCodeSuccessCallback v s) = fixed_part s.
Proof. reflexivity. Qed.

Lemma fixed_set_qrCodeErrorCallback v s :
  fixed_part (set_qrCodeErrorCallback v s) = fixed_part s.
Proof. reflexivity. Qed.

Lemma fixed_set_currentScanType v s :
  fixed_part (set_currentScanType v s) = fixed_part s.
Proof. reflexivity. Qed.

Lemma fixed_set_cameraScanImage v s :
  fixed_part (set_cameraScanImage v s) = fixed_part s.
Proof. reflexivity. Qed.

Lemma fixed_set_fileScanImage v s :
  fixed_part (set_fileScanImage v s) = fixed_part s.
Proof. reflexivity. Qed.

Lemma fixed_showHideScanTypeSwapLink b s :
  fixed_part (showHideScanTypeSwapLink b s) = fixed_part s.
Proof.
  unfold showHideScanTypeSwapLink.
  destruct (hasMoreThanOneScanType (scanTypeSelector s)) eqn:E; [|reflexivity].
  unfold fixed_part; simpl. now rewrite E.
Qed.

#[local] Hint Rewrite
  fixed_upd_layout fixed_upd_cameraSection fixed_upd_persisted fixed_emit
  fixed_set_container fixed_set_layout fixed_set_html5Qrcode
  fixed_set_lastMatchFound fixed_set_qrCodeSuccessCallback
  fixed_set_qrCodeErrorCallback fixed_set_currentScanType
  fixed_set_cameraScanImage fixed_set_fileScanImage
  fixed_showHideScanTypeSwapLink : fixed.

(** Splits on the tests of a handler and rewrites through its parts. *)
Ltac fixed_through :=
  cbv zeta;
  repeat first
    [ progress autorewrite with fixed
    | match goal with
      | |- context [match ?x with _ => _ end] =>
          lazymatch x with
          | context [match _ with _ => _ end] => fail
          | _ => destruct x
          end
      end ];
  try reflexivity.

Lemma fixed_setHeaderMessage t st s :
  fixed_part (setHeaderMessage t st s) = fixed_part s.
Proof. reflexivity. Qed.

Lemma fixed_resetHeaderMessage s : fixed_part (resetHeaderMessage s) = fixed_part s.
Proof. reflexivity. Qed.

Lemma fixed_createPermissionButton s :
  fixed_part (createPermissionButton s) = fixed_part s.
Proof. reflexivity. Qed.

Lemma fixed_set_permissionButton_disabled i d s :
  fixed_part (set_permissionButton_disabled i d s) = fixed_part s.
Proof. reflexivity. Qed.

Lemma fixed_engine_settled b s : fixed_part (engine_settled b s) = fixed_part s.
Proof. reflexivity. Qed.

Lemma fixed_clearScanRegion s : fixed_part (clearScanRegion s) = fixed_part s.
Proof. reflexivity. Qed.

Lemma fixed_emptyHtmlContainer s : fixed_part (emptyHtmlContainer s) = fixed_part s.
Proof. reflexivity. Qed.

#[local] Hint Rewrite
  fixed_setHeaderMessage fixed_resetHeaderMessage fixed_createPermissionButton
  fixed_set_permissionButton_disabled fixed_engine_settled
  fixed_clearScanRegion fixed_emptyHtmlContainer : fixed.

Lemma fixed_insertCameraScanImageToScanRegion s :
  fixed_part (insertCameraScanImageToScanRegion s) = fixed_part s.
Proof. unfold insertCameraScanImageToScanRegion. fixed_through. Qed.

Lemma fixed_insertFileScanImageToScanRegion s :
  fixed_part (insertFileScanImageToScanRegion s) = fixed_part s.
Proof. unfold insertFileScanImageToScanRegion. fixed_through. Qed.

Lemma fixed_image_onload k s : fixed_part (image_onload k s) = fixed_part s.
Proof. unfold image_onload. fixed_through. Qed.

Lemma fixed_createCameraListUi s :
  fixed_part (createCameraListUi s) = fixed_part s.
Proof. unfold createCameraListUi. fixed_through. Qed.

#[local] Hint Rewrite
  fixed_insertCameraScanImageToScanRegion
  fixed_insertFileScanImageToScanRegion fixed_image_onload
  fixed_createCameraListUi : fixed.

Lemma fixed_createPermissionButtonIfNotExists b s :
  fixed_part (createPermissionButtonIfNotExists b s) = fixed_part s.
Proof. unfold createPermissionButtonIfNotExists. fixed_through. Qed.

Lemma fixed_permissionButton_click i s :
  fixed_part (permissionButton_click i s) = fixed_part s.
Proof. unfold permissionButton_click. fixed_through. Qed.

Lemma fixed_cameraActionStartButton_onclick c s :
  fixed_part (cameraActionStartButton_onclick c s) = fixed_part s.
Proof. unfold cameraActionStartButton_onclick. fixed_through. Qed.

#[local] Hint Rewrite
  fixed_createPermissionButtonIfNotExists fixed_permissionButton_click
  fixed_cameraActionStartButton_onclick : fixed.

Lemma fixed_cameraActionStartButton_click s :
  fixed_part (cameraActionStartButton_click s) = fixed_part s.
Proof. unfold cameraActionStartButton_click. fixed_through. Qed.

#[local] Hint Rewrite fixed_cameraActionStartButton_click : fixed.

Lemma fixed_CameraZoomUi_onValueChange s :
  fixed_part (CameraZoomUi_onValueChange s) = fixed_part s.
Proof.
  unfold CameraZoomUi_onValueChange, onCameraZoomValueChange. fixed_through.
Qed.

#[local] Hint Rewrite fixed_CameraZoomUi_onValueChange : fixed.

Lemma fixed_CameraZoomUi_setValues lo hi v st s :
  fixed_part (CameraZoomUi_setValues lo hi v st s) = fixed_part s.
Proof. unfold CameraZoomUi_setValues. fixed_through. Qed.

#[local] Hint Rewrite fixed_CameraZoomUi_setValues : fixed.

Lemma fixed_renderCameraZoomUiIfSupported caps s :
  fixed_part (renderCameraZoomUiIfSupported caps s) = fixed_part s.
Proof. unfold renderCameraZoomUiIfSupported. fixed_through. Qed.

#[local] Hint Rewrite fixed_renderCameraZoomUiIfSupported : fixed.

Lemma fixed_CameraZoomUi_input v s :
  fixed_part (CameraZoomUi_input v s) = fixed_part s.
Proof. unfold CameraZoomUi_input. fixed_through. Qed.

Lemma fixed_CameraSelectionUi_select id s :
  fixed_part (CameraSelectionUi_select id s) = fixed_part s.
Proof. unfold CameraSelectionUi_select. fixed_through. Qed.

Lemma fixed_start_settled o s : fixed_part (start_settled o s) = fixed_part s.
Proof. unfold start_settled, start_then, start_catch. fixed_through. Qed.

Lemma fixed_cameraActionStopButton_click s :
  fixed_part (cameraActionStopButton_click s) = fixed_part s.
Proof.
  unfold cameraActionStopButton_click, cameraActionStopButton_onclick.
  fixed_through.
Qed.

Lemma fixed_stop_settled o s : fixed_part (stop_settled o s) = fixed_part s.
Proof. unfold stop_settled, stop_then, stop_catch. fixed_through. Qed.

Lemma fixed_renderCameraSelection cameras s :
  fixed_part (renderCameraSelection cameras s) = fixed_part s.
Proof. unfold renderCameraSelection. fixed_through. Qed.

#[local] Hint Rewrite fixed_renderCameraSelection : fixed.

Lemma fixed_getCameras_catch b e s :
  fixed_part (getCameras_catch b e s) = fixed_part s.
Proof. unfold getCameras_catch. fixed_through. Qed.

#[local] Hint Rewrite fixed_getCameras_catch : fixed.

Lemma fixed_getCameras_settled b o s :
  fixed_part (getCameras_settled b o s) = fixed_part s.
Proof.
  unfold getCameras_settled, getCameras_then.
  destruct o as [cameras|error]; [|fixed_through].
  cbv zeta. destruct cameras; [fixed_through|].
  destruct (requestPermissionContainer_isChild _); fixed_through.
Qed.

Lemma fixed_createPermissionsUi s :
  fixed_part (createPermissionsUi s) = fixed_part s.
Proof. unfold createPermissionsUi. fixed_through. Qed.

Lemma fixed_createPermissionsUi_settled o s :
  fixed_part (createPermissionsUi_settled o s) = fixed_part s.
Proof. unfold createPermissionsUi_settled. fixed_through. Qed.

Lemma fixed_torchButton_onFailure e s :
  fixed_part (torchButton_onFailure e s) = fixed_part s.
Proof. unfold torchButton_onFailure. fixed_through. Qed.

Lemma fixed_successWrapper b t s :
  fixed_part (successWrapper b t s) = fixed_part s.
Proof. unfold successWrapper. fixed_through. Qed.

Lemma fixed_errorWrapper b e s : fixed_part (errorWrapper b e s) = fixed_part s.
Proof. unfold errorWrapper. fixed_through. Qed.

#[local] Hint Rewrite fixed_createPermissionsUi fixed_successWrapper
  fixed_errorWrapper : fixed.

Lemma fixed_scanFile_settled o s :
  fixed_part (scanFile_settled o s) = fixed_part s.
Proof.
  unfold scanFile_settled, scanFile_then, scanFile_catch. fixed_through.
Qed.

Lemma fixed_onFileSelected f s : fixed_part (onFileSelected f s) = fixed_part s.
Proof. unfold onFileSelected. fixed_through. Qed.

Lemma fixed_permissionsOnSwap_settled o s :
  fixed_part (permissionsOnSwap_settled o s) = fixed_part s.
Proof.
  unfold permissionsOnSwap_settled, permissionsOnSwap_then,
    permissionsOnSwap_catch.
  fixed_through.
Qed.

Lemma fixed_swap_activate s : fixed_part (swap_activate s) = fixed_part s.
Proof.
  unfold swap_activate, startCameraScanIfPermissionExistsOnSwap.
  fixed_through.
Qed.

Lemma fixed_switchScanTypeLink_onclick s :
  fixed_part (switchScanTypeLink_onclick s) = fixed_part s.
Proof.
  unfold switchScanTypeLink_onclick.
  destruct (sectionSwapAllowed s) eqn:E; simpl; [|fixed_through].
  unfold fixed_part at 1; simpl.
  change (permissionButton (swap_activate (swap_cleanup s)),
          scanTypeSelector (swap_activate (swap_cleanup s)))
    with (fst (fixed_part (swap_activate (swap_cleanup s)))).
  rewrite fixed_swap_activate. unfold fixed_part; simpl.
  rewrite E. now rewrite !orb_true_r.
Qed.

Lemma fixed_render sc ec s : fixed_part (render sc ec s) = fixed_part s.
Proof.
  unfold render, createBasicLayout, createSectionSwap. fixed_through.
Qed.

Lemma fixed_clear s : fixed_part (clear s) = fixed_part s.
Proof. unfold clear. fixed_through. Qed.

Lemma fixed_clear_stop_settled o s :
  fixed_part (clear_stop_settled o s) = fixed_part s.
Proof.
  unfold clear_stop_settled, clear_stop_then, clear_stop_catch. fixed_through.
Qed.

Lemma fixed_step e s : fixed_part (step e s) = fixed_part s.
Proof.
  destruct e; simpl;
    try apply fixed_render; try apply fixed_clear;
    try apply fixed_clear_stop_settled;
    destruct (layout s) eqn:L; try reflexivity.
  - apply fixed_createPermissionsUi_settled.
  - apply fixed_permissionButton_click.
  - apply fixed_CameraSelectionUi_select.
  - apply fixed_getCameras_settled.
  - apply fixed_cameraActionStartButton_click.
  - apply fixed_start_settled.
  - apply fixed_cameraActionStopButton_click.
  - apply fixed_stop_settled.
  - apply fixed_CameraZoomUi_input.
  - apply fixed_torchButton_onFailure.
  - unfold switchScanTypeLink_click. rewrite L.
    destruct (switchScanTypeLink l); [apply fixed_switchScanTypeLink_onclick|reflexivity].
  - apply fixed_permissionsOnSwap_settled.
  - apply fixed_onFileSelected.
  - apply fixed_scanFile_settled.
  - unfold engine_decoded. destruct (qrCodeSuccessCallback s);
      [apply fixed_successWrapper|reflexivity].
  - unfold engine_decodeFailed. destruct (qrCodeErrorCallback s);
      [apply fixed_errorWrapper|reflexivity].
  - apply fixed_image_onload.
Qed.

Lemma fixed_constructor K el config v stored s :
  constructor K el config v stored = inr s ->
  permissionButton s = None /\ sectionSwapAllowed s = true.
Proof.
  unfold constructor.
  destruct (validateInput el); [discriminate|].
  destruct (newScanTypeSelector _ _); [discriminate|].
  destruct config; [|discriminate].
  intros H; injection H as <-. split; reflexivity.
Qed.

(** Every scanner that exists has no [permissionButton], and its guard is
    open unless it has a swap link that can close it. *)
Lemma reachable_fixed K s :
  reachable K s ->
  permissionButton s = None /\
  hasMoreThanOneScanType (scanTypeSelector s) || sectionSwapAllowed s = true.
Proof.
  induction 1 as [el config v stored s Hnew | e s _ [IHp IHg]].
  - destruct (fixed_constructor _ _ _ _ _ Hnew) as [-> ->].
    split; [reflexivity | apply orb_true_r].
  - pose proof (fixed_step e s) as F. unfold fixed_part in F.
    injection F as Fp _ Fg. rewrite Fp, Fg. now split.
Qed.

Lemma reachable_run K events s :
  reachable K s -> reachable K (run events s).
Proof.
  revert s. induction events as [|e events IH]; intros s R; simpl.
  - exact R.
  - apply IH. now constructor.
Qed.

Lemma set_effects_same s : set_effects (effects s) s = s.
Proof. now destruct s. Qed.

(** ** The section swap *)

Lemma swap_activate_guard s :
  sectionSwapAllowed (swap_activate s) = sectionSwapAllowed s.
Proof.
  unfold swap_activate, startCameraScanIfPermissionExistsOnSwap,
    insertCameraScanImageToScanRegion, insertFileScanImageToScanRegion.
  cbv zeta.
  repeat match goal with
         | |- context [if ?b then _ else _] => destruct b
         end; reflexivity.
Qed.

Lemma swap_click_accepted s :
  swap_link_exists s = true ->
  sectionSwapAllowed s = true ->
  step EvSwapClick s
  = set_sectionSwapAllowed true (swap_activate (swap_cleanup s)).
Proof.
  unfold swap_link_exists, step, switchScanTypeLink_click,
    switchScanTypeLink_onclick.
  intros L A. destruct (layout s) as [u|]; [|discriminate].
  destruct (switchScanTypeLink u); [|discriminate].
  now rewrite A.
Qed.

Lemma permissionsOnSwap_settled_guard o s :
  permissionButton s = None ->
  sectionSwapAllowed (permissionsOnSwap_settled o s) = sectionSwapAllowed s.
Proof.
  intros P. unfold permissionsOnSwap_settled, permissionsOnSwap_then.
  rewrite P. destruct o as [[|]|]; reflexivity.
Qed.

Lemma swap_link_exists_layout s :
  swap_link_exists s = true -> exists u, layout s = Some u.
Proof.
  unfold swap_link_exists. destruct (layout s) as [u|]; [eauto|discriminate].
Qed.

Lemma layout_some_map (f : Layout -> Layout) s u :
  layout s = Some u -> layout (upd_layout f s) = Some (f u).
Proof. intros E. unfold upd_layout. simpl. now rewrite E. Qed.

Lemma swap_activate_link s :
  swap_link_exists (swap_activate s) = swap_link_exists s.
Proof.
  unfold swap_link_exists, swap_activate,
    startCameraScanIfPermissionExistsOnSwap,
    insertCameraScanImageToScanRegion, insertFileScanImageToScanRegion,
    clearScanRegion.
  cbv zeta.
  repeat match goal with
         | |- context [if ?b then _ else _] => destruct b
         end; simpl;
    destruct (layout s) as [u|]; simpl; try reflexivity;
    destruct (switchScanTypeLink u); reflexivity.
Qed.

Lemma swap_cleanup_link s :
  swap_link_exists (swap_cleanup s) = swap_link_exists s.
Proof.
  unfold swap_link_exists, swap_cleanup, resetHeaderMessage. simpl.
  destruct (layout s) as [u|]; reflexivity.
Qed.

Lemma swap_event_keeps_open K e s :
  swap_event e = true ->
  reachable K s ->
  swap_link_exists s = true ->
  sectionSwapAllowed s = true ->
  swap_link_exists (step e s) = true /\ sectionSwapAllowed (step e s) = true.
Proof.
  intros E R L A. destruct e; try discriminate.
  - rewrite (swap_click_accepted _ L A). split; [|reflexivity].
    change (swap_link_exists (swap_activate (swap_cleanup s)) = true).
    now rewrite swap_activate_link, swap_cleanup_link.
  - destruct (reachable_fixed R) as [P _].
    destruct (swap_link_exists_layout _ L) as [u Lu].
    simpl. rewrite Lu. split.
    + unfold permissionsOnSwap_settled, permissionsOnSwap_then. rewrite P.
      destruct o as [[|]|]; exact L.
    + now rewrite permissionsOnSwap_settled_guard.
Qed.

Lemma swap_events_keep_open K events : forall s,
  forallb swap_event events = true ->
  reachable K s ->
  swap_link_exists s = true ->
  sectionSwapAllowed s = true ->
  sectionSwapAllowed (run events s) = true.
Proof.
  induction events as [|e events IH]; intros s F R L A; simpl.
  - exact A.
  - simpl in F. apply andb_true_iff in F as [Fe F].
    destruct (swap_event_keeps_open _ Fe R L A) as [L' A'].
    apply IH; auto. now constructor.
Qed.

(** C1 fails as stated: the guard is open again when the click handler
    returns, which is before the permission check that the handler began
    has settled.  So a further click is accepted while that check is
    awaited, and after three clicks on the sample scanner two checks are
    in flight. *)
Lemma C1_one_swap_in_flight_counterexample :
  let clicks := [EvSwapClick; EvSwapClick; EvSwapClick] in
  sectionSwapAllowed (step EvSwapClick file_first_rendered) = true /\
  effects (step EvSwapClick file_first_rendered) = [CallHasPermissions] /\
  currentScanType (run clicks file_first_rendered) = SCAN_TYPE_CAMERA /\
  effects (run clicks file_first_rendered)
    = [CallHasPermissions; CallHasPermissions] /\
  swaps_in_flight clicks file_first_rendered 0 = 2%nat /\
  ~ (forall events,
       forallb swap_event events = true ->
       (swaps_in_flight events file_first_rendered 0 <= 1)%nat).
Proof.
  cbv zeta. repeat (split; [vm_compute; reflexivity|]).
  intros H.
  specialize (H [EvSwapClick; EvSwapClick; EvSwapClick] eq_refl).
  vm_compute in H. lia.
Qed.

(** C1 (amended): a swap request accepted with the guard open closes the
    guard in its cleanup, keeps it closed while the other scan type is
    activated, and opens it again before the handler returns, which is
    before the permission check it may have started settles; the guard is
    still open once that check has settled, whatever its outcome.  The
    handler runs to its end without interruption, so in any sequence of
    swap clicks and settlements every click finds the guard open: no swap
    begins while another has the guard closed, but one may begin while
    the permission check of an earlier one is still awaited. *)
Theorem C1_swap_guard_is_rearmed K s :
  reachable K s ->
  swap_link_exists s = true ->
  sectionSwapAllowed s = true ->
  step EvSwapClick s
    = set_sectionSwapAllowed true (swap_activate (swap_cleanup s)) /\
  sectionSwapAllowed (swap_cleanup s) = false /\
  sectionSwapAllowed (swap_activate (swap_cleanup s)) = false /\
  sectionSwapAllowed (step EvSwapClick s) = true /\
  (forall o,
     sectionSwapAllowed
       (step (EvPermissionsOnSwapSettled o) (step EvSwapClick s)) = true) /\
  (forall events,
     forallb swap_event events = true ->
     sectionSwapAllowed (run events s) = true).
Proof.
  intros R L A.
  pose proof (swap_click_accepted _ L A) as Hclick.
  repeat split.
  - exact Hclick.
  - now rewrite swap_activate_guard.
  - now rewrite Hclick.
  - intros o.
    assert (Ho : swap_event (EvPermissionsOnSwapSettled o) = true) by reflexivity.
    destruct (swap_event_keeps_open (K:=K) EvSwapClick eq_refl R L A) as [L' A'].
    apply (swap_event_keeps_open (K:=K) _ Ho); auto. now constructor.
  - intros events F. now apply (swap_events_keep_open (K:=K)).
Qed.

Lemma file_first_scanner_new :
  constructor library_constants (Element true) (Some file_first_config) None
    permission_stored = inr file_first_scanner.
Proof. reflexivity. Qed.

Lemma camera_first_scanner_new :
  constructor library_constants (ElementId "reader" true) (Some zoom_config)
    None nothing_stored = inr camera_first_scanner.
Proof. reflexivity. Qed.

Lemma file_first_rendered_reachable :
  reachable library_constants file_first_rendered.
Proof.
  apply reachable_step. eapply reachable_new. exact file_first_scanner_new.
Qed.

Lemma camera_first_rendered_reachable :
  reachable library_constants camera_first_rendered.
Proof.
  apply reachable_step. eapply reachable_new. exact camera_first_scanner_new.
Qed.

Lemma C1_swap_guard_is_rearmed_witness :
  sectionSwapAllowed
    (run [EvSwapClick; EvPermissionsOnSwapSettled (Resolved true); EvSwapClick]
       file_first_rendered) = true.
Proof.
  refine (proj2 (proj2 (proj2 (proj2 (proj2
    (C1_swap_guard_is_rearmed file_first_rendered_reachable _ _))))) _ _);
    reflexivity.
Defined.

(** C2: a click on the swap link while the guard is closed changes no
    field of the scanner and no element it created: the scan type, the
    camera region, the file selection and its value and the header stay
    as they are; the only effect is the diagnostic, logged when the
    scanner is verbose. *)
Theorem C2_swap_refused_changes_nothing s :
  sectionSwapAllowed s = false ->
  switchScanTypeLink_onclick s
    = (if verbose s
       then emit (LogError "Section swap called when not allowed") s
       else s) /\
  set_effects (effects s) (step EvSwapClick s) = s /\
  currentScanType (step EvSwapClick s) = currentScanType s /\
  layout (step EvSwapClick s) = layout s /\
  sectionSwapAllowed (step EvSwapClick s) = false /\
  (effects (step EvSwapClick s) = effects s \/
   effects (step EvSwapClick s)
     = (effects s ++ [LogError "Section swap called when not allowed"])%list).
Proof.
  intros A.
  assert (H : switchScanTypeLink_onclick s
              = if verbose s
                then emit (LogError "Section swap called when not allowed") s
                else s).
  { unfold switchScanTypeLink_onclick. now rewrite A. }
  split; [exact H|].
  assert (C : step EvSwapClick s = s \/
              step EvSwapClick s
                = emit (LogError "Section swap called when not allowed") s).
  { simpl. unfold switchScanTypeLink_click.
    destruct (layout s) as [u|]; [|now left].
    destruct (switchScanTypeLink u); [|now left].
    rewrite H. destruct (verbose s); [now right|now left]. }
  destruct C as [-> | ->].
  - repeat split; auto using set_effects_same.
  - repeat split; auto.
    unfold emit. destruct s; reflexivity.
Qed.

Lemma C2_swap_refused_changes_nothing_witness :
  layout (step EvSwapClick (set_sectionSwapAllowed false file_first_rendered))
  = layout (set_sectionSwapAllowed false file_first_rendered).
Proof.
  refine (proj1 (proj2 (proj2 (proj2
    (C2_swap_refused_changes_nothing
       (set_sectionSwapAllowed false file_first_rendered) _))))).
  reflexivity.
Defined.

(** C3 (what the code does): when the permission check started by a swap
    to the camera reports that permission is still granted, the handler
    finds no permission button, since no scanner has one: it logs the
    failure, throws, and the [catch] records that permission is not
    granted.  The click listener of the request-permission button is not
    run: no camera list is requested. *)
Theorem C3_granted_on_swap_records_denied K s :
  reachable K s ->
  rendered s = true ->
  step (EvPermissionsOnSwapSettled (Resolved true)) s
    = upd_persisted (setHasPermission false)
        (emit (LogError "Permission button not found, fail;") s) /\
  hasPermission
    (persistedDataManager
       (step (EvPermissionsOnSwapSettled (Resolved true)) s)) = false /\
  effects (step (EvPermissionsOnSwapSettled (Resolved true)) s)
    = (effects s ++ [LogError "Permission button not found, fail;"])%list.
Proof.
  intros R L. destruct (reachable_fixed R) as [P _].
  assert (E : step (EvPermissionsOnSwapSettled (Resolved true)) s
              = upd_persisted (setHasPermission false)
                  (emit (LogError "Permission button not found, fail;") s)).
  { unfold rendered in L. simpl. destruct (layout s); [|discriminate].
    unfold permissionsOnSwap_settled, permissionsOnSwap_then. now rewrite P. }
  rewrite E. repeat split.
Qed.

Lemma C3_granted_on_swap_records_denied_witness :
  hasPermission
    (persistedDataManager
       (step (EvPermissionsOnSwapSettled (Resolved true))
          (step EvSwapClick file_first_rendered))) = false.
Proof.
  refine (proj1 (proj2
    (C3_granted_on_swap_records_denied
       (K := library_constants) (s := step EvSwapClick file_first_rendered)
       _ _))).
  - apply reachable_step, file_first_rendered_reachable.
  - vm_compute. reflexivity.
Defined.

(** The run in which the check confirms the permission: the stored
    permission is withdrawn, the enabled request button is left alone and
    no camera list is requested, although a click on that button would
    request one. *)
Example permission_confirmed_on_swap_trace :
  let s := run [EvSwapClick; EvPermissionsOnSwapSettled (Resolved true)]
             file_first_rendered in
  effects s
    = [CallHasPermissions; LogError "Permission button not found, fail;"] /\
  hasPermission (persistedDataManager s) = false /\
  get_permissionButtons s = [{| pb_disabled := false |}] /\
  effects (step (EvPermissionButtonClick 0) s)
    = [CallHasPermissions; LogError "Permission button not found, fail;";
       CallGetCameras].
Proof. vm_compute. repeat split. Qed.

(** ** Starting a capture session *)

Create Rewrite HintDb observe.

Lemma section_upd_cameraSection f s :
  get_cameraSection (upd_cameraSection f s)
  = option_map f (get_cameraSection s).
Proof.
  unfold get_cameraSection, upd_cameraSection, upd_layout. simpl.
  now destruct (layout s).
Qed.

Lemma section_setHeaderMessage t st s :
  get_cameraSection (setHeaderMessage t st s) = get_cameraSection s.
Proof.
  unfold get_cameraSection, setHeaderMessage, upd_layout. simpl.
  now destruct (layout s).
Qed.

Lemma section_resetHeaderMessage s :
  get_cameraSection (resetHeaderMessage s) = get_cameraSection s.
Proof.
  unfold get_cameraSection, resetHeaderMessage, upd_layout. simpl.
  now destruct (layout s).
Qed.

Lemma section_showHide b s :
  get_cameraSection (showHideScanTypeSwapLink b s) = get_cameraSection s.
Proof.
  unfold get_cameraSection, showHideScanTypeSwapLink, upd_layout.
  destruct (hasMoreThanOneScanType _); simpl; now destruct (layout s).
Qed.

Lemma section_upd_persisted f s :
  get_cameraSection (upd_persisted f s) = get_cameraSection s.
Proof. reflexivity. Qed.

Lemma section_emit e s : get_cameraSection (emit e s) = get_cameraSection s.
Proof. reflexivity. Qed.

Lemma header_setHeaderMessage t st s :
  get_header (setHeaderMessage t st s)
  = if rendered s
    then Some {| hm_innerText := Some t;
                 hm_display := DisplayBlock;
                 hm_colours := statusColours st |}
    else None.
Proof.
  unfold get_header, rendered, setHeaderMessage, upd_layout. simpl.
  now destruct (layout s).
Qed.

Lemma header_showHide b s :
  get_header (showHideScanTypeSwapLink b s) = get_header s.
Proof.
  unfold get_header, showHideScanTypeSwapLink, upd_layout.
  destruct (hasMoreThanOneScanType _); simpl; now destruct (layout s).
Qed.

Lemma rendered_upd_layout f s : rendered (upd_layout f s) = rendered s.
Proof. unfold rendered, upd_layout. simpl. now destruct (layout s). Qed.

Lemma rendered_upd_cameraSection f s :
  rendered (upd_cameraSection f s) = rendered s.
Proof. apply rendered_upd_layout. Qed.

Lemma rendered_setHeaderMessage t st s :
  rendered (setHeaderMessage t st s) = rendered s.
Proof. apply rendered_upd_layout. Qed.

Lemma rendered_resetHeaderMessage s :
  rendered (resetHeaderMessage s) = rendered s.
Proof. apply rendered_upd_layout. Qed.

Lemma rendered_showHide b s :
  rendered (showHideScanTypeSwapLink b s) = rendered s.
Proof.
  unfold showHideScanTypeSwapLink.
  destruct (hasMoreThanOneScanType _); [|reflexivity].
  now rewrite rendered_upd_layout.
Qed.

Lemma rendered_upd_persisted f s : rendered (upd_persisted f s) = rendered s.
Proof. reflexivity. Qed.

Lemma rendered_emit e s : rendered (emit e s) = rendered s.
Proof. reflexivity. Qed.

Lemma persisted_showHide b s :
  persistedDataManager (showHideScanTypeSwapLink b s) = persistedDataManager s.
Proof.
  unfold showHideScanTypeSwapLink.
  now destruct (hasMoreThanOneScanType _).
Qed.

Lemma html5Qrcode_showHide b s :
  html5Qrcode (showHideScanTypeSwapLink b s) = html5Qrcode s.
Proof.
  unfold showHideScanTypeSwapLink.
  now destruct (hasMoreThanOneScanType _).
Qed.

Lemma effects_showHide b s :
  effects (showHideScanTypeSwapLink b s) = effects s.
Proof.
  unfold showHideScanTypeSwapLink.
  now destruct (hasMoreThanOneScanType _).
Qed.

#[local] Hint Rewrite
  section_upd_cameraSection section_setHeaderMessage
  section_resetHeaderMessage section_showHide section_upd_persisted
  section_emit header_setHeaderMessage header_showHide
  rendered_upd_layout rendered_upd_cameraSection rendered_setHeaderMessage
  rendered_resetHeaderMessage rendered_showHide rendered_upd_persisted
  rendered_emit persisted_showHide html5Qrcode_showHide effects_showHide
  : observe.

Lemma persistedDataManager_emit e s :
  persistedDataManager (emit e s) = persistedDataManager s.
Proof. reflexivity. Qed.

Lemma persistedDataManager_upd_persisted f s :
  persistedDataManager (upd_persisted f s) = f (persistedDataManager s).
Proof. reflexivity. Qed.

Lemma persistedDataManager_upd_layout f s :
  persistedDataManager (upd_layout f s) = persistedDataManager s.
Proof. reflexivity. Qed.

Lemma persistedDataManager_upd_cameraSection f s :
  persistedDataManager (upd_cameraSection f s) = persistedDataManager s.
Proof. reflexivity. Qed.

Lemma persistedDataManager_setHeaderMessage t st s :
  persistedDataManager (setHeaderMessage t st s) = persistedDataManager s.
Proof. reflexivity. Qed.

Lemma persistedDataManager_resetHeaderMessage  s :
  persistedDataManager (resetHeaderMessage s) = persistedDataManager s.
Proof. reflexivity. Qed.

Lemma persistedDataManager_engine_settled b s :
  persistedDataManager (engine_settled b s) = persistedDataManager s.
Proof. reflexivity. Qed.

Lemma html5Qrcode_emit e s :
  html5Qrcode (emit e s) = html5Qrcode s.
Proof. reflexivity. Qed.

Lemma html5Qrcode_upd_persisted f s :
  html5Qrcode (upd_persisted f s) = html5Qrcode s.
Proof. reflexivity. Qed.

Lemma html5Qrcode_upd_layout f s :
  html5Qrcode (upd_layout f s) = html5Qrcode s.
Proof. reflexivity. Qed.

Lemma html5Qrcode_upd_cameraSection f s :
  html5Qrcode (upd_cameraSection f s) = html5Qrcode s.
Proof. reflexivity. Qed.

Lemma html5Qrcode_setHeaderMessage t st s :
  html5Qrcode (setHeaderMessage t st s) = html5Qrcode s.
Proof. reflexivity. Qed.

Lemma html5Qrcode_resetHeaderMessage  s :
  html5Qrcode (resetHeaderMessage s) = html5Qrcode s.
Proof. reflexivity. Qed.

Lemma html5Qrcode_engine_settled b s :
  html5Qrcode (engine_settled b s) = option_map (fun _ => {| isScanning := b |}) (html5Qrcode s).
Proof. reflexivity. Qed.

Lemma effects_emit e s :
  effects (emit e s) = (effects s ++ [e])%list.
Proof. reflexivity. Qed.

Lemma effects_upd_persisted f s :
  effects (upd_persisted f s) = effects s.
Proof. reflexivity. Qed.

Lemma effects_upd_layout f s :
  effects (upd_layout f s) = effects s.
Proof. reflexivity. Qed.

Lemma effects_upd_cameraSection f s :
  effects (upd_cameraSection f s) = effects s.
Proof. reflexivity. Qed.

Lemma effects_setHeaderMessage t st s :
  effects (setHeaderMessage t st s) = effects s.
Proof. reflexivity. Qed.

Lemma effects_resetHeaderMessage  s :
  effects (resetHeaderMessage s) = effects s.
Proof. reflexivity. Qed.

Lemma effects_engine_settled b s :
  effects (engine_settled b s) = effects s.
Proof. reflexivity. Qed.

Lemma sectionSwapAllowed_emit e s :
  sectionSwapAllowed (emit e s) = sectionSwapAllowed s.
Proof. reflexivity. Qed.

Lemma sectionSwapAllowed_upd_persisted f s :
  sectionSwapAllowed (upd_persisted f s) = sectionSwapAllowed s.
Proof. reflexivity. Qed.

Lemma sectionSwapAllowed_upd_layout f s :
  sectionSwapAllowed (upd_layout f s) = sectionSwapAllowed s.
Proof. reflexivity. Qed.

Lemma sectionSwapAllowed_upd_cameraSection f s :
  sectionSwapAllowed (upd_cameraSection f s) = sectionSwapAllowed s.
Proof. reflexivity. Qed.

Lemma sectionSwapAllowed_setHeaderMessage t st s :
  sectionSwapAllowed (setHeaderMessage t st s) = sectionSwapAllowed s.
Proof. reflexivity. Qed.

Lemma sectionSwapAllowed_resetHeaderMessage  s :
  sectionSwapAllowed (resetHeaderMessage s) = sectionSwapAllowed s.
Proof. reflexivity. Qed.

Lemma sectionSwapAllowed_engine_settled b s :
  sectionSwapAllowed (engine_settled b s) = sectionSwapAllowed s.
Proof. reflexivity. Qed.

#[local] Hint Rewrite
  persistedDataManager_emit
  persistedDataManager_upd_persisted
  persistedDataManager_upd_layout
  persistedDataManager_upd_cameraSection
  persistedDataManager_setHeaderMessage
  persistedDataManager_resetHeaderMessage
  persistedDataManager_engine_settled
  html5Qrcode_emit
  html5Qrcode_upd_persisted
  html5Qrcode_upd_layout
  html5Qrcode_upd_cameraSection
  html5Qrcode_setHeaderMessage
  html5Qrcode_resetHeaderMessage
  html5Qrcode_engine_settled
  effects_emit
  effects_upd_persisted
  effects_upd_layout
  effects_upd_cameraSection
  effects_setHeaderMessage
  effects_resetHeaderMessage
  effects_engine_settled
  sectionSwapAllowed_emit
  sectionSwapAllowed_upd_persisted
  sectionSwapAllowed_upd_layout
  sectionSwapAllowed_upd_cameraSection
  sectionSwapAllowed_setHeaderMessage
  sectionSwapAllowed_resetHeaderMessage
  sectionSwapAllowed_engine_settled : observe.

(** *** The zoom slider *)

Lemma upd_cameraSection_twice f g s :
  upd_cameraSection f (upd_cameraSection g s)
  = upd_cameraSection (fun c => f (g c)) s.
Proof.
  unfold upd_cameraSection, upd_layout. destruct s as [? ? ? ? ? ? ? ? ? ? ? ? ? ? l ?].
  simpl. destruct l as [u|]; [|reflexivity]. simpl.
  now destruct (cameraSection u).
Qed.

Lemma upd_cameraSection_emit f e s :
  upd_cameraSection f (emit e s) = emit e (upd_cameraSection f s).
Proof. reflexivity. Qed.

Lemma upd_cameraSection_none f s :
  get_cameraSection s = None -> upd_cameraSection f s = s.
Proof.
  unfold get_cameraSection, upd_cameraSection, upd_layout.
  destruct s as [? ? ? ? ? ? ? ? ? ? ? ? ? ? l ?]. simpl.
  destruct l as [u|]; [|reflexivity]. intros H.
  destruct u. simpl in *. now rewrite H.
Qed.

Lemma config_upd_cameraSection f s : config (upd_cameraSection f s) = config s.
Proof. reflexivity. Qed.

(** What setting up the slider comes to on a scanner with camera
    controls: the slider is shown with the capability's bounds and the
    clamped default, the callback is installed, and the clamped default
    is applied. *)
Lemma renderCameraZoomUi_supported caps s c :
  zoom_isSupported (zoomFeature caps) = true ->
  get_cameraSection s = Some c ->
  renderCameraZoomUiIfSupported caps s
  = let defaultZoom :=
      clip
        match defaultZoomValueIfSupported (config s) with
        | Some z => if truthy_number (Some z) then z else 1
        | None => 1
        end
        (zoom_min (zoomFeature caps)) (zoom_max (zoomFeature caps)) in
    emit (CallZoomApply defaultZoom)
      (upd_cameraSection
         (set_cameraZoomUi
            {| zu_shown := true;
               zu_values :=
                 Some {| zv_min := zoom_min (zoomFeature caps);
                         zv_max := zoom_max (zoomFeature caps);
                         zv_value := defaultZoom;
                         zv_step := zoom_step (zoomFeature caps) |};
               zu_callback := Some (zoomFeature caps) |}) s).
Proof.
  intros S C.
  unfold renderCameraZoomUiIfSupported, CameraZoomUi_setValues,
    CameraZoomUi_onValueChange, onCameraZoomValueChange.
  rewrite S. cbv zeta. simpl negb. cbv iota.
  rewrite !upd_cameraSection_twice, section_upd_cameraSection, C. simpl.
  rewrite upd_cameraSection_emit, upd_cameraSection_twice. reflexivity.
Qed.

Lemma renderCameraZoomUi_unsupported caps s :
  zoom_isSupported (zoomFeature caps) = false ->
  renderCameraZoomUiIfSupported caps s = s.
Proof. intros S. unfold renderCameraZoomUiIfSupported. now rewrite S. Qed.

Lemma renderCameraZoomUi_no_section caps s :
  get_cameraSection s = None ->
  renderCameraZoomUiIfSupported caps s = s.
Proof.
  intros C.
  unfold renderCameraZoomUiIfSupported, CameraZoomUi_setValues,
    CameraZoomUi_onValueChange, onCameraZoomValueChange.
  destruct (zoom_isSupported (zoomFeature caps)); [|reflexivity].
  cbv zeta. simpl negb. cbv iota.
  rewrite !upd_cameraSection_twice, section_upd_cameraSection, C. simpl.
  rewrite upd_cameraSection_twice. now apply upd_cameraSection_none.
Qed.

(** Splits on whether the slider is set up. *)
Ltac zoom_cases caps s :=
  let S := fresh "S" in
  let C := fresh "C" in
  destruct (zoom_isSupported (zoomFeature caps)) eqn:S;
    [ destruct (get_cameraSection s) eqn:C;
      [ rewrite (@renderCameraZoomUi_supported caps s _ S C)
      | rewrite (@renderCameraZoomUi_no_section caps s C) ]
    | rewrite (@renderCameraZoomUi_unsupported caps s S) ].

Lemma persisted_renderCameraZoomUi caps s :
  persistedDataManager (renderCameraZoomUiIfSupported caps s)
  = persistedDataManager s.
Proof. zoom_cases caps s; reflexivity. Qed.

Lemma html5Qrcode_renderCameraZoomUi caps s :
  html5Qrcode (renderCameraZoomUiIfSupported caps s) = html5Qrcode s.
Proof. zoom_cases caps s; reflexivity. Qed.

Lemma guard_renderCameraZoomUi caps s :
  sectionSwapAllowed (renderCameraZoomUiIfSupported caps s)
  = sectionSwapAllowed s.
Proof. zoom_cases caps s; reflexivity. Qed.

Lemma rendered_renderCameraZoomUi caps s :
  rendered (renderCameraZoomUiIfSupported caps s) = rendered s.
Proof.
  zoom_cases caps s; try reflexivity.
  cbv zeta. now rewrite rendered_emit, rendered_upd_cameraSection.
Qed.

Lemma header_renderCameraZoomUi caps s :
  get_header (renderCameraZoomUiIfSupported caps s) = get_header s.
Proof.
  zoom_cases caps s; try reflexivity.
  cbv zeta. unfold get_header, emit, upd_cameraSection, upd_layout. simpl.
  now destruct (layout s).
Qed.

#[local] Hint Rewrite persisted_renderCameraZoomUi
  html5Qrcode_renderCameraZoomUi guard_renderCameraZoomUi
  rendered_renderCameraZoomUi header_renderCameraZoomUi : observe.

Lemma section_rendered s c : get_cameraSection s = Some c -> rendered s = true.
Proof.
  unfold get_cameraSection, rendered. now destruct (layout s).
Qed.

Lemma step_rendered e s :
  rendered s = true ->
  match e with EvRender _ _ | EvClear | EvClearStopSettled _ => False | _ => True end ->
  step e s
  = match e with
    | EvPermissionsAtRenderSettled o => createPermissionsUi_settled o s
    | EvPermissionButtonClick i => permissionButton_click i s
    | EvGetCamerasSettled b o => getCameras_settled b o s
    | EvStartClick => cameraActionStartButton_click s
    | EvStartSettled o => start_settled o s
    | EvStopClick => cameraActionStopButton_click s
    | EvStopSettled o => stop_settled o s
    | EvZoomChange v => CameraZoomUi_input v s
    | EvCameraSelected id => CameraSelectionUi_select id s
    | EvTorchFailed error => torchButton_onFailure error s
    | EvSwapClick => switchScanTypeLink_click s
    | EvPermissionsOnSwapSettled o => permissionsOnSwap_settled o s
    | EvFileSelected file => onFileSelected file s
    | EvScanFileSettled o => scanFile_settled o s
    | EvDecoded decodedText => engine_decoded decodedText s
    | EvDecodeFailed error => engine_decodeFailed error s
    | EvImageLoaded kind => image_onload kind s
    | _ => s
    end.
Proof.
  unfold rendered. intros L H.
  destruct e; try contradiction; simpl; destruct (layout s);
    try discriminate; reflexivity.
Qed.

Lemma start_click_enabled s c :
  get_cameraSection s = Some c ->
  sb_disabled (cameraActionStartButton c) = false ->
  step EvStartClick s = cameraActionStartButton_onclick c s.
Proof.
  intros C D. rewrite step_rendered; eauto using section_rendered.
  unfold cameraActionStartButton_click. now rewrite C, D.
Qed.

Lemma start_onclick_persisted c s :
  persistedDataManager (cameraActionStartButton_onclick c s)
  = setLastUsedCameraId (cs_value (cameraSelectUi c)) (persistedDataManager s).
Proof.
  unfold cameraActionStartButton_onclick. cbv zeta.
  match goal with
  | |- context [match html5Qrcode ?x with _ => _ end] =>
      destruct (html5Qrcode x)
  end;
  match goal with
  | |- context [if ?b then _ else _] => destruct b
  end; now autorewrite with observe.
Qed.

Lemma start_onclick_effects c s h :
  html5Qrcode s = Some h ->
  effects (cameraActionStartButton_onclick c s)
  = (effects s ++ [CallStart (cs_value (cameraSelectUi c))])%list.
Proof.
  intros H. unfold cameraActionStartButton_onclick. cbv zeta.
  destruct (hasMoreThanOneScanType _);
    autorewrite with observe; rewrite H; now autorewrite with observe.
Qed.

Lemma start_onclick_section c0 s c :
  get_cameraSection s = Some c ->
  get_cameraSection (cameraActionStartButton_onclick c0 s)
  = Some
      (set_cameraActionStartButton
         (set_sb_opacity OpacityHalf
            (set_sb_disabled true
               (set_sb_innerText scanButtonScanningStarting
                  (cameraActionStartButton c))))
         (set_cameraSelectUi (set_cs_enabled false (cameraSelectUi c)) c)).
Proof.
  intros C. unfold cameraActionStartButton_onclick. cbv zeta.
  match goal with
  | |- context [match html5Qrcode ?x with _ => _ end] =>
      destruct (html5Qrcode x)
  end;
  match goal with
  | |- context [if ?b then _ else _] => destruct b
  end; autorewrite with observe; now rewrite C.
Qed.

Lemma start_onclick_html5Qrcode c s :
  html5Qrcode (cameraActionStartButton_onclick c s) = html5Qrcode s.
Proof.
  unfold cameraActionStartButton_onclick. cbv zeta.
  match goal with
  | |- context [match html5Qrcode ?x with _ => _ end] =>
      destruct (html5Qrcode x)
  end;
  match goal with
  | |- context [if ?b then _ else _] => destruct b
  end; now autorewrite with observe.
Qed.

Lemma start_settled_persisted o s :
  persistedDataManager (start_settled o s) = persistedDataManager s.
Proof.
  unfold start_settled, start_then, start_catch. cbv zeta.
  destruct o.
  - repeat match goal with
           | |- context [if ?b then _ else _] => destruct b
           end; now autorewrite with observe.
  - now autorewrite with observe.
Qed.

(** C4 fails as stated: a start that the engine rejects has stored the
    camera id all the same. *)
Lemma C4_stored_exactly_on_success_counterexample :
  ~ (forall o,
       getLastUsedCameraId
         (persistedDataManager
            (run [EvStartClick; EvStartSettled o] cameras_listed))
       = Some "cam-back"
       <-> exists caps, o = Resolved caps).
Proof.
  intros H.
  destruct (H (Rejected (Thrown "NotReadableError"))) as [H1 _].
  destruct H1 as [caps E].
  - vm_compute. reflexivity.
  - discriminate E.
Qed.

(** C4 (amended): a click on the enabled start button stores the selected
    camera id at once, before the engine is asked to start, so the id is
    stored whether the start then succeeds or fails.  When the engine
    rejects the start, the engine handle is as it was, the start button
    is shown and enabled again, the camera selection is enabled again and
    the header shows the engine's error itself, as a warning. *)
Theorem C4_start_stores_id_at_click s c h :
  get_cameraSection s = Some c ->
  sb_disabled (cameraActionStartButton c) = false ->
  html5Qrcode s = Some h ->
  let cameraId := cs_value (cameraSelectUi c) in
  let s1 := step EvStartClick s in
  getLastUsedCameraId (persistedDataManager s1) = Some cameraId /\
  effects s1 = (effects s ++ [CallStart cameraId])%list /\
  (forall o,
     getLastUsedCameraId (persistedDataManager (step (EvStartSettled o) s1))
     = Some cameraId) /\
  (forall error,
     let s2 := step (EvStartSettled (Rejected error)) s1 in
     html5Qrcode s2 = Some h /\
     get_header s2
       = Some {| hm_innerText := Some (errorText error);
                 hm_display := DisplayBlock;
                 hm_colours := ColoursWarning |} /\
     option_map cameraActionStartButton (get_cameraSection s2)
       = Some {| sb_innerText := scanButtonStartScanningText;
                 sb_disabled := false;
                 sb_opacity := OpacityFull;
                 sb_display := DisplayInlineBlock |} /\
     option_map cameraSelectUi (get_cameraSection s2)
       = Some (set_cs_enabled true (cameraSelectUi c))).
Proof.
  intros C D H cameraId s1.
  assert (E1 : s1 = cameraActionStartButton_onclick c s)
    by now apply start_click_enabled.
  assert (R1 : rendered s1 = true).
  { apply section_rendered with
      (c := set_cameraActionStartButton
              (set_sb_opacity OpacityHalf
                 (set_sb_disabled true
                    (set_sb_innerText scanButtonScanningStarting
                       (cameraActionStartButton c))))
              (set_cameraSelectUi (set_cs_enabled false (cameraSelectUi c)) c)).
    rewrite E1. now apply start_onclick_section. }
  assert (P1 : getLastUsedCameraId (persistedDataManager s1) = Some cameraId).
  { rewrite E1, start_onclick_persisted. reflexivity. }
  split; [exact P1|]. split.
  { rewrite E1. now apply start_onclick_effects with h. }
  split.
  { intros o. rewrite step_rendered by (auto; exact I).
    now rewrite start_settled_persisted. }
  intros error s2.
  assert (E2 : s2 = start_catch error s1).
  { unfold s2. now rewrite step_rendered by (auto; exact I). }
  rewrite E2. unfold start_catch. cbv zeta.
  autorewrite with observe. rewrite R1.
  rewrite E1, start_onclick_html5Qrcode, (start_onclick_section _ _ C).
  repeat split; assumption.
Qed.

Lemma C4_start_stores_id_at_click_witness :
  getLastUsedCameraId
    (persistedDataManager
       (step (EvStartSettled (Rejected (Thrown "NotReadableError")))
          (step EvStartClick cameras_listed)))
  = Some (cs_value (cameraSelectUi (new_cameraSection two_cameras))).
Proof.
  refine (proj1 (proj2 (proj2
    (@C4_start_stores_id_at_click cameras_listed
       (new_cameraSection two_cameras) {| isScanning := false |}
       _ _ _))) (Rejected (Thrown "NotReadableError")));
    vm_compute; reflexivity.
Defined.

(** ** clear *)

(** C5: [clear()] on a scanning engine first asks the engine to stop and
    touches nothing else; the engine is cleared and the container emptied
    when that stop has succeeded; when the stop fails, [clear()] rejects
    with the stop's error and the engine handle, the container and the
    rendered elements are as they were.  Without an engine [clear()]
    resolves at once; with an engine that is not scanning it clears,
    empties and resolves at once. *)
Theorem C5_clear_stops_before_emptying s :
  match html5Qrcode s with
  | None => clear s = emit ClearResolved s
  | Some h =>
      if isScanning h then
        clear s = emit CallStop s /\
        container (clear s) = container s /\
        (let s' := step (EvClearStopSettled (Resolved tt)) (clear s) in
         effects s'
           = (effects s ++ [CallStop; CallClear; ClearResolved])%list /\
         container s' = {| innerHTML := ContentEmpty; border := BorderNone |}) /\
        (forall error,
           let s' := step (EvClearStopSettled (Rejected error)) (clear s) in
           effects s'
             = (effects s ++ [CallStop]
                ++ (if verbose s
                    then [LogError "Unable to stop qrcode scanner"] else [])
                ++ [ClearRejected error])%list /\
           html5Qrcode s' = Some h /\
           container s' = container s /\
           layout s' = layout s /\
           set_effects (effects s) s' = s)
      else
        clear s = emit ClearResolved (emptyHtmlContainer (emit CallClear s))
  end.
Proof.
  unfold clear. destruct (html5Qrcode s) as [h|] eqn:H; [|reflexivity].
  destruct (isScanning h) eqn:I; [|reflexivity].
  split; [reflexivity|]. split; [reflexivity|]. split.
  - simpl. unfold clear_stop_then, engine_settled. simpl. rewrite H. simpl.
    split; [|reflexivity].
    now rewrite <- !app_assoc.
  - intros error. simpl. unfold clear_stop_catch. cbv zeta.
    destruct s; simpl in *. destruct verbose0; simpl;
      rewrite <- ?app_assoc; repeat split; assumption.
Qed.

(** ** Camera enumeration *)

Lemma buttons_upd_persisted f s :
  get_permissionButtons (upd_persisted f s) = get_permissionButtons s.
Proof. reflexivity. Qed.

Lemma buttons_emit e s :
  get_permissionButtons (emit e s) = get_permissionButtons s.
Proof. reflexivity. Qed.

Lemma buttons_setHeaderMessage t st s :
  get_permissionButtons (setHeaderMessage t st s) = get_permissionButtons s.
Proof.
  unfold get_permissionButtons, setHeaderMessage, upd_layout. simpl.
  now destruct (layout s).
Qed.

Lemma buttons_resetHeaderMessage s :
  get_permissionButtons (resetHeaderMessage s) = get_permissionButtons s.
Proof.
  unfold get_permissionButtons, resetHeaderMessage, upd_layout. simpl.
  now destruct (layout s).
Qed.

Lemma buttons_showHide b s :
  get_permissionButtons (showHideScanTypeSwapLink b s) = get_permissionButtons s.
Proof.
  unfold get_permissionButtons, showHideScanTypeSwapLink, upd_layout.
  destruct (hasMoreThanOneScanType _); simpl; now destruct (layout s).
Qed.

Lemma buttons_createPermissionButton s :
  rendered s = true ->
  get_permissionButtons (createPermissionButton s)
  = (get_permissionButtons s ++ [{| pb_disabled := false |}])%list.
Proof.
  unfold rendered, get_permissionButtons, createPermissionButton, upd_layout.
  simpl. now destruct (layout s).
Qed.

Lemma buttons_set_permissionButton_disabled i d s :
  get_permissionButtons (set_permissionButton_disabled i d s)
  = set_nth i {| pb_disabled := d |} (get_permissionButtons s).
Proof.
  unfold get_permissionButtons, set_permissionButton_disabled, upd_layout.
  simpl. destruct (layout s); [reflexivity|now destruct i].
Qed.

Lemma header_upd_persisted f s : get_header (upd_persisted f s) = get_header s.
Proof. reflexivity. Qed.

Lemma header_createPermissionButton s :
  get_header (createPermissionButton s) = get_header s.
Proof.
  unfold get_header, createPermissionButton, upd_layout. simpl.
  now destruct (layout s).
Qed.

Lemma rendered_createPermissionButton s :
  rendered (createPermissionButton s) = rendered s.
Proof. apply rendered_upd_layout. Qed.

Lemma rendered_set_permissionButton_disabled i d s :
  rendered (set_permissionButton_disabled i d s) = rendered s.
Proof. apply rendered_upd_layout. Qed.

Lemma persisted_createPermissionButton s :
  persistedDataManager (createPermissionButton s) = persistedDataManager s.
Proof. reflexivity. Qed.

Lemma persisted_set_permissionButton_disabled i d s :
  persistedDataManager (set_permissionButton_disabled i d s)
  = persistedDataManager s.
Proof. reflexivity. Qed.

Lemma guard_createPermissionButton s :
  sectionSwapAllowed (createPermissionButton s) = sectionSwapAllowed s.
Proof. reflexivity. Qed.

#[local] Hint Rewrite
  buttons_upd_persisted buttons_emit buttons_setHeaderMessage
  buttons_resetHeaderMessage buttons_showHide
  buttons_set_permissionButton_disabled header_upd_persisted
  header_createPermissionButton rendered_createPermissionButton
  rendered_set_permissionButton_disabled persisted_createPermissionButton
  persisted_set_permissionButton_disabled guard_createPermissionButton
  : observe.

Lemma nth_error_set_nth {A : Type} (x : A) (l : list A) : forall i,
  (i < List.length l)%nat -> nth_error (set_nth i x l) i = Some x.
Proof.
  induction l as [|y l IH]; intros i Hi; simpl in *; [lia|].
  destruct i as [|j]; [reflexivity|]. simpl. apply IH. lia.
Qed.

Lemma nth_error_app_new {A : Type} (x : A) (l : list A) :
  nth_error (l ++ [x]) (List.length l) = Some x.
Proof. induction l; simpl; auto. Qed.

(** C6: when the camera enumeration is rejected, the scanner stores that
    permission is not granted, puts the rejection's error itself in the
    header as a warning, and enables the request-permission button that
    started the enumeration or, when no button started it, adds a new
    enabled one. *)
Theorem C6_enumeration_failure_rearms s requestPermissionButton error :
  rendered s = true ->
  let s' :=
    step (EvGetCamerasSettled requestPermissionButton (Rejected error)) s in
  hasPermission (persistedDataManager s') = false /\
  get_header s'
    = Some {| hm_innerText := Some (errorText error);
              hm_display := DisplayBlock;
              hm_colours := ColoursWarning |} /\
  match requestPermissionButton with
  | Some i =>
      get_permissionButtons s'
        = set_nth i {| pb_disabled := false |} (get_permissionButtons s) /\
      ((i < List.length (get_permissionButtons s))%nat ->
       nth_error (get_permissionButtons s') i = Some {| pb_disabled := false |})
  | None =>
      get_permissionButtons s'
        = (get_permissionButtons s ++ [{| pb_disabled := false |}])%list /\
      nth_error (get_permissionButtons s') (List.length (get_permissionButtons s))
        = Some {| pb_disabled := false |}
  end.
Proof.
  intros R s'.
  assert (E : s' = getCameras_catch requestPermissionButton error s).
  { unfold s'. now rewrite step_rendered by (auto; exact I). }
  rewrite E. unfold getCameras_catch. cbv zeta.
  destruct requestPermissionButton as [i|]; simpl;
    autorewrite with observe; rewrite ?R.
  - repeat split. intros Hi. now apply nth_error_set_nth.
  - rewrite buttons_createPermissionButton by now autorewrite with observe.
    autorewrite with observe.
    repeat split. apply nth_error_app_new.
Qed.

Lemma C6_enumeration_failure_rearms_witness :
  nth_error
    (get_permissionButtons
       (step (EvGetCamerasSettled (Some 0%nat)
                (Rejected (Thrown "NotAllowedError")))
          permission_requested)) 0
  = Some {| pb_disabled := false |}.
Proof.
  refine (proj2 (proj2 (proj2
    (@C6_enumeration_failure_rearms permission_requested (Some 0%nat)
       (Thrown "NotAllowedError") _))) _);
    vm_compute; [reflexivity | lia].
Defined.

Lemma guard_showHide_true s :
  hasMoreThanOneScanType (scanTypeSelector s) || sectionSwapAllowed s = true ->
  sectionSwapAllowed (showHideScanTypeSwapLink true s) = true.
Proof.
  unfold showHideScanTypeSwapLink.
  destruct (hasMoreThanOneScanType _); simpl; auto.
Qed.

(** C7 (what the code does): when the enumeration succeeds with no camera,
    the header shows the "no camera found" warning, permission is stored
    as granted and the guard is open.  A request-permission button is
    added only when no button started the enumeration; the button that
    started it is left as its click handler left it, disabled. *)
Theorem C7_no_camera_found K s requestPermissionButton :
  reachable K s ->
  rendered s = true ->
  let s' :=
    step (EvGetCamerasSettled requestPermissionButton (Resolved [])) s in
  get_header s'
    = Some {| hm_innerText := Some noCameraFound;
              hm_display := DisplayBlock;
              hm_colours := ColoursWarning |} /\
  hasPermission (persistedDataManager s') = true /\
  sectionSwapAllowed s' = true /\
  match requestPermissionButton with
  | Some i => get_permissionButtons s' = get_permissionButtons s
  | None =>
      get_permissionButtons s'
        = (get_permissionButtons s ++ [{| pb_disabled := false |}])%list
  end.
Proof.
  intros Rs R s'. destruct (reachable_fixed Rs) as [_ G].
  assert (E : s' = createPermissionButtonIfNotExists requestPermissionButton
                     (setHeaderMessage noCameraFound (Some STATUS_WARNING)
                        (resetHeaderMessage
                           (showHideScanTypeSwapLink true
                              (upd_persisted (setHasPermission true) s))))).
  { unfold s'. now rewrite step_rendered by (auto; exact I). }
  rewrite E.
  assert (G' : sectionSwapAllowed
                 (showHideScanTypeSwapLink true
                    (upd_persisted (setHasPermission true) s)) = true)
    by now apply guard_showHide_true.
  destruct requestPermissionButton as [i|]; simpl.
  - autorewrite with observe. rewrite R. repeat split. exact G'.
  - rewrite buttons_createPermissionButton by now autorewrite with observe.
    autorewrite with observe. rewrite R. repeat split. exact G'.
Qed.

Lemma C7_no_camera_found_witness :
  get_permissionButtons
    (step (EvGetCamerasSettled (Some 0%nat) (Resolved [])) permission_requested)
  = get_permissionButtons permission_requested.
Proof.
  refine (proj2 (proj2 (proj2
    (@C7_no_camera_found library_constants permission_requested (Some 0%nat)
       _ _)))).
  - apply reachable_step, camera_first_rendered_reachable.
  - vm_compute. reflexivity.
Defined.

(** The run in which a click on the request-permission button is answered
    with an empty camera list: the only button stays disabled, while a
    rejected enumeration enables it. *)
Example no_camera_found_trace :
  get_permissionButtons camera_first_rendered = [{| pb_disabled := false |}] /\
  get_permissionButtons permission_requested = [{| pb_disabled := true |}] /\
  get_permissionButtons
    (step (EvGetCamerasSettled (Some 0%nat) (Resolved [])) permission_requested)
  = [{| pb_disabled := true |}] /\
  get_permissionButtons
    (step (EvGetCamerasSettled (Some 0%nat) (Rejected (Thrown "NotFoundError")))
       permission_requested)
  = [{| pb_disabled := false |}] /\
  effects
    (step (EvPermissionButtonClick 0)
       (step (EvGetCamerasSettled (Some 0%nat) (Resolved []))
          permission_requested))
  = [CallGetCameras].
Proof. vm_compute. repeat split. Qed.

(** ** Zoom *)

Lemma Qltb_lt a b : Qltb a b = true <-> a < b.
Proof.
  unfold Qltb. rewrite negb_true_iff.
  split.
  - intros H. apply Qnot_le_lt. intros L.
    apply Qle_bool_iff in L. congruence.
  - intros H. destruct (Qle_bool b a) eqn:E; [|reflexivity].
    apply Qle_bool_iff in E. exfalso. now apply (Qlt_not_le a b).
Qed.

Lemma Qltb_ge a b : Qltb a b = false <-> b <= a.
Proof.
  unfold Qltb. rewrite negb_false_iff. apply Qle_bool_iff.
Qed.

(** Splits [clip] on its two comparisons, as facts about the order. *)
Ltac clip_cases :=
  unfold clip;
  repeat match goal with
         | |- context [Qltb ?a ?b] =>
             let E := fresh "E" in
             destruct (Qltb a b) eqn:E;
             [apply Qltb_lt in E | apply Qltb_ge in E]
         end.

Lemma clip_in_range value minValue maxValue :
  minValue <= maxValue ->
  minValue <= clip value minValue maxValue /\
  clip value minValue maxValue <= maxValue.
Proof.
  intros H. clip_cases; split;
    auto using Qle_refl, Qlt_le_weak.
Qed.

Lemma clip_below value minValue maxValue :
  minValue <= maxValue -> value < minValue ->
  clip value minValue maxValue = minValue.
Proof.
  intros H L. clip_cases; try reflexivity.
  - exfalso. apply (Qlt_irrefl value).
    apply Qlt_le_trans with minValue; auto.
    apply Qle_trans with maxValue; auto using Qlt_le_weak.
  - exfalso. now apply (Qlt_not_le value minValue).
Qed.

Lemma clip_above value minValue maxValue :
  maxValue < value -> clip value minValue maxValue = maxValue.
Proof. intros L. clip_cases; try reflexivity; exfalso;
  now apply (Qlt_not_le maxValue value). Qed.

Lemma clip_inside value minValue maxValue :
  minValue <= value -> value <= maxValue ->
  clip value minValue maxValue = value.
Proof.
  intros L U. clip_cases; try reflexivity; exfalso.
  - now apply (Qlt_not_le maxValue value).
  - now apply (Qlt_not_le value minValue).
Qed.

Lemma Qlt_minus_one q : q - 1 < q.
Proof.
  rewrite <- (Qplus_0_r q) at 2. unfold Qminus.
  apply Qplus_lt_r. reflexivity.
Qed.

Lemma Qlt_plus_one q : q < q + 1.
Proof.
  rewrite <- (Qplus_0_r q) at 1. apply Qplus_lt_r. reflexivity.
Qed.

Lemma clip_min_minus_one lo hi :
  lo <= hi -> clip (lo - 1) lo hi = clip lo lo hi.
Proof.
  intros H. rewrite (clip_below H (Qlt_minus_one _)).
  symmetry. apply clip_inside; auto using Qle_refl.
Qed.

Lemma clip_max_plus_one lo hi :
  lo <= hi -> clip (hi + 1) lo hi = clip hi lo hi.
Proof.
  intros H. rewrite (clip_above _ (Qlt_plus_one _)).
  symmetry. apply clip_inside; auto using Qle_refl.
Qed.

Lemma clip_clip value lo hi :
  lo <= hi -> clip (clip value lo hi) lo hi = clip value lo hi.
Proof.
  intros H. destruct (clip_in_range value H). now apply clip_inside.
Qed.

(** A slider that is set up takes the value clamped into its bounds and
    hands it to the capability. *)
Lemma zoom_input_set_up lo hi st value s :
  slider_set_up lo hi st s ->
  step (EvZoomChange value) s
  = emit (CallZoomApply (clip value lo hi))
      (upd_cameraSection (fun c =>
         set_cameraZoomUi
           (set_zu_values
              (Some {| zv_min := lo; zv_max := hi;
                       zv_value := clip value lo hi; zv_step := st |})
              (cameraZoomUi c)) c) s).
Proof.
  intros (c & v0 & z & C & U).
  rewrite step_rendered by (eauto using section_rendered; exact I).
  unfold CameraZoomUi_input. rewrite C, U. simpl.
  unfold CameraZoomUi_onValueChange, onCameraZoomValueChange.
  rewrite section_upd_cameraSection, C. simpl. now rewrite U.
Qed.

Lemma zoom_input_keeps_set_up lo hi st value s :
  slider_set_up lo hi st s ->
  slider_set_up lo hi st (step (EvZoomChange value) s).
Proof.
  intros H. rewrite (zoom_input_set_up value H).
  destruct H as (c & v0 & z & C & U).
  eexists _, (clip value lo hi), z. split.
  - rewrite section_emit, section_upd_cameraSection, C. reflexivity.
  - simpl. now rewrite U.
Qed.

Lemma zoom_inputs_effects lo hi st values : forall s,
  slider_set_up lo hi st s ->
  effects (run (map EvZoomChange values) s)
  = (effects s ++ map (fun v => CallZoomApply (clip v lo hi)) values)%list.
Proof.
  induction values as [|v values IH]; intros s H.
  - simpl. now rewrite app_nil_r.
  - change (run (map EvZoomChange (v :: values)) s)
      with (run (map EvZoomChange values) (step (EvZoomChange v) s)).
    rewrite (IH _ (zoom_input_keeps_set_up v H)).
    rewrite (zoom_input_set_up v H). simpl.
    now rewrite <- app_assoc.
Qed.

Lemma applied_zoom_emit value s :
  applied_zoom (emit (CallZoomApply value) s) = Some value.
Proof.
  unfold applied_zoom, emit. simpl. now rewrite fold_left_app.
Qed.

(** A start that succeeds, on a scanner that shows the zoom slider and a
    camera that supports zoom: the clamped default is applied and the
    slider is set up with the capability's bounds. *)
Lemma start_sets_up_slider caps s c :
  get_cameraSection s = Some c ->
  is_true (showZoomSliderIfSupported (config s)) = true ->
  zoom_isSupported (zoomFeature caps) = true ->
  let lo := zoom_min (zoomFeature caps) in
  let hi := zoom_max (zoomFeature caps) in
  let defaultZoom :=
    match defaultZoomValueIfSupported (config s) with
    | Some z => if truthy_number (Some z) then z else 1
    | None => 1
    end in
  let session := step (EvStartSettled (Resolved caps)) s in
  effects session = (effects s ++ [CallZoomApply (clip defaultZoom lo hi)])%list /\
  applied_zoom session = Some (clip defaultZoom lo hi) /\
  slider_set_up lo hi (zoom_step (zoomFeature caps)) session.
Proof.
  intros C Z S lo hi defaultZoom session.
  assert (R : rendered s = true) by now apply section_rendered with c.
  assert (E : session = start_then caps (engine_settled true s)).
  { unfold session. now rewrite step_rendered by (auto; exact I). }
  rewrite E. unfold start_then. cbv zeta.
  set (s1 := upd_cameraSection _ (engine_settled true s)).
  set (s2 := if is_true (showTorchButtonIfSupported (config s1)) then _ else s1).
  assert (K : config s2 = config s).
  { unfold s2. now destruct (is_true (showTorchButtonIfSupported (config s1))). }
  assert (F : effects s2 = effects s).
  { unfold s2. now destruct (is_true (showTorchButtonIfSupported (config s1))). }
  assert (C2 : exists c2, get_cameraSection s2 = Some c2).
  { assert (C1 : exists c1, get_cameraSection s1 = Some c1).
    { unfold s1. rewrite section_upd_cameraSection.
      change (get_cameraSection (engine_settled true s))
        with (get_cameraSection s).
      rewrite C. simpl. eauto. }
    destruct C1 as [c1 C1]. unfold s2.
    destruct (is_true (showTorchButtonIfSupported (config s1))); eauto.
    rewrite section_upd_cameraSection, C1. simpl. eauto. }
  destruct C2 as [c2 C2].
  rewrite K, Z, (@renderCameraZoomUi_supported caps s2 c2 S C2). cbv zeta.
  rewrite K. fold lo hi defaultZoom.
  split; [|split].
  - simpl. now rewrite F.
  - apply applied_zoom_emit.
  - eexists _, (clip defaultZoom lo hi), (zoomFeature caps). split.
    + rewrite section_emit, section_upd_cameraSection, C2. reflexivity.
    + reflexivity.
Qed.

(** C8: once a start has succeeded on a scanner that shows the zoom
    slider, for a camera whose zoom capability has its minimum not above
    its maximum, every zoom value applied to the camera is clamped into
    the capability's range first and none is refused.  The default (the
    configured value, or 1 when none or 0 is configured) is applied
    clamped when the session starts, and each value the user moves the
    slider to is applied clamped, in order, and nothing else happens.
    The clamped value lies in the range; one below the minimum is applied
    as the minimum is, one above the maximum as the maximum is, and a
    clamped value as the value itself; moving the slider to a value twice
    leaves the camera's zoom and the slider as moving it there once. *)
Theorem C8_applied_zoom_is_clamped caps s c value :
  get_cameraSection s = Some c ->
  is_true (showZoomSliderIfSupported (config s)) = true ->
  zoom_isSupported (zoomFeature caps) = true ->
  zoom_min (zoomFeature caps) <= zoom_max (zoomFeature caps) ->
  let lo := zoom_min (zoomFeature caps) in
  let hi := zoom_max (zoomFeature caps) in
  let defaultZoom :=
    match defaultZoomValueIfSupported (config s) with
    | Some z => if truthy_number (Some z) then z else 1
    | None => 1
    end in
  let session := step (EvStartSettled (Resolved caps)) s in
  effects session
    = (effects s ++ [CallZoomApply (clip defaultZoom lo hi)])%list /\
  (forall values,
     effects (run (map EvZoomChange values) session)
     = (effects session
          ++ map (fun v => CallZoomApply (clip v lo hi)) values)%list) /\
  applied_zoom (step (EvZoomChange value) session)
    = Some (clip value lo hi) /\
  (lo <= clip value lo hi /\ clip value lo hi <= hi) /\
  step (EvZoomChange (lo - 1)) session = step (EvZoomChange lo) session /\
  step (EvZoomChange (hi + 1)) session = step (EvZoomChange hi) session /\
  step (EvZoomChange (clip value lo hi)) session
    = step (EvZoomChange value) session /\
  applied_zoom (run [EvZoomChange value; EvZoomChange value] session)
    = applied_zoom (step (EvZoomChange value) session) /\
  get_cameraSection (run [EvZoomChange value; EvZoomChange value] session)
    = get_cameraSection (step (EvZoomChange value) session).
Proof.
  intros C Z S H lo hi defaultZoom session.
  destruct (@start_sets_up_slider caps s c C Z S) as (E & _ & U).
  fold lo hi defaultZoom session in E, U.
  pose proof (zoom_input_keeps_set_up value U) as U'.
  split; [exact E|].
  split; [intros values; exact (zoom_inputs_effects values U)|].
  split; [rewrite (zoom_input_set_up value U); apply applied_zoom_emit|].
  split; [exact (clip_in_range value H)|].
  split; [rewrite !(zoom_input_set_up _ U); now rewrite clip_min_minus_one|].
  split; [rewrite !(zoom_input_set_up _ U); now rewrite clip_max_plus_one|].
  split; [rewrite !(zoom_input_set_up _ U); now rewrite clip_clip|].
  change (run [EvZoomChange value; EvZoomChange value] session)
    with (step (EvZoomChange value) (step (EvZoomChange value) session)).
  rewrite (zoom_input_set_up value U').
  split.
  - rewrite applied_zoom_emit.
    rewrite (zoom_input_set_up value U). now rewrite applied_zoom_emit.
  - rewrite section_emit, section_upd_cameraSection.
    rewrite (zoom_input_set_up value U).
    rewrite section_emit, section_upd_cameraSection.
    now destruct (get_cameraSection session).
Qed.

Lemma C8_applied_zoom_is_clamped_witness :
  step (EvZoomChange (5 + 1)) zoom_session
  = step (EvZoomChange 5) zoom_session.
Proof.
  refine (proj1 (proj2 (proj2 (proj2 (proj2 (proj2
    (@C8_applied_zoom_is_clamped zoom_1_to_5 (step EvStartClick cameras_listed)
       (set_cameraActionStartButton
          (set_sb_opacity OpacityHalf
             (set_sb_disabled true
                (set_sb_innerText scanButtonScanningStarting
                   (cameraActionStartButton (new_cameraSection two_cameras)))))
          (set_cameraSelectUi
             (set_cs_enabled false
                (cameraSelectUi (new_cameraSection two_cameras)))
             (new_cameraSection two_cameras)))
       0 _ _ _ _))))))).
  - vm_compute. reflexivity.
  - vm_compute. reflexivity.
  - reflexivity.
  - vm_compute. discriminate.
Defined.

(** The session of the sample scanner: the configured default 9 is
    applied and shown as 5, and a move of the slider to 6 is applied
    as 5. *)
Example zoom_session_trace :
  option_map (fun c => zu_values (cameraZoomUi c)) (get_cameraSection zoom_session)
    = Some (Some {| zv_min := 1; zv_max := 5; zv_value := 5;
                    zv_step := 1 # 10 |}) /\
  effects zoom_session
    = [CallGetCameras; CallStart "cam-back"; CallZoomApply 5] /\
  effects (step (EvZoomChange 6) zoom_session)
    = [CallGetCameras; CallStart "cam-back"; CallZoomApply 5;
       CallZoomApply 5] /\
  effects (run [EvStopClick; EvStopSettled (Resolved tt); EvZoomChange 3]
             zoom_session)
    = [CallGetCameras; CallStart "cam-back"; CallZoomApply 5; CallStop].
Proof. vm_compute. repeat split. Qed.

(** ** Construction *)

(** C9: with [undefined] for the configuration the constructor always
    throws.  When the element is accepted and the default scan types pass
    the selector's validation, what is thrown is the [TypeError] of
    reading [rememberLastUsedCamera] from the [undefined] argument, the
    default configuration having been created; and a construction that
    succeeds was given a configuration object. *)
Theorem C9_undefined_config_always_throws K elementOrId verbose' stored :
  is_thrown (constructor K elementOrId None verbose' stored) = true /\
  (forall selector,
     validateInput elementOrId = inr tt ->
     newScanTypeSelector K (supportedScanTypes (createConfig K None))
       = inr selector ->
     constructor K elementOrId None verbose' stored = inl TypeError) /\
  (forall config s,
     constructor K elementOrId config verbose' stored = inr s ->
     exists c, config = Some c).
Proof.
  unfold constructor. repeat split.
  - destruct (validateInput elementOrId); [reflexivity|].
    cbv zeta. now destruct (newScanTypeSelector _ _).
  - intros selector V S. rewrite V. cbv zeta. now rewrite S.
  - intros config s. destruct (validateInput elementOrId); [discriminate|].
    cbv zeta. destruct (newScanTypeSelector _ _); [discriminate|].
    destruct config as [c|]; [eauto|discriminate].
Qed.

Lemma C9_undefined_config_always_throws_witness :
  constructor library_constants (ElementId "reader" true) None (Some true)
    permission_stored = inl TypeError.
Proof.
  refine (proj1 (proj2
    (@C9_undefined_config_always_throws library_constants
       (ElementId "reader" true) (Some true) permission_stored))
    {| defaultScanType := SCAN_TYPE_CAMERA;
       otherScanTypes := [SCAN_TYPE_FILE] |} _ _);
    reflexivity.
Defined.

(** With an object, even an empty one, the same construction succeeds. *)
Example construction_with_empty_config :
  is_thrown
    (constructor library_constants (ElementId "reader" true)
       (Some empty_config) (Some true) permission_stored) = false.
Proof. reflexivity. Qed.

(** ** The success callback *)

Lemma option_string_eqb_spec a b :
  option_string_eqb a b = true <-> a = Some b.
Proof.
  unfold option_string_eqb. destruct a as [x|].
  - rewrite String.eqb_eq. split; congruence.
  - split; discriminate.
Qed.

(** C10: the wrapper installed by [render] forwards every result to the
    caller's callback when there is one, also a repeated one, and changes
    nothing else.  Without a caller's callback it drops a result whose
    text is the last reported match, leaving the header as it is, and
    otherwise records the text and shows it in the header as a success; so
    the same text decoded twice in a row is reported once.  [render] sets
    the last match back to none and installs the wrapper. *)
Theorem C10_success_wrapper_dedupes_without_callback s decodedText :
  successWrapper true decodedText s = emit (CallerSuccess decodedText) s /\
  effects (successWrapper true decodedText (successWrapper true decodedText s))
    = (effects s ++ [CallerSuccess decodedText; CallerSuccess decodedText])%list /\
  (lastMatchFound s = Some decodedText ->
   successWrapper false decodedText s = s) /\
  (lastMatchFound s <> Some decodedText ->
   successWrapper false decodedText s
   = setHeaderMessage (lastMatch decodedText) (Some STATUS_SUCCESS)
       (set_lastMatchFound (Some decodedText) s)) /\
  successWrapper false decodedText (successWrapper false decodedText s)
    = successWrapper false decodedText s /\
  (forall sc ec,
     lastMatchFound (render sc ec s) = None /\
     qrCodeSuccessCallback (render sc ec s) = Some sc /\
     step (EvDecoded decodedText) (render sc ec s)
       = successWrapper sc decodedText (render sc ec s)).
Proof.
  assert (D : lastMatchFound s = Some decodedText ->
              successWrapper false decodedText s = s).
  { intros E. unfold successWrapper.
    now rewrite (proj2 (option_string_eqb_spec _ _) E). }
  assert (N : lastMatchFound s <> Some decodedText ->
              successWrapper false decodedText s
              = setHeaderMessage (lastMatch decodedText) (Some STATUS_SUCCESS)
                  (set_lastMatchFound (Some decodedText) s)).
  { intros E. unfold successWrapper.
    destruct (option_string_eqb (lastMatchFound s) decodedText) eqn:B;
      [|reflexivity].
    apply option_string_eqb_spec in B. contradiction. }
  split; [reflexivity|]. split.
  { simpl. now rewrite <- app_assoc. }
  split; [exact D|]. split; [exact N|]. split.
  - destruct (option_string_eqb (lastMatchFound s) decodedText) eqn:B.
    + apply option_string_eqb_spec in B. now rewrite !D.
    + assert (E : lastMatchFound s <> Some decodedText).
      { intros E. apply option_string_eqb_spec in E. congruence. }
      rewrite (N E). unfold successWrapper at 1.
      replace (option_string_eqb _ decodedText) with true; [reflexivity|].
      symmetry. apply option_string_eqb_spec. reflexivity.
  - intros sc ec.
    assert (L : lastMatchFound (render sc ec s) = None).
    { unfold render, createBasicLayout, createSectionSwap,
        createPermissionsUi, createPermissionButton,
        insertCameraScanImageToScanRegion, insertFileScanImageToScanRegion.
      cbv zeta.
      repeat match goal with
             | |- context [if ?b then _ else _] => destruct b
             end; reflexivity. }
    assert (Q : qrCodeSuccessCallback (render sc ec s) = Some sc).
    { unfold render, createBasicLayout, createSectionSwap,
        createPermissionsUi, createPermissionButton,
        insertCameraScanImageToScanRegion, insertFileScanImageToScanRegion.
      cbv zeta.
      repeat match goal with
             | |- context [if ?b then _ else _] => destruct b
             end; reflexivity. }
    assert (R : rendered (render sc ec s) = true).
    { unfold render, createBasicLayout, createSectionSwap,
        createPermissionsUi, createPermissionButton,
        insertCameraScanImageToScanRegion, insertFileScanImageToScanRegion.
      cbv zeta.
      repeat match goal with
             | |- context [if ?b then _ else _] => destruct b
             end; reflexivity. }
    repeat split; auto.
    rewrite step_rendered by (auto; exact I).
    unfold engine_decoded. now rewrite Q.
Qed.

Lemma C10_success_wrapper_dedupes_without_callback_witness :
  successWrapper false "4006381333931"
    (set_lastMatchFound (Some "4006381333931") camera_first_rendered)
  = set_lastMatchFound (Some "4006381333931") camera_first_rendered.
Proof.
  refine (proj1 (proj2 (proj2
    (@C10_success_wrapper_dedupes_without_callback
       (set_lastMatchFound (Some "4006381333931") camera_first_rendered)
       "4006381333931"))) _).
  reflexivity.
Defined.

(** The same text decoded three times, then the scanner rendered again:
    without a caller's callback the header is set once and the next render
    forgets the match; with one, all three are forwarded. *)
Example decode_trace :
  lastMatchFound
    (run [EvDecoded "A"; EvDecoded "A"; EvDecoded "A"] camera_first_rendered)
    = Some "A" /\
  run [EvDecoded "A"; EvDecoded "A"; EvDecoded "A"] camera_first_rendered
    = run [EvDecoded "A"] camera_first_rendered /\
  lastMatchFound
    (run [EvDecoded "A"; EvRender false false] camera_first_rendered) = None /\
  effects
    (run [EvRender true false; EvDecoded "A"; EvDecoded "A"; EvDecoded "A"]
       camera_first_scanner)
    = [CallerSuccess "A"; CallerSuccess "A"; CallerSuccess "A"].
Proof. vm_compute. repeat split. Qed.

(** * Further properties of the scanner *)

(** ** Configuration and construction *)

(** X1: [createConfig] returns a configuration whose [fps],
    [rememberLastUsedCamera] and [supportedScanTypes] are all defined, and
    applying it to its own result changes nothing.  A missing or zero
    [fps] becomes the default and any other is kept.  The result's
    [rememberLastUsedCamera] differs from the library default only when
    the caller passed exactly the opposite of the default. *)
Theorem X1_createConfig_fills_defaults K config :
  let c := createConfig K config in
  is_some (fps c) && is_some (rememberLastUsedCamera c)
    && is_some (supportedScanTypes c) = true /\
  createConfig K (Some c) = c /\
  fps c
    = (match config with
       | Some c0 =>
           if truthy_number (fps c0) then fps c0
           else Some (SCAN_DEFAULT_FPS K)
       | None => Some (SCAN_DEFAULT_FPS K)
       end) /\
  (rememberLastUsedCamera c
     = Some (negb (DEFAULT_REMEMBER_LAST_CAMERA_USED K)) <->
   exists c0,
     config = Some c0 /\
     rememberLastUsedCamera c0
       = Some (negb (DEFAULT_REMEMBER_LAST_CAMERA_USED K))) /\
  (rememberLastUsedCamera c
     <> Some (negb (DEFAULT_REMEMBER_LAST_CAMERA_USED K)) ->
   rememberLastUsedCamera c = Some (DEFAULT_REMEMBER_LAST_CAMERA_USED K)).
Proof.
  intros c. subst c.
  destruct config as [c0|]; simpl.
  - destruct c0 as [f r t to zo dz]; simpl.
    split; [|split; [|split; [|split; [split|]]]].
    + destruct r as [b|], t, f; simpl;
        repeat match goal with
               | |- context [if ?x then _ else _] => destruct x
               end; reflexivity.
    + f_equal.
      * destruct (truthy_number f) eqn:Ef; [now rewrite Ef|].
        now destruct (truthy_number (Some (SCAN_DEFAULT_FPS K))).
      * destruct (option_bool_eqb r _) eqn:Er; [now rewrite Er|].
        simpl. now destruct (DEFAULT_REMEMBER_LAST_CAMERA_USED K).
      * now destruct t.
    + reflexivity.
    + intros H. exists {| fps := f; rememberLastUsedCamera := r;
                         supportedScanTypes := t;
                         showTorchButtonIfSupported := to;
                         showZoomSliderIfSupported := zo;
                         defaultZoomValueIfSupported := dz |}.
      split; [reflexivity|]. simpl.
      destruct (option_bool_eqb r _) eqn:Er; [exact H|].
      exfalso. injection H. now destruct (DEFAULT_REMEMBER_LAST_CAMERA_USED K).
    + intros [c1 [E H]]. injection E as <-. simpl in H. rewrite H.
      simpl. now rewrite eqb_reflx.
    + intros H. destruct (option_bool_eqb r _) eqn:Er; [|reflexivity].
      exfalso. apply H. destruct r as [b|]; [|discriminate]. simpl in Er.
      apply eqb_prop in Er. now rewrite Er.
  - split; [|split; [|split; [|split; [split|]]]]; try reflexivity.
    + f_equal;
        repeat match goal with
               | |- context [if ?x then _ else _] => destruct x
               end; reflexivity.
    + intros H. exfalso. injection H.
      now destruct (DEFAULT_REMEMBER_LAST_CAMERA_USED K).
    + intros [c1 [E _]]. discriminate E.
Qed.

Lemma X1_createConfig_fills_defaults_witness :
  rememberLastUsedCamera (createConfig library_constants (Some zoom_config))
  = Some true.
Proof.
  refine (proj2 (proj2 (proj2 (proj2
    (@X1_createConfig_fills_defaults library_constants (Some zoom_config)))))
    _).
  vm_compute. discriminate.
Defined.

(** X2: with the library remembering by default, a construction that
    succeeds wipes the stored permission and camera id exactly when the
    caller's configuration says [rememberLastUsedCamera: false]; with
    [true] or nothing said they are kept.  The new scanner is not
    rendered, has no engine, has its guard open and shows its selector's
    default scan type. *)
Theorem X2_constructor_forgets_only_on_false K el config v stored s :
  DEFAULT_REMEMBER_LAST_CAMERA_USED K = true ->
  constructor K el (Some config) v stored = inr s ->
  persistedDataManager s
    = (if option_bool_eqb (rememberLastUsedCamera config) false
       then reset stored else stored) /\
  rendered s = false /\
  html5Qrcode s = None /\
  sectionSwapAllowed s = true /\
  currentScanType s = getDefaultScanType (scanTypeSelector s) /\
  effects s = [].
Proof.
  intros D. unfold constructor.
  destruct (validateInput el); [discriminate|]. cbv zeta.
  destruct (newScanTypeSelector _ _); [discriminate|].
  intros H. injection H as <-. simpl. rewrite D. simpl.
  repeat split.
  now destruct (rememberLastUsedCamera config) as [[|]|].
Qed.

Lemma X2_constructor_forgets_only_on_false_witness :
  persistedDataManager file_first_scanner
  = (if option_bool_eqb (rememberLastUsedCamera file_first_config) false
     then reset permission_stored else permission_stored).
Proof.
  refine (proj1
    (@X2_constructor_forgets_only_on_false library_constants (Element true)
       file_first_config None permission_stored file_first_scanner _ _));
    reflexivity.
Defined.

(** ** The engine and the callbacks are there once rendered *)

Create Rewrite HintDb ready.

Lemma quiet_emit e s :
  is_uncaught e = false -> quiet (emit e s) = quiet s.
Proof.
  intros H. unfold quiet, emit. simpl.
  rewrite forallb_app. simpl. rewrite H. simpl.
  now rewrite !andb_true_r.
Qed.

Lemma ready_emit e s :
  is_uncaught e = false -> readiness (emit e s) = readiness s.
Proof.
  intros H. unfold readiness. now rewrite quiet_emit by exact H.
Qed.

Lemma ready_upd_layout f s : readiness (upd_layout f s) = readiness s.
Proof.
  unfold readiness, rendered, upd_layout. simpl. now destruct (layout s).
Qed.

Lemma ready_upd_cameraSection f s :
  readiness (upd_cameraSection f s) = readiness s.
Proof. apply ready_upd_layout. Qed.

Lemma ready_upd_persisted f s : readiness (upd_persisted f s) = readiness s.
Proof. reflexivity. Qed.

Lemma ready_setHeaderMessage t st s :
  readiness (setHeaderMessage t st s) = readiness s.
Proof. apply ready_upd_layout. Qed.

Lemma ready_resetHeaderMessage s :
  readiness (resetHeaderMessage s) = readiness s.
Proof. apply ready_upd_layout. Qed.

Lemma ready_clearScanRegion s : readiness (clearScanRegion s) = readiness s.
Proof. apply ready_upd_layout. Qed.

Lemma ready_createPermissionButton s :
  readiness (createPermissionButton s) = readiness s.
Proof. apply ready_upd_layout. Qed.

Lemma ready_set_permissionButton_disabled i d s :
  readiness (set_permissionButton_disabled i d s) = readiness s.
Proof. apply ready_upd_layout. Qed.

Lemma ready_set_sectionSwapAllowed b s :
  readiness (set_sectionSwapAllowed b s) = readiness s.
Proof. reflexivity. Qed.

Lemma ready_set_currentScanType t s :
  readiness (set_currentScanType t s) = readiness s.
Proof. reflexivity. Qed.

Lemma ready_set_lastMatchFound v s :
  readiness (set_lastMatchFound v s) = readiness s.
Proof. reflexivity. Qed.

Lemma ready_set_cameraScanImage v s :
  readiness (set_cameraScanImage v s) = readiness s.
Proof. reflexivity. Qed.

Lemma ready_set_fileScanImage v s :
  readiness (set_fileScanImage v s) = readiness s.
Proof. reflexivity. Qed.

Lemma ready_set_container v s : readiness (set_container v s) = readiness s.
Proof. reflexivity. Qed.

Lemma ready_emptyHtmlContainer s :
  readiness (emptyHtmlContainer s) = readiness s.
Proof. reflexivity. Qed.

Lemma ready_engine_settled b s : readiness (engine_settled b s) = readiness s.
Proof.
  unfold readiness, engine_settled. simpl. now destruct (html5Qrcode s).
Qed.

Lemma ready_showHide b s :
  readiness (showHideScanTypeSwapLink b s) = readiness s.
Proof.
  unfold showHideScanTypeSwapLink.
  destruct (hasMoreThanOneScanType _); [|reflexivity].
  now rewrite ready_upd_layout.
Qed.

#[local] Hint Rewrite
  ready_upd_layout ready_upd_cameraSection ready_upd_persisted
  ready_setHeaderMessage ready_resetHeaderMessage ready_clearScanRegion
  ready_createPermissionButton ready_set_permissionButton_disabled
  ready_set_sectionSwapAllowed ready_set_currentScanType
  ready_set_lastMatchFound ready_set_cameraScanImage ready_set_fileScanImage
  ready_set_container ready_emptyHtmlContainer ready_engine_settled
  ready_showHide : ready.
#[local] Hint Rewrite ready_emit using reflexivity : ready.

(** Splits on the tests of a handler, innermost first, and rewrites the
    readiness through its parts. *)
Ltac ready_through :=
  cbv zeta;
  repeat first
    [ progress autorewrite with ready
    | match goal with
      | |- context [match ?x with _ => _ end] =>
          lazymatch x with
          | context [match _ with _ => _ end] => fail
          | _ => destruct x
          end
      end ];
  try reflexivity.

Lemma ready_insertCameraScanImageToScanRegion s :
  readiness (insertCameraScanImageToScanRegion s) = readiness s.
Proof. unfold insertCameraScanImageToScanRegion. ready_through. Qed.

Lemma ready_insertFileScanImageToScanRegion s :
  readiness (insertFileScanImageToScanRegion s) = readiness s.
Proof. unfold insertFileScanImageToScanRegion. ready_through. Qed.

Lemma ready_image_onload k s : readiness (image_onload k s) = readiness s.
Proof. unfold image_onload. ready_through. Qed.

Lemma ready_createCameraListUi s :
  readiness (createCameraListUi s) = readiness s.
Proof. unfold createCameraListUi. ready_through. Qed.

#[local] Hint Rewrite
  ready_insertCameraScanImageToScanRegion
  ready_insertFileScanImageToScanRegion ready_image_onload
  ready_createCameraListUi : ready.

Lemma ready_createPermissionButtonIfNotExists b s :
  readiness (createPermissionButtonIfNotExists b s) = readiness s.
Proof. unfold createPermissionButtonIfNotExists. ready_through. Qed.

Lemma ready_permissionButton_click i s :
  readiness (permissionButton_click i s) = readiness s.
Proof. unfold permissionButton_click. ready_through. Qed.

#[local] Hint Rewrite
  ready_createPermissionButtonIfNotExists ready_permissionButton_click : ready.

Lemma all_ready_inv s :
  readiness s = all_ready ->
  rendered s = true /\
  (exists h, html5Qrcode s = Some h) /\
  (exists b, qrCodeSuccessCallback s = Some b) /\
  (exists b, qrCodeErrorCallback s = Some b) /\
  quiet s = true.
Proof.
  unfold readiness, all_ready. intros H. injection H as R E S F Q.
  destruct (html5Qrcode s) as [h|]; [|discriminate].
  destruct (qrCodeSuccessCallback s) as [b|]; [|discriminate].
  destruct (qrCodeErrorCallback s) as [b'|]; [|discriminate].
  repeat split; eauto.
Qed.

Lemma ready_start_onclick c s :
  readiness s = all_ready ->
  readiness (cameraActionStartButton_onclick c s) = all_ready.
Proof.
  intros R. destruct (all_ready_inv R) as (_ & [h H] & _).
  unfold cameraActionStartButton_onclick. cbv zeta.
  destruct (hasMoreThanOneScanType _); autorewrite with observe;
    rewrite H; now autorewrite with ready.
Qed.

Lemma ready_start_click s :
  readiness s = all_ready ->
  readiness (cameraActionStartButton_click s) = all_ready.
Proof.
  intros R. unfold cameraActionStartButton_click.
  destruct (get_cameraSection s) as [c|]; [|exact R].
  destruct (sb_disabled _); [exact R|now apply ready_start_onclick].
Qed.

Lemma ready_CameraZoomUi_onValueChange s :
  readiness (CameraZoomUi_onValueChange s) = readiness s.
Proof.
  unfold CameraZoomUi_onValueChange, onCameraZoomValueChange. ready_through.
Qed.

#[local] Hint Rewrite ready_CameraZoomUi_onValueChange : ready.

Lemma ready_CameraZoomUi_setValues lo hi v st s :
  readiness (CameraZoomUi_setValues lo hi v st s) = readiness s.
Proof. unfold CameraZoomUi_setValues. ready_through. Qed.

#[local] Hint Rewrite ready_CameraZoomUi_setValues : ready.

Lemma ready_renderCameraZoomUiIfSupported caps s :
  readiness (renderCameraZoomUiIfSupported caps s) = readiness s.
Proof. unfold renderCameraZoomUiIfSupported. ready_through. Qed.

#[local] Hint Rewrite ready_renderCameraZoomUiIfSupported : ready.

Lemma ready_CameraZoomUi_input v s :
  readiness (CameraZoomUi_input v s) = readiness s.
Proof. unfold CameraZoomUi_input. ready_through. Qed.

Lemma ready_CameraSelectionUi_select id s :
  readiness (CameraSelectionUi_select id s) = readiness s.
Proof. unfold CameraSelectionUi_select. ready_through. Qed.

Lemma ready_start_settled o s :
  readiness (start_settled o s) = readiness s.
Proof. unfold start_settled, start_then, start_catch. ready_through. Qed.

Lemma ready_stop_click s :
  readiness s = all_ready ->
  readiness (cameraActionStopButton_click s) = all_ready.
Proof.
  intros R. destruct (all_ready_inv R) as (_ & [h H] & _).
  unfold cameraActionStopButton_click, cameraActionStopButton_onclick.
  rewrite H.
  destruct (get_cameraSection s) as [c|]; [|exact R].
  destruct (stop_disabled _); [exact R|]. now autorewrite with ready.
Qed.

Lemma ready_stop_settled o s : readiness (stop_settled o s) = readiness s.
Proof. unfold stop_settled, stop_then, stop_catch. ready_through. Qed.

Lemma ready_renderCameraSelection cameras s :
  readiness s = all_ready ->
  readiness (renderCameraSelection cameras s) = all_ready.
Proof.
  intros R. unfold renderCameraSelection. cbv zeta.
  set (s1 := upd_layout _ s).
  assert (R1 : readiness s1 = all_ready)
    by (unfold s1; now autorewrite with ready).
  set (s2 := if hasSingleItem _ then _ else s1).
  assert (R2 : readiness s2 = all_ready).
  { unfold s2. destruct (hasSingleItem _); [now apply ready_start_click|exact R1]. }
  clearbody s2. clear s1 R1.
  destruct (getLastUsedCameraId _); [|exact R2].
  destruct (String.eqb _ _); [exact R2|].
  destruct (hasValue _ _).
  - apply ready_start_click. now autorewrite with ready.
  - now autorewrite with ready.
Qed.

Lemma ready_getCameras_catch b e s :
  readiness (getCameras_catch b e s) = readiness s.
Proof. unfold getCameras_catch. ready_through. Qed.

Lemma ready_getCameras_settled b o s :
  readiness s = all_ready ->
  readiness (getCameras_settled b o s) = all_ready.
Proof.
  intros R. unfold getCameras_settled, getCameras_then.
  destruct o as [cameras|error]; [|now rewrite ready_getCameras_catch].
  cbv zeta. destruct cameras.
  - now autorewrite with ready.
  - destruct (requestPermissionContainer_isChild _).
    + apply ready_renderCameraSelection. now autorewrite with ready.
    + rewrite ready_getCameras_catch. now autorewrite with ready.
Qed.

Lemma ready_createPermissionsUi s :
  readiness (createPermissionsUi s) = readiness s.
Proof. unfold createPermissionsUi. ready_through. Qed.

Lemma ready_createPermissionsUi_settled o s :
  readiness (createPermissionsUi_settled o s) = readiness s.
Proof. unfold createPermissionsUi_settled. ready_through. Qed.

Lemma ready_torchButton_onFailure e s :
  readiness (torchButton_onFailure e s) = readiness s.
Proof. unfold torchButton_onFailure. ready_through. Qed.

Lemma ready_successWrapper b t s :
  readiness (successWrapper b t s) = readiness s.
Proof. unfold successWrapper. ready_through. Qed.

Lemma ready_errorWrapper b e s : readiness (errorWrapper b e s) = readiness s.
Proof. unfold errorWrapper. ready_through. Qed.

#[local] Hint Rewrite ready_createPermissionsUi ready_successWrapper
  ready_errorWrapper : ready.

Lemma ready_scanFile_settled o s :
  readiness s = all_ready ->
  readiness (scanFile_settled o s) = all_ready.
Proof.
  intros R. destruct (all_ready_inv R) as (_ & _ & [b S] & [b' F] & _).
  unfold scanFile_settled, scanFile_then, scanFile_catch. cbv zeta.
  destruct o as [decodedText|error].
  - replace (qrCodeSuccessCallback (resetHeaderMessage s)) with (Some b)
      by (symmetry; exact S).
    now autorewrite with ready.
  - replace (qrCodeErrorCallback
               (setHeaderMessage (errorText error) (Some STATUS_WARNING) s))
      with (Some b') by (symmetry; exact F).
    now autorewrite with ready.
Qed.

Lemma ready_onFileSelected f s :
  readiness s = all_ready ->
  readiness (onFileSelected f s) = all_ready.
Proof.
  intros R. destruct (all_ready_inv R) as (_ & [h H] & _).
  unfold onFileSelected. cbv zeta.
  replace (html5Qrcode (upd_layout _ s)) with (Some h) by (symmetry; exact H).
  destruct (negb _); now autorewrite with ready.
Qed.

Lemma ready_permissionsOnSwap_settled o s :
  readiness (permissionsOnSwap_settled o s) = readiness s.
Proof.
  unfold permissionsOnSwap_settled, permissionsOnSwap_then,
    permissionsOnSwap_catch.
  ready_through.
Qed.

Lemma ready_swap_click s :
  readiness (switchScanTypeLink_click s) = readiness s.
Proof.
  unfold switchScanTypeLink_click, switchScanTypeLink_onclick,
    swap_cleanup, swap_activate, startCameraScanIfPermissionExistsOnSwap.
  ready_through.
Qed.

Lemma quiet_set_layout v s : quiet (set_layout v s) = quiet s.
Proof. reflexivity. Qed.

Lemma ready_render sc ec s :
  readiness (render sc ec s) = (true, true, true, true, quiet s).
Proof.
  unfold render, createBasicLayout. cbv zeta.
  match goal with
  | |- context [set_layout (Some ?u) ?x] =>
      set (s0 := set_layout (Some u) x)
  end.
  assert (R0 : readiness s0
               = (true, is_some (html5Qrcode s), true, true, quiet s))
    by reflexivity.
  clearbody s0.
  set (s1 := if isCameraScanType (currentScanType s0) then _ else _).
  assert (R1 : readiness s1 = readiness s0) by (unfold s1; ready_through).
  clearbody s1.
  set (s2 := if isCameraScanRequired (scanTypeSelector s1) then _ else s1).
  assert (R2 : readiness s2 = readiness s1) by (unfold s2; ready_through).
  clearbody s2.
  set (s3 := if hasMoreThanOneScanType (scanTypeSelector s2) then _ else s2).
  assert (R3 : readiness s3 = readiness s2).
  { unfold s3, createSectionSwap. ready_through. }
  clearbody s3. rewrite R2, R1, R0 in R3.
  unfold readiness, rendered, quiet in *. simpl in *.
  injection R3 as -> _ -> -> ->. reflexivity.
Qed.

Lemma ready_clear s : readiness (clear s) = readiness s.
Proof. unfold clear. ready_through. Qed.

Lemma ready_clear_stop_settled o s :
  readiness (clear_stop_settled o s) = readiness s.
Proof.
  unfold clear_stop_settled, clear_stop_then, clear_stop_catch. ready_through.
Qed.

Lemma ready_step e s :
  readiness s = (false, false, false, false, true) \/ readiness s = all_ready ->
  readiness (step e s) = (false, false, false, false, true) \/
  readiness (step e s) = all_ready.
Proof.
  intros R.
  assert (Q : quiet s = true).
  { destruct R as [R|R]; unfold readiness in R; now injection R. }
  destruct e;
    [ change (step (EvRender qrCodeSuccessCallback' qrCodeErrorCallback') s)
        with (render qrCodeSuccessCallback' qrCodeErrorCallback' s);
      rewrite ready_render, Q; now right
    | change (step EvClear s) with (clear s); now rewrite ready_clear
    | change (step (EvClearStopSettled o) s) with (clear_stop_settled o s);
      now rewrite ready_clear_stop_settled
    | .. ];
    (destruct R as [R|R];
     [ left;
       assert (L : layout s = None)
         by (unfold readiness, rendered in R;
             destruct (layout s); [discriminate|reflexivity]);
       simpl; rewrite L; exact R
     | right; destruct (all_ready_inv R) as [L _];
       rewrite step_rendered by (auto; exact I) ]).
  - now rewrite ready_createPermissionsUi_settled.
  - now rewrite ready_permissionButton_click.
  - now rewrite ready_CameraSelectionUi_select.
  - now apply ready_getCameras_settled.
  - now apply ready_start_click.
  - now rewrite ready_start_settled.
  - now apply ready_stop_click.
  - now rewrite ready_stop_settled.
  - now rewrite ready_CameraZoomUi_input.
  - now rewrite ready_torchButton_onFailure.
  - now rewrite ready_swap_click.
  - now rewrite ready_permissionsOnSwap_settled.
  - now apply ready_onFileSelected.
  - now apply ready_scanFile_settled.
  - unfold engine_decoded. destruct (qrCodeSuccessCallback s);
      [now rewrite ready_successWrapper|exact R].
  - unfold engine_decodeFailed. destruct (qrCodeErrorCallback s);
      [now rewrite ready_errorWrapper|exact R].
  - now rewrite ready_image_onload.
Qed.

Lemma reachable_readiness K s :
  reachable K s ->
  readiness s = (false, false, false, false, true) \/ readiness s = all_ready.
Proof.
  induction 1 as [el config v stored s Hnew | e s _ IH].
  - left. unfold constructor in Hnew.
    destruct (validateInput el); [discriminate|].
    destruct (newScanTypeSelector _ _); [discriminate|].
    destruct config; [|discriminate].
    injection Hnew as <-. reflexivity.
  - now apply ready_step.
Qed.

Lemma ready_step_stays e s :
  readiness s = all_ready -> readiness (step e s) = all_ready.
Proof.
  intros R.
  destruct (ready_step e (or_intror R)) as [H|H]; [|exact H].
  exfalso.
  destruct (all_ready_inv R) as (L & _ & _ & _ & Q).
  destruct e;
    [ change (step (EvRender qrCodeSuccessCallback' qrCodeErrorCallback') s)
        with (render qrCodeSuccessCallback' qrCodeErrorCallback' s) in H;
      rewrite ready_render in H; discriminate H
    | change (step EvClear s) with (clear s) in H;
      rewrite ready_clear, R in H; discriminate H
    | change (step (EvClearStopSettled o) s) with (clear_stop_settled o s) in H;
      rewrite ready_clear_stop_settled, R in H; discriminate H
    | .. ];
    rewrite step_rendered in H by (auto; exact I).
  - rewrite ready_createPermissionsUi_settled, R in H. discriminate H.
  - rewrite ready_permissionButton_click, R in H. discriminate H.
  - rewrite ready_CameraSelectionUi_select, R in H. discriminate H.
  - rewrite ready_getCameras_settled in H by exact R. discriminate H.
  - rewrite ready_start_click in H by exact R. discriminate H.
  - rewrite ready_start_settled, R in H. discriminate H.
  - rewrite ready_stop_click in H by exact R. discriminate H.
  - rewrite ready_stop_settled, R in H. discriminate H.
  - rewrite ready_CameraZoomUi_input, R in H. discriminate H.
  - rewrite ready_torchButton_onFailure, R in H. discriminate H.
  - rewrite ready_swap_click, R in H. discriminate H.
  - rewrite ready_permissionsOnSwap_settled, R in H. discriminate H.
  - rewrite ready_onFileSelected in H by exact R. discriminate H.
  - rewrite ready_scanFile_settled in H by exact R. discriminate H.
  - unfold engine_decoded in H. destruct (qrCodeSuccessCallback s);
      [rewrite ready_successWrapper in H|]; rewrite R in H; discriminate H.
  - unfold engine_decodeFailed in H. destruct (qrCodeErrorCallback s);
      [rewrite ready_errorWrapper in H|]; rewrite R in H; discriminate H.
  - rewrite ready_image_onload, R in H. discriminate H.
Qed.

Lemma ready_run_stays events : forall s,
  readiness s = all_ready -> readiness (run events s) = all_ready.
Proof.
  induction events as [|e events IH]; intros s R; simpl; [exact R|].
  apply IH. now apply ready_step_stays.
Qed.

Lemma reachable_rendered_ready K s :
  reachable K s -> rendered s = true -> readiness s = all_ready.
Proof.
  intros R L. destruct (reachable_readiness R) as [H|H]; [|exact H].
  unfold readiness in H. rewrite L in H. discriminate H.
Qed.

(** X3: [pause], [resume] and [getState] throw "Code scanner not
    initialized." on a scanner that was never rendered.  Once the scanner
    is rendered they reach the engine, [pause] with [true] only when it
    was called with exactly [true], and no later event, [clear()]
    included, brings the error back. *)
Theorem X3_engine_calls_fail_only_before_render K s shouldPauseVideo :
  reachable K s ->
  (rendered s = false ->
   pause shouldPauseVideo s = inl (Thrown "Code scanner not initialized.") /\
   resume s = inl (Thrown "Code scanner not initialized.") /\
   getState s = inl (Thrown "Code scanner not initialized.")) /\
  (rendered s = true ->
   forall events,
     pause shouldPauseVideo (run events s) = inr (is_true shouldPauseVideo) /\
     is_thrown (resume (run events s)) = false /\
     is_thrown (getState (run events s)) = false).
Proof.
  intros R. split; intros L.
  - destruct (reachable_readiness R) as [H|H].
    + unfold readiness in H. injection H as _ H _ _ _.
      unfold pause, resume, getState, getHtml5QrcodeOrFail.
      destruct (html5Qrcode s); [discriminate|]. repeat split.
    + unfold readiness in H. rewrite L in H. discriminate H.
  - intros events.
    pose proof (ready_run_stays events (reachable_rendered_ready R L)) as H.
    destruct (all_ready_inv H) as (_ & [h E] & _).
    unfold pause, resume, getState, getHtml5QrcodeOrFail. rewrite E.
    repeat split.
Qed.

Lemma X3_engine_calls_fail_only_before_render_witness :
  pause (Some true) (run [EvClear] camera_first_rendered) = inr true.
Proof.
  refine (proj1 (proj2
    (@X3_engine_calls_fail_only_before_render library_constants
       camera_first_rendered (Some true) camera_first_rendered_reachable)
    _ [EvClear])).
  vm_compute. reflexivity.
Defined.

(** X4: in no scanner that exists has a handler or a continuation thrown
    out to the event loop: the stop and file handlers never meet a missing
    engine ("html5Qrcode not defined"), the start handler never calls
    [start] on a missing engine, and the file scan never calls a missing
    error callback. *)
Theorem X4_no_handler_throws K s e :
  reachable K s -> In e (effects s) -> is_uncaught e = false.
Proof.
  intros R I.
  assert (Q : quiet s = true).
  { destruct (reachable_readiness R) as [H|H];
      unfold readiness in H; now injection H. }
  unfold quiet in Q. rewrite forallb_forall in Q.
  specialize (Q e I). now apply negb_true_iff in Q.
Qed.

Lemma X4_no_handler_throws_witness :
  is_uncaught (CallStart "cam-back") = false.
Proof.
  refine (@X4_no_handler_throws library_constants
            (step EvStartClick cameras_listed) (CallStart "cam-back") _ _).
  - apply reachable_step. unfold cameras_listed.
    apply reachable_run, camera_first_rendered_reachable.
  - vm_compute. auto.
Defined.

(** ** The scan type and what is shown for it *)

Create Rewrite HintDb view.

Lemma mode_view_layout_view s :
  mode_view s = (currentScanType s, option_map layout_view (layout s)).
Proof. reflexivity. Qed.

Lemma view_upd_layout f s :
  (forall u, layout_view (f u) = layout_view u) ->
  mode_view (upd_layout f s) = mode_view s.
Proof.
  intros H. rewrite !mode_view_layout_view. unfold upd_layout. simpl.
  destruct (layout s) as [u|]; simpl; [now rewrite H|reflexivity].
Qed.

Lemma view_upd_cameraSection f s :
  mode_view (upd_cameraSection f s) = mode_view s.
Proof. unfold upd_cameraSection. now apply view_upd_layout. Qed.

Lemma view_upd_persisted f s : mode_view (upd_persisted f s) = mode_view s.
Proof. reflexivity. Qed.

Lemma view_emit e s : mode_view (emit e s) = mode_view s.
Proof. reflexivity. Qed.

Lemma view_setHeaderMessage t st s :
  mode_view (setHeaderMessage t st s) = mode_view s.
Proof. unfold setHeaderMessage. now apply view_upd_layout. Qed.

Lemma view_resetHeaderMessage s :
  mode_view (resetHeaderMessage s) = mode_view s.
Proof. unfold resetHeaderMessage. now apply view_upd_layout. Qed.

Lemma view_clearScanRegion s : mode_view (clearScanRegion s) = mode_view s.
Proof. unfold clearScanRegion. now apply view_upd_layout. Qed.

Lemma view_createPermissionButton s :
  mode_view (createPermissionButton s) = mode_view s.
Proof. unfold createPermissionButton. now apply view_upd_layout. Qed.

Lemma view_set_permissionButton_disabled i d s :
  mode_view (set_permissionButton_disabled i d s) = mode_view s.
Proof. unfold set_permissionButton_disabled. now apply view_upd_layout. Qed.

Lemma view_set_sectionSwapAllowed b s :
  mode_view (set_sectionSwapAllowed b s) = mode_view s.
Proof. reflexivity. Qed.

Lemma view_set_cameraScanImage v s :
  mode_view (set_cameraScanImage v s) = mode_view s.
Proof. reflexivity. Qed.

Lemma view_set_fileScanImage v s :
  mode_view (set_fileScanImage v s) = mode_view s.
Proof. reflexivity. Qed.

Lemma view_set_container v s : mode_view (set_container v s) = mode_view s.
Proof. reflexivity. Qed.

Lemma view_emptyHtmlContainer s :
  mode_view (emptyHtmlContainer s) = mode_view s.
Proof. reflexivity. Qed.

Lemma view_engine_settled b s : mode_view (engine_settled b s) = mode_view s.
Proof. reflexivity. Qed.

Lemma view_set_lastMatchFound v s :
  mode_view (set_lastMatchFound v s) = mode_view s.
Proof. reflexivity. Qed.

Lemma view_showHide b s :
  mode_view (showHideScanTypeSwapLink b s) = mode_view s.
Proof.
  unfold showHideScanTypeSwapLink.
  destruct (hasMoreThanOneScanType _); [|reflexivity].
  rewrite view_upd_layout; [reflexivity|].
  intros u. unfold layout_view. simpl. now destruct (switchScanTypeLink u).
Qed.

#[local] Hint Rewrite
  view_upd_cameraSection view_upd_persisted view_emit view_setHeaderMessage
  view_resetHeaderMessage view_clearScanRegion view_createPermissionButton
  view_set_permissionButton_disabled view_set_sectionSwapAllowed
  view_set_cameraScanImage view_set_fileScanImage view_set_container
  view_emptyHtmlContainer view_engine_settled view_set_lastMatchFound
  view_showHide : view.
#[local] Hint Rewrite view_upd_layout using (intros; reflexivity) : view.

(** Splits on the tests of a handler, innermost first, and rewrites the
    view through its parts. *)
Ltac view_through :=
  cbv zeta;
  repeat first
    [ progress autorewrite with view
    | match goal with
      | |- context [match ?x with _ => _ end] =>
          lazymatch x with
          | context [match _ with _ => _ end] => fail
          | _ => destruct x
          end
      end ];
  try reflexivity.

Lemma view_insertCameraScanImageToScanRegion s :
  mode_view (insertCameraScanImageToScanRegion s) = mode_view s.
Proof. unfold insertCameraScanImageToScanRegion. view_through. Qed.

Lemma view_insertFileScanImageToScanRegion s :
  mode_view (insertFileScanImageToScanRegion s) = mode_view s.
Proof. unfold insertFileScanImageToScanRegion. view_through. Qed.

Lemma view_image_onload k s : mode_view (image_onload k s) = mode_view s.
Proof. unfold image_onload. view_through. Qed.

Lemma view_createCameraListUi s :
  mode_view (createCameraListUi s) = mode_view s.
Proof. unfold createCameraListUi. view_through. Qed.

#[local] Hint Rewrite
  view_insertCameraScanImageToScanRegion view_insertFileScanImageToScanRegion
  view_image_onload view_createCameraListUi : view.

Lemma view_createPermissionButtonIfNotExists b s :
  mode_view (createPermissionButtonIfNotExists b s) = mode_view s.
Proof. unfold createPermissionButtonIfNotExists. view_through. Qed.

Lemma view_permissionButton_click i s :
  mode_view (permissionButton_click i s) = mode_view s.
Proof. unfold permissionButton_click. view_through. Qed.

Lemma view_start_onclick c s :
  mode_view (cameraActionStartButton_onclick c s) = mode_view s.
Proof. unfold cameraActionStartButton_onclick. view_through. Qed.

#[local] Hint Rewrite
  view_createPermissionButtonIfNotExists view_permissionButton_click
  view_start_onclick : view.

Lemma view_start_click s :
  mode_view (cameraActionStartButton_click s) = mode_view s.
Proof. unfold cameraActionStartButton_click. view_through. Qed.

#[local] Hint Rewrite view_start_click : view.

Lemma view_CameraZoomUi_onValueChange s :
  mode_view (CameraZoomUi_onValueChange s) = mode_view s.
Proof.
  unfold CameraZoomUi_onValueChange, onCameraZoomValueChange. view_through.
Qed.

#[local] Hint Rewrite view_CameraZoomUi_onValueChange : view.

Lemma view_CameraZoomUi_setValues lo hi v st s :
  mode_view (CameraZoomUi_setValues lo hi v st s) = mode_view s.
Proof. unfold CameraZoomUi_setValues. view_through. Qed.

#[local] Hint Rewrite view_CameraZoomUi_setValues : view.

Lemma view_renderCameraZoomUiIfSupported caps s :
  mode_view (renderCameraZoomUiIfSupported caps s) = mode_view s.
Proof. unfold renderCameraZoomUiIfSupported. view_through. Qed.

#[local] Hint Rewrite view_renderCameraZoomUiIfSupported : view.

Lemma view_CameraZoomUi_input v s :
  mode_view (CameraZoomUi_input v s) = mode_view s.
Proof. unfold CameraZoomUi_input. view_through. Qed.

Lemma view_CameraSelectionUi_select id s :
  mode_view (CameraSelectionUi_select id s) = mode_view s.
Proof. unfold CameraSelectionUi_select. view_through. Qed.

Lemma view_start_settled o s : mode_view (start_settled o s) = mode_view s.
Proof. unfold start_settled, start_then, start_catch. view_through. Qed.

Lemma view_stop_click s :
  mode_view (cameraActionStopButton_click s) = mode_view s.
Proof.
  unfold cameraActionStopButton_click, cameraActionStopButton_onclick.
  view_through.
Qed.

Lemma view_stop_settled o s : mode_view (stop_settled o s) = mode_view s.
Proof. unfold stop_settled, stop_then, stop_catch. view_through. Qed.

Lemma view_renderCameraSelection cameras s :
  mode_view (renderCameraSelection cameras s) = mode_view s.
Proof. unfold renderCameraSelection. view_through. Qed.

#[local] Hint Rewrite view_renderCameraSelection : view.

Lemma view_getCameras_catch b e s :
  mode_view (getCameras_catch b e s) = mode_view s.
Proof. unfold getCameras_catch. view_through. Qed.

#[local] Hint Rewrite view_getCameras_catch : view.

Lemma view_getCameras_settled b o s :
  mode_view (getCameras_settled b o s) = mode_view s.
Proof.
  unfold getCameras_settled, getCameras_then.
  destruct o as [cameras|error]; [|view_through].
  cbv zeta. destruct cameras; [view_through|].
  destruct (requestPermissionContainer_isChild _); view_through.
Qed.

Lemma view_createPermissionsUi s :
  mode_view (createPermissionsUi s) = mode_view s.
Proof. unfold createPermissionsUi. view_through. Qed.

Lemma view_createPermissionsUi_settled o s :
  mode_view (createPermissionsUi_settled o s) = mode_view s.
Proof. unfold createPermissionsUi_settled. view_through. Qed.

Lemma view_torchButton_onFailure e s :
  mode_view (torchButton_onFailure e s) = mode_view s.
Proof. unfold torchButton_onFailure. view_through. Qed.

Lemma view_successWrapper b t s :
  mode_view (successWrapper b t s) = mode_view s.
Proof. unfold successWrapper. view_through. Qed.

Lemma view_errorWrapper b e s : mode_view (errorWrapper b e s) = mode_view s.
Proof. unfold errorWrapper. view_through. Qed.

#[local] Hint Rewrite view_createPermissionsUi view_successWrapper
  view_errorWrapper : view.

Lemma view_scanFile_settled o s :
  mode_view (scanFile_settled o s) = mode_view s.
Proof.
  unfold scanFile_settled, scanFile_then, scanFile_catch. view_through.
Qed.

Lemma view_onFileSelected f s : mode_view (onFileSelected f s) = mode_view s.
Proof. unfold onFileSelected. view_through. Qed.

Lemma view_permissionsOnSwap_settled o s :
  mode_view (permissionsOnSwap_settled o s) = mode_view s.
Proof.
  unfold permissionsOnSwap_settled, permissionsOnSwap_then,
    permissionsOnSwap_catch.
  view_through.
Qed.

Lemma view_clear s : mode_view (clear s) = mode_view s.
Proof. unfold clear. view_through. Qed.

Lemma view_clear_stop_settled o s :
  mode_view (clear_stop_settled o s) = mode_view s.
Proof.
  unfold clear_stop_settled, clear_stop_then, clear_stop_catch. view_through.
Qed.

Lemma view_swap_accepted s :
  sectionSwapAllowed s = true ->
  mode_view (switchScanTypeLink_onclick s)
  = (other_scanType (currentScanType s),
     option_map (fun u =>
       view_of (other_scanType (currentScanType s))
         (is_some (switchScanTypeLink u))) (layout s)).
Proof.
  intros A. unfold switchScanTypeLink_onclick. rewrite A. simpl.
  unfold swap_activate, swap_cleanup,
    startCameraScanIfPermissionExistsOnSwap. cbv zeta.
  change (currentScanType (set_sectionSwapAllowed false _))
    with (currentScanType s).
  destruct (currentScanType s); simpl; autorewrite with view;
    try (destruct (hasCameraPermissions _); autorewrite with view);
    unfold mode_view, clearScanRegion, resetHeaderMessage, upd_layout; simpl;
    destruct (layout s) as [u|]; simpl; try reflexivity;
    destruct (switchScanTypeLink u); reflexivity.
Qed.

Lemma view_render sc ec s :
  mode_view (render sc ec s)
  = (currentScanType s,
     Some (view_of (currentScanType s)
             (hasMoreThanOneScanType (scanTypeSelector s)))).
Proof.
  unfold render, createBasicLayout. cbv zeta.
  match goal with
  | |- context [set_layout (Some ?u) ?x] =>
      set (s0 := set_layout (Some u) x)
  end.
  assert (V0 : mode_view s0
               = (currentScanType s, Some (view_of (currentScanType s) false)))
    by reflexivity.
  assert (T0 : scanTypeSelector s0 = scanTypeSelector s) by reflexivity.
  clearbody s0.
  set (s1 := if isCameraScanType (currentScanType s0) then _ else _).
  assert (V1 : mode_view s1 = mode_view s0) by (unfold s1; view_through).
  assert (T1 : fixed_part s1 = fixed_part s0)
    by (unfold s1; fixed_through).
  clearbody s1.
  set (s2 := if isCameraScanRequired (scanTypeSelector s1) then _ else s1).
  assert (V2 : mode_view s2 = mode_view s1) by (unfold s2; view_through).
  assert (T2 : fixed_part s2 = fixed_part s1)
    by (unfold s2; fixed_through).
  clearbody s2.
  assert (T : scanTypeSelector s2 = scanTypeSelector s).
  { rewrite <- T0. unfold fixed_part in T1, T2.
    injection T1 as _ T1 _. injection T2 as _ T2 _. congruence. }
  rewrite T. rewrite V1, V0 in V2.
  change (mode_view (set_html5Qrcode ?a ?b)) with (mode_view b).
  destruct (hasMoreThanOneScanType (scanTypeSelector s)); [|exact V2].
  unfold createSectionSwap, mode_view, upd_layout in *. simpl in *.
  injection V2 as C V2. rewrite C.
  destruct (layout s2) as [u|]; [|discriminate]. simpl in *.
  injection V2 as D F _. rewrite D, F. unfold view_of.
  now destruct (currentScanType s).
Qed.

Lemma view_step_other e s :
  match e with EvRender _ _ | EvSwapClick => False | _ => True end ->
  mode_view (step e s) = mode_view s.
Proof.
  intros H.
  destruct e; try contradiction;
    [ change (step EvClear s) with (clear s); apply view_clear
    | change (step (EvClearStopSettled o) s) with (clear_stop_settled o s);
      apply view_clear_stop_settled
    | .. ];
    simpl; destruct (layout s) eqn:L; try reflexivity.
  - apply view_createPermissionsUi_settled.
  - apply view_permissionButton_click.
  - apply view_CameraSelectionUi_select.
  - apply view_getCameras_settled.
  - apply view_start_click.
  - apply view_start_settled.
  - apply view_stop_click.
  - apply view_stop_settled.
  - apply view_CameraZoomUi_input.
  - apply view_torchButton_onFailure.
  - apply view_permissionsOnSwap_settled.
  - apply view_onFileSelected.
  - apply view_scanFile_settled.
  - unfold engine_decoded. destruct (qrCodeSuccessCallback s);
      [apply view_successWrapper|reflexivity].
  - unfold engine_decodeFailed. destruct (qrCodeErrorCallback s);
      [apply view_errorWrapper|reflexivity].
  - apply view_image_onload.
Qed.

Lemma view_of_consistent t b :
  view_consistent (t, Some (view_of t b)).
Proof. unfold view_consistent, view_of. simpl. now destruct b. Qed.

Lemma view_swap_click s :
  view_consistent (mode_view s) ->
  view_consistent (mode_view (step EvSwapClick s)).
Proof.
  intros C. simpl. unfold switchScanTypeLink_click.
  destruct (layout s) as [u|] eqn:L; [|exact C].
  destruct (switchScanTypeLink u) eqn:S; [|exact C].
  destruct (sectionSwapAllowed s) eqn:A.
  - rewrite view_swap_accepted by exact A. rewrite L. simpl.
    apply view_of_consistent.
  - unfold switchScanTypeLink_onclick. rewrite A. simpl.
    destruct (verbose s); exact C.
Qed.

Lemma reachable_view_consistent K s :
  reachable K s -> view_consistent (mode_view s).
Proof.
  induction 1 as [el config v stored s Hnew | e s _ IH].
  - unfold constructor in Hnew.
    destruct (validateInput el); [discriminate|].
    destruct (newScanTypeSelector _ _); [discriminate|].
    destruct config; [|discriminate].
    injection Hnew as <-. exact I.
  - destruct e; try (rewrite view_step_other by exact I; exact IH).
    + change (step (EvRender qrCodeSuccessCallback' qrCodeErrorCallback') s)
        with (render qrCodeSuccessCallback' qrCodeErrorCallback' s).
      rewrite view_render. apply view_of_consistent.
    + now apply view_swap_click.
Qed.

(** X5: in every rendered scanner that exists, what is shown follows the
    active scan type: the camera region is displayed exactly in camera
    mode, the file selection is shown exactly in file mode, and the swap
    link, when there is one, carries the text of the active scan type. *)
Theorem X5_shown_elements_follow_scan_type K s :
  reachable K s ->
  rendered s = true ->
  option_map layout_view (layout s)
  = Some (view_of (currentScanType s) (swap_link_exists s)).
Proof.
  intros R L. pose proof (reachable_view_consistent R) as C.
  unfold view_consistent, mode_view, rendered, swap_link_exists in *.
  destruct (layout s) as [u|]; [|discriminate]. simpl in *.
  rewrite C at 1. unfold layout_view. simpl.
  now destruct (switchScanTypeLink u).
Qed.

Lemma X5_shown_elements_follow_scan_type_witness :
  option_map layout_view
    (layout (run [EvSwapClick; EvFileSelected "code.png"; EvSwapClick;
                  EvSwapClick] camera_first_rendered))
  = Some (view_of
            (currentScanType
               (run [EvSwapClick; EvFileSelected "code.png"; EvSwapClick;
                     EvSwapClick] camera_first_rendered))
            (swap_link_exists
               (run [EvSwapClick; EvFileSelected "code.png"; EvSwapClick;
                     EvSwapClick] camera_first_rendered))).
Proof.
  refine (@X5_shown_elements_follow_scan_type library_constants
            (run [EvSwapClick; EvFileSelected "code.png"; EvSwapClick;
                  EvSwapClick] camera_first_rendered) _ _).
  - apply reachable_run, camera_first_rendered_reachable.
  - vm_compute. reflexivity.
Defined.

Lemma swap_click_scanType s :
  swap_link_exists s = true ->
  sectionSwapAllowed s = true ->
  mode_view (step EvSwapClick s)
  = (other_scanType (currentScanType s),
     option_map (fun u =>
       view_of (other_scanType (currentScanType s))
         (is_some (switchScanTypeLink u))) (layout s)).
Proof.
  intros L A. rewrite <- (view_swap_accepted _ A).
  unfold swap_link_exists in L. simpl. unfold switchScanTypeLink_click.
  destruct (layout s) as [u|]; [|discriminate].
  now destruct (switchScanTypeLink u).
Qed.

Lemma swap_click_keeps_open s :
  swap_link_exists s = true ->
  sectionSwapAllowed s = true ->
  swap_link_exists (step EvSwapClick s) = true /\
  sectionSwapAllowed (step EvSwapClick s) = true.
Proof.
  intros L A. rewrite (swap_click_accepted _ L A). split; [|reflexivity].
  change (swap_link_exists (swap_activate (swap_cleanup s)) = true).
  now rewrite swap_activate_link, swap_cleanup_link.
Qed.

Lemma other_scanType_involutive t : other_scanType (other_scanType t) = t.
Proof. now destruct t. Qed.

Lemma set_sectionSwapAllowed_fields b s :
  currentScanType (set_sectionSwapAllowed b s) = currentScanType s /\
  persistedDataManager (set_sectionSwapAllowed b s) = persistedDataManager s /\
  effects (set_sectionSwapAllowed b s) = effects s /\
  layout (set_sectionSwapAllowed b s) = layout s.
Proof. repeat split. Qed.

(** X6: an accepted click on the swap link switches to the other scan
    type, hides the header message, clears the pending file selection and
    leaves the stored preferences as they are.  It asks for the camera
    permission state only when it switches to the camera and permission is
    stored as granted; no other call leaves the scanner.  A second
    accepted click brings back the first scan type and everything shown
    for it. *)
Theorem X6_swap_switches_scan_type K s :
  reachable K s ->
  swap_link_exists s = true ->
  sectionSwapAllowed s = true ->
  let s' := step EvSwapClick s in
  currentScanType s' = other_scanType (currentScanType s) /\
  option_map hm_display (get_header s') = Some DisplayNone /\
  option_map fs_value (get_fileSelectionUi s') = Some None /\
  persistedDataManager s' = persistedDataManager s /\
  effects s'
    = (effects s
       ++ (if isFileScanType (currentScanType s)
              && hasCameraPermissions (persistedDataManager s)
           then [CallHasPermissions] else []))%list /\
  mode_view (step EvSwapClick s') = mode_view s.
Proof.
  intros R L A s'.
  pose proof (swap_click_scanType _ L A) as V. fold s' in V.
  destruct (swap_click_keeps_open _ L A) as [L' A']. fold s' in L', A'.
  assert (T : currentScanType s' = other_scanType (currentScanType s)).
  { unfold mode_view in V. now injection V. }
  split; [exact T|].
  assert (E : s' = set_sectionSwapAllowed true (swap_activate (swap_cleanup s)))
    by (apply swap_click_accepted; assumption).
  assert (Lu : exists u, layout s = Some u) by now apply swap_link_exists_layout.
  destruct Lu as [u Lu].
  split; [|split; [|split; [|split]]].
  - rewrite E. unfold get_header, swap_activate, swap_cleanup,
      startCameraScanIfPermissionExistsOnSwap,
      insertCameraScanImageToScanRegion, insertFileScanImageToScanRegion,
      clearScanRegion, resetHeaderMessage, upd_layout, emit.
    cbv zeta. simpl.
    repeat match goal with
           | |- context [if ?b then _ else _] => destruct b
           end; simpl; rewrite Lu; reflexivity.
  - rewrite E. unfold get_fileSelectionUi, swap_activate, swap_cleanup,
      startCameraScanIfPermissionExistsOnSwap,
      insertCameraScanImageToScanRegion, insertFileScanImageToScanRegion,
      clearScanRegion, resetHeaderMessage, upd_layout, emit.
    cbv zeta. simpl.
    repeat match goal with
           | |- context [if ?b then _ else _] => destruct b
           end; simpl; rewrite Lu; reflexivity.
  - rewrite E. unfold swap_activate, swap_cleanup,
      startCameraScanIfPermissionExistsOnSwap,
      insertCameraScanImageToScanRegion, insertFileScanImageToScanRegion.
    cbv zeta. simpl.
    repeat match goal with
           | |- context [if ?b then _ else _] => destruct b
           end; reflexivity.
  - rewrite E. unfold swap_activate, swap_cleanup,
      startCameraScanIfPermissionExistsOnSwap,
      insertCameraScanImageToScanRegion, insertFileScanImageToScanRegion,
      hasCameraPermissions.
    cbv zeta. simpl.
    destruct (currentScanType s); simpl;
      repeat match goal with
             | |- context [if ?b then _ else _] => destruct b eqn:?
             end; simpl in *; try congruence;
      now rewrite ?app_nil_r.
  - rewrite (swap_click_scanType _ L' A'), T, other_scanType_involutive.
    pose proof (reachable_view_consistent R) as C.
    rewrite mode_view_layout_view. f_equal.
    unfold swap_link_exists in L, L'.
    destruct (layout s') as [u'|]; [|discriminate].
    rewrite Lu in L. rewrite Lu. simpl.
    destruct (switchScanTypeLink u'); [|discriminate]. simpl.
    unfold view_consistent in C. rewrite mode_view_layout_view in C.
    rewrite Lu in C. simpl in C. rewrite C.
    unfold layout_view. simpl.
    destruct (switchScanTypeLink u); [reflexivity|discriminate].
Qed.

Lemma X6_swap_switches_scan_type_witness :
  currentScanType (step EvSwapClick camera_first_rendered)
  = other_scanType (currentScanType camera_first_rendered).
Proof.
  refine (proj1
    (@X6_swap_switches_scan_type library_constants camera_first_rendered
       camera_first_rendered_reachable _ _));
    vm_compute; reflexivity.
Defined.

Lemma swap_click_refused s :
  sectionSwapAllowed s = false ->
  step EvSwapClick s = s \/
  step EvSwapClick s
  = emit (LogError "Section swap called when not allowed") s.
Proof.
  intros A. simpl. unfold switchScanTypeLink_click.
  destruct (layout s) as [u|]; [|now left].
  destruct (switchScanTypeLink u); [|now left].
  unfold switchScanTypeLink_onclick. rewrite A. simpl.
  destruct (verbose s); [now right|now left].
Qed.

(** ** render *)

(** X7: [render] builds a new layout and a new engine that is not
    scanning, without stopping the engine it replaces: the only call it
    can make is the permission check, made when the camera is a supported
    and the active scan type and permission is stored as granted.  It keeps the active
    scan type, the guard and the stored preferences, and forgets the last
    match; a swap link is created exactly when more than one scan type is
    supported.  So a scanner rendered again while its guard is closed
    refuses the clicks on its new swap link. *)
Theorem X7_render_keeps_scan_type_and_guard sc ec s :
  let s' := render sc ec s in
  currentScanType s' = currentScanType s /\
  sectionSwapAllowed s' = sectionSwapAllowed s /\
  persistedDataManager s' = persistedDataManager s /\
  lastMatchFound s' = None /\
  html5Qrcode s' = Some {| isScanning := false |} /\
  get_cameraSection s' = None /\
  swap_link_exists s' = hasMoreThanOneScanType (scanTypeSelector s) /\
  effects s'
    = (effects s
       ++ (if isCameraScanRequired (scanTypeSelector s)
              && isCameraScanType (currentScanType s)
              && hasCameraPermissions (persistedDataManager s)
           then [CallHasPermissions] else []))%list /\
  (sectionSwapAllowed s = false ->
   mode_view (step EvSwapClick s') = mode_view s').
Proof.
  intros s'.
  assert (H : currentScanType s' = currentScanType s /\
              sectionSwapAllowed s' = sectionSwapAllowed s /\
              persistedDataManager s' = persistedDataManager s /\
              lastMatchFound s' = None /\
              html5Qrcode s' = Some {| isScanning := false |} /\
              get_cameraSection s' = None /\
              swap_link_exists s' = hasMoreThanOneScanType (scanTypeSelector s) /\
              effects s'
              = (effects s
                 ++ (if isCameraScanRequired (scanTypeSelector s)
                        && isCameraScanType (currentScanType s)
                        && hasCameraPermissions (persistedDataManager s)
                     then [CallHasPermissions] else []))%list).
  { unfold s', render, createBasicLayout. cbv zeta.
    match goal with
    | |- context [set_layout (Some ?u) ?x] =>
        set (s0 := set_layout (Some u) x)
    end.
    assert (O0 : render_observation s0
                 = (currentScanType s, sectionSwapAllowed s,
                    persistedDataManager s, None, scanTypeSelector s, None,
                    false, true, effects s)) by reflexivity.
    clearbody s0.
    set (s1 := if isCameraScanType (currentScanType s0) then _ else _).
    assert (O1 : render_observation s1 = render_observation s0).
    { unfold s1, insertCameraScanImageToScanRegion,
        insertFileScanImageToScanRegion, render_observation,
        get_cameraSection, swap_link_exists, rendered, upd_layout.
      destruct (isCameraScanType _), (cameraScanImage s0), (fileScanImage s0);
        simpl; destruct (layout s0) as [u|]; simpl; try reflexivity;
        destruct (switchScanTypeLink u); reflexivity. }
    clearbody s1. rewrite O0 in O1. clear O0 s0.
    set (s2 := if isCameraScanRequired (scanTypeSelector s1) then _ else s1).
    assert (O2 : render_observation s2
                 = (currentScanType s, sectionSwapAllowed s,
                    persistedDataManager s, None, scanTypeSelector s, None,
                    false, true,
                    (effects s
                     ++ (if isCameraScanRequired (scanTypeSelector s)
                            && isCameraScanType (currentScanType s)
                            && hasCameraPermissions (persistedDataManager s)
                         then [CallHasPermissions] else []))%list)).
    { unfold render_observation in O1.
      injection O1 as C1 G1 P1 M1 T1 S1 L1 R1 E1.
      unfold s2, createPermissionsUi. rewrite T1, C1, P1.
      destruct (isCameraScanRequired (scanTypeSelector s)); simpl.
      - destruct (isCameraScanType (currentScanType s)
                  && hasCameraPermissions (persistedDataManager s)); simpl.
        + unfold render_observation. simpl.
          change (get_cameraSection (emit CallHasPermissions s1))
            with (get_cameraSection s1).
          change (swap_link_exists (emit CallHasPermissions s1))
            with (swap_link_exists s1).
          change (rendered (emit CallHasPermissions s1)) with (rendered s1).
          now rewrite C1, G1, P1, M1, T1, S1, L1, R1, E1.
        + unfold render_observation, createPermissionButton,
            get_cameraSection, swap_link_exists, rendered, upd_layout in *.
          simpl.
          rewrite C1, G1, P1, M1, T1, E1, app_nil_r.
          destruct (layout s1); simpl in *; now rewrite ?S1, ?L1, ?R1.
      - unfold render_observation.
        now rewrite C1, G1, P1, M1, T1, S1, L1, R1, E1, app_nil_r. }
    clearbody s2. clear O1 s1.
    unfold render_observation in O2.
    injection O2 as C2 G2 P2 M2 T2 S2 L2 R2 E2.
    rewrite T2.
    destruct (hasMoreThanOneScanType (scanTypeSelector s)).
    - unfold createSectionSwap, get_cameraSection, swap_link_exists,
        rendered, upd_layout in *. simpl.
      rewrite C2, G2, P2, M2, E2.
      destruct (layout s2) as [u2|]; simpl in *;
        repeat split; auto; discriminate.
    - unfold get_cameraSection, swap_link_exists in *. simpl.
      rewrite C2, G2, P2, M2, E2. repeat split; auto. }
  destruct H as (T & G & P & M & E & C & L & F).
  repeat split; auto.
  intros A. rewrite <- G in A.
  destruct (swap_click_refused _ A) as [-> | ->]; reflexivity.
Qed.

Lemma X7_render_keeps_scan_type_and_guard_witness :
  mode_view
    (step EvSwapClick (render false false (step EvStartClick cameras_listed)))
  = mode_view (render false false (step EvStartClick cameras_listed)).
Proof.
  refine (proj2 (proj2 (proj2 (proj2 (proj2 (proj2 (proj2 (proj2
    (@X7_render_keeps_scan_type_and_guard false false
       (step EvStartClick cameras_listed))))))))) _).
  vm_compute. reflexivity.
Defined.

(** ** Camera selection *)

Lemma section_set_new x s :
  rendered s = true ->
  get_cameraSection (upd_layout (set_cameraSection (Some x)) s) = Some x.
Proof.
  unfold rendered, get_cameraSection, upd_layout. simpl.
  now destruct (layout s).
Qed.

Lemma start_click_when_enabled s c :
  get_cameraSection s = Some c ->
  sb_disabled (cameraActionStartButton c) = false ->
  cameraActionStartButton_click s = cameraActionStartButton_onclick c s.
Proof. intros C D. unfold cameraActionStartButton_click. now rewrite C, D. Qed.

Lemma start_click_when_disabled s c :
  get_cameraSection s = Some c ->
  sb_disabled (cameraActionStartButton c) = true ->
  cameraActionStartButton_click s = s.
Proof. intros C D. unfold cameraActionStartButton_click. now rewrite C, D. Qed.

Lemma hasValue_single c :
  hasValue (cam_id c) (CameraSelectionUi_create [c]) = true.
Proof. unfold hasValue. simpl. now rewrite String.eqb_refl. Qed.

(** X8: when the camera selection is rendered for a single camera, the
    engine is asked once to start that camera and its id is stored,
    whatever was stored before.  With several cameras the engine is asked
    once to start the stored camera if it is among them, with that camera
    selected; a stored camera that is not among them is forgotten and
    nothing is started; with nothing stored nothing is started.  In no
    case is [start] called twice. *)
Theorem X8_camera_selection_starts_at_most_once cameras s h :
  rendered s = true ->
  html5Qrcode s = Some h ->
  let s' := renderCameraSelection cameras s in
  (forall c,
     cameras = [c] ->
     effects s' = (effects s ++ [CallStart (cam_id c)])%list /\
     getLastUsedCameraId (persistedDataManager s') = Some (cam_id c)) /\
  (hasSingleItem (CameraSelectionUi_create cameras) = false ->
   (getLastUsedCameraId (persistedDataManager s) = None ->
    effects s' = effects s) /\
   (forall id,
      getLastUsedCameraId (persistedDataManager s) = Some id ->
      String.eqb id "" = false ->
      (hasValue id (CameraSelectionUi_create cameras) = true ->
       effects s' = (effects s ++ [CallStart id])%list /\
       option_map (fun c => cs_value (cameraSelectUi c)) (get_cameraSection s')
         = Some id) /\
      (hasValue id (CameraSelectionUi_create cameras) = false ->
       effects s' = effects s /\
       getLastUsedCameraId (persistedDataManager s') = None))).
Proof.
  intros R H s'. unfold s', renderCameraSelection. cbv zeta.
  set (s1 := upd_layout (set_cameraSection (Some (new_cameraSection cameras))) s).
  assert (C1 : get_cameraSection s1 = Some (new_cameraSection cameras))
    by now apply section_set_new.
  assert (H1 : html5Qrcode s1 = Some h) by exact H.
  assert (P1 : persistedDataManager s1 = persistedDataManager s) by reflexivity.
  assert (E1 : effects s1 = effects s) by reflexivity.
  clearbody s1. split.
  - intros c ->.
    change (hasSingleItem (CameraSelectionUi_create [c])) with true. cbv iota.
    rewrite (start_click_when_enabled _ C1 eq_refl).
    set (s2 := cameraActionStartButton_onclick _ s1).
    assert (P2 : persistedDataManager s2
                 = setLastUsedCameraId (cam_id c) (persistedDataManager s1))
      by apply start_onclick_persisted.
    assert (E2 : effects s2 = (effects s1 ++ [CallStart (cam_id c)])%list)
      by now apply start_onclick_effects with h.
    assert (C2 : exists c2,
               get_cameraSection s2 = Some c2 /\
               sb_disabled (cameraActionStartButton c2) = true).
    { eexists. split; [apply start_onclick_section; exact C1|reflexivity]. }
    clearbody s2.
    assert (G : getLastUsedCameraId (persistedDataManager s2) = Some (cam_id c))
      by (rewrite P2; reflexivity).
    rewrite G. cbv beta iota.
    destruct (String.eqb (cam_id c) ""); [now rewrite E2, E1, G|].
    rewrite hasValue_single.
    destruct C2 as (c2 & C2 & D2).
    rewrite start_click_when_disabled with (c := 
      set_cameraSelectUi (set_cs_value (cam_id c) (cameraSelectUi c2)) c2).
    + autorewrite with observe. now rewrite E2, E1, G.
    + autorewrite with observe. now rewrite C2.
    + exact D2.
  - intros S. rewrite S. rewrite P1. split.
    + intros N. now rewrite N.
    + intros id I Z. rewrite I, Z. split; intros V; rewrite V.
      * rewrite start_click_when_enabled with (c :=
          set_cameraSelectUi
            (set_cs_value id (cameraSelectUi (new_cameraSection cameras)))
            (new_cameraSection cameras)).
        -- split.
           ++ erewrite start_onclick_effects
                by (autorewrite with observe; exact H1).
              autorewrite with observe. now rewrite E1.
           ++ erewrite start_onclick_section
                by (autorewrite with observe; rewrite C1; reflexivity).
              reflexivity.
        -- autorewrite with observe. now rewrite C1.
        -- reflexivity.
      * autorewrite with observe. rewrite E1, P1. split; reflexivity.
Qed.

Lemma X8_camera_selection_starts_at_most_once_witness :
  effects
    (renderCameraSelection [{| cam_id := "cam-back"; cam_label := "Back" |}]
       permission_requested)
  = (effects permission_requested ++ [CallStart "cam-back"])%list.
Proof.
  refine (proj1 (proj1
    (@X8_camera_selection_starts_at_most_once
       [{| cam_id := "cam-back"; cam_label := "Back" |}]
       permission_requested {| isScanning := false |} _ _)
    {| cam_id := "cam-back"; cam_label := "Back" |} eq_refl));
    vm_compute; reflexivity.
Defined.

(** ** Clicks on disabled buttons *)

Lemma nth_error_set_nth_some {A : Type} (x y : A) (l : list A) : forall i,
  nth_error l i = Some y -> nth_error (set_nth i x l) i = Some x.
Proof.
  induction l as [|z l IH]; intros [|j] H; simpl in *; try discriminate.
  - reflexivity.
  - now apply IH.
Qed.

Lemma buttons_createCameraListUi s :
  get_permissionButtons (createCameraListUi s) = get_permissionButtons s.
Proof. unfold createCameraListUi. now autorewrite with observe. Qed.

Lemma section_createCameraListUi s :
  get_cameraSection (createCameraListUi s) = get_cameraSection s.
Proof. unfold createCameraListUi. now autorewrite with observe. Qed.

Lemma permission_click_twice i s :
  permissionButton_click i (permissionButton_click i s)
  = permissionButton_click i s.
Proof.
  destruct (nth_error (get_permissionButtons s) i) as [b|] eqn:N.
  - destruct (pb_disabled b) eqn:D.
    + assert (E : permissionButton_click i s = s)
        by (unfold permissionButton_click; now rewrite N, D).
      now rewrite !E.
    + assert (E : permissionButton_click i s
                  = createCameraListUi (set_permissionButton_disabled i true s))
        by (unfold permissionButton_click; now rewrite N, D).
      rewrite E. unfold permissionButton_click.
      rewrite buttons_createCameraListUi,
        buttons_set_permissionButton_disabled.
      rewrite nth_error_set_nth_some with (y := b) by exact N. reflexivity.
  - assert (E : permissionButton_click i s = s)
      by (unfold permissionButton_click; now rewrite N).
    now rewrite !E.
Qed.

Lemma start_click_twice s :
  cameraActionStartButton_click (cameraActionStartButton_click s)
  = cameraActionStartButton_click s.
Proof.
  destruct (get_cameraSection s) as [c|] eqn:C.
  - destruct (sb_disabled (cameraActionStartButton c)) eqn:D.
    + now rewrite !(start_click_when_disabled _ C D).
    + rewrite (start_click_when_enabled _ C D).
      eapply start_click_when_disabled.
      * apply start_onclick_section. exact C.
      * reflexivity.
  - assert (E : cameraActionStartButton_click s = s)
      by (unfold cameraActionStartButton_click; now rewrite C).
    now rewrite !E.
Qed.

(** X9: a click on the start button or on a request-permission button
    while the answer to an earlier click is awaited does nothing: the
    first click has disabled the button, so one click or two leave the
    same scanner, with one request made. *)
Theorem X9_second_click_is_ignored s i :
  step EvStartClick (step EvStartClick s) = step EvStartClick s /\
  step (EvPermissionButtonClick i) (step (EvPermissionButtonClick i) s)
  = step (EvPermissionButtonClick i) s.
Proof.
  destruct (rendered s) eqn:R.
  - assert (R1 : rendered (step EvStartClick s) = true).
    { rewrite step_rendered by (auto; exact I).
      unfold cameraActionStartButton_click.
      destruct (get_cameraSection s) as [c|] eqn:C; [|exact R].
      destruct (sb_disabled _); [exact R|].
      eapply section_rendered. apply start_onclick_section. exact C. }
    assert (R2 : rendered (step (EvPermissionButtonClick i) s) = true).
    { rewrite step_rendered by (auto; exact I).
      unfold permissionButton_click.
      destruct (nth_error _ i); [|exact R].
      destruct (pb_disabled _); [exact R|].
      unfold createCameraListUi. now autorewrite with observe. }
    split.
    + rewrite (step_rendered EvStartClick _ R1 I).
      rewrite (step_rendered EvStartClick _ R I).
      apply start_click_twice.
    + rewrite (step_rendered (EvPermissionButtonClick i) _ R2 I).
      rewrite (step_rendered (EvPermissionButtonClick i) _ R I).
      apply permission_click_twice.
  - unfold rendered in R. simpl.
    destruct (layout s) eqn:L; [discriminate|]. now rewrite L.
Qed.

(** ** Stopping *)

Lemma section_insertCameraScanImage s :
  get_cameraSection (insertCameraScanImageToScanRegion s) = get_cameraSection s.
Proof.
  unfold insertCameraScanImageToScanRegion, get_cameraSection, upd_layout.
  destruct (cameraScanImage s); simpl; [|reflexivity].
  now destruct (layout s).
Qed.

Lemma guard_insertCameraScanImage s :
  sectionSwapAllowed (insertCameraScanImageToScanRegion s)
  = sectionSwapAllowed s.
Proof.
  unfold insertCameraScanImageToScanRegion.
  now destruct (cameraScanImage s).
Qed.

Lemma section_engine_settled b s :
  get_cameraSection (engine_settled b s) = get_cameraSection s.
Proof. reflexivity. Qed.

Lemma guard_showHide b s :
  hasMoreThanOneScanType (scanTypeSelector s) = true ->
  sectionSwapAllowed (showHideScanTypeSwapLink b s) = b.
Proof. intros H. unfold showHideScanTypeSwapLink. now rewrite H. Qed.

Lemma header_upd_cameraSection f s :
  get_header (upd_cameraSection f s) = get_header s.
Proof.
  unfold get_header, upd_cameraSection, upd_layout. simpl.
  now destruct (layout s).
Qed.

Lemma header_emit e s : get_header (emit e s) = get_header s.
Proof. reflexivity. Qed.

Lemma header_resetHeaderMessage s :
  get_header (resetHeaderMessage s)
  = option_map (set_hm_display DisplayNone) (get_header s).
Proof.
  unfold get_header, resetHeaderMessage, upd_layout. simpl.
  now destruct (layout s).
Qed.

#[local] Hint Rewrite
  section_insertCameraScanImage guard_insertCameraScanImage
  section_engine_settled header_upd_cameraSection header_emit
  header_resetHeaderMessage : observe.

Lemma stop_click_enabled s c h :
  get_cameraSection s = Some c ->
  stop_disabled (cameraActionStopButton c) = false ->
  html5Qrcode s = Some h ->
  step EvStopClick s
  = emit CallStop
      (upd_cameraSection (fun c =>
         set_cameraActionStopButton
           (set_stop_disabled true (cameraActionStopButton c)) c) s).
Proof.
  intros C D H. rewrite step_rendered by (eauto using section_rendered; exact I).
  unfold cameraActionStopButton_click, cameraActionStopButton_onclick.
  now rewrite C, D, H.
Qed.

(** X10: a click on the enabled stop button disables it and asks the
    engine to stop.  When the stop succeeds the stop button is hidden,
    the start button is shown and enabled, the zoom slider loses its
    callback, so a later slider value is not forwarded to the camera, and
    a scanner with a swap link has its guard open again.  When the stop
    fails the camera controls are exactly as before the click, the stop
    button enabled again; the engine handle and the guard are untouched
    and the header shows the engine's error itself as a warning. *)
Theorem X10_stop_outcomes s c h :
  get_cameraSection s = Some c ->
  stop_disabled (cameraActionStopButton c) = false ->
  html5Qrcode s = Some h ->
  let s1 := step EvStopClick s in
  effects s1 = (effects s ++ [CallStop])%list /\
  option_map (fun c => stop_disabled (cameraActionStopButton c))
    (get_cameraSection s1) = Some true /\
  (let s2 := step (EvStopSettled (Resolved tt)) s1 in
   option_map cameraActionStopButton (get_cameraSection s2)
     = Some {| stop_disabled := true; stop_display := DisplayNone |} /\
   option_map cameraActionStartButton (get_cameraSection s2)
     = Some (set_sb_display DisplayInlineBlock
               (set_sb_disabled false (cameraActionStartButton c))) /\
   zoom_callback_installed s2 = false /\
   (forall zoomValue, step (EvZoomChange zoomValue) s2 = s2) /\
   (hasMoreThanOneScanType (scanTypeSelector s) = true ->
    sectionSwapAllowed s2 = true)) /\
  (forall error,
     let s2 := step (EvStopSettled (Rejected error)) s1 in
     get_cameraSection s2 = Some c /\
     html5Qrcode s2 = Some h /\
     sectionSwapAllowed s2 = sectionSwapAllowed s /\
     get_header s2
       = Some {| hm_innerText := Some (errorText error);
                 hm_display := DisplayBlock;
                 hm_colours := ColoursWarning |}).
Proof.
  intros C D H s1.
  assert (E1 : s1 = emit CallStop
                      (upd_cameraSection (fun c =>
                         set_cameraActionStopButton
                           (set_stop_disabled true (cameraActionStopButton c)) c)
                         s))
    by (eapply stop_click_enabled; eassumption).
  assert (C1 : get_cameraSection s1
               = Some (set_cameraActionStopButton
                         (set_stop_disabled true (cameraActionStopButton c)) c)).
  { rewrite E1. autorewrite with observe. now rewrite C. }
  assert (R1 : rendered s1 = true) by (eapply section_rendered; exact C1).
  split; [now rewrite E1|]. split; [now rewrite C1|]. split.
  - intros s2.
    assert (E2 : s2 = stop_then (engine_settled false s1)).
    { unfold s2. now rewrite step_rendered by (auto; exact I). }
    assert (C2 : get_cameraSection s2
                 = Some
                     (set_cameraZoomUi
                        (set_zu_shown false
                           (set_zu_callback None (cameraZoomUi c)))
                        (set_torchButton
                           (option_map (fun _ => {| tb_shown := false |})
                              (torchButton c))
                           (set_cameraActionStartButton
                              (set_sb_display DisplayInlineBlock
                                 (set_sb_disabled false
                                    (cameraActionStartButton c)))
                              (set_cameraActionStopButton
                                 {| stop_disabled := true;
                                    stop_display := DisplayNone |}
                                 (set_cameraSelectUi
                                    (set_cs_enabled true (cameraSelectUi c))
                                    c)))))).
    { rewrite E2. unfold stop_then. cbv zeta.
      destruct (hasMoreThanOneScanType _);
        autorewrite with observe; rewrite C1; reflexivity. }
    assert (Z2 : zoom_callback_installed s2 = false)
      by (unfold zoom_callback_installed; now rewrite C2).
    split; [now rewrite C2|]. split; [now rewrite C2|].
    split; [exact Z2|]. split.
    + intros zoomValue.
      rewrite step_rendered by (eauto using section_rendered; exact I).
      unfold CameraZoomUi_input. rewrite C2. simpl.
      now destruct (zu_values (cameraZoomUi c)).
    + intros M. rewrite E2. unfold stop_then. cbv zeta.
      change (scanTypeSelector (engine_settled false s1))
        with (scanTypeSelector s1).
      assert (T : scanTypeSelector s1 = scanTypeSelector s)
        by now rewrite E1.
      rewrite T, M. autorewrite with observe.
      apply guard_showHide.
      change (scanTypeSelector (engine_settled false s1))
        with (scanTypeSelector s1).
      now rewrite T.
  - intros error s2.
    assert (E2 : s2 = stop_catch error s1).
    { unfold s2. now rewrite step_rendered by (auto; exact I). }
    rewrite E2. unfold stop_catch. autorewrite with observe.
    rewrite C1, R1, E1. autorewrite with observe.
    repeat split; auto.
    simpl. destruct c as [sel st [sd sp] t z]. simpl in *. now rewrite D.
Qed.

Lemma X10_stop_outcomes_witness :
  zoom_callback_installed
    (step (EvStopSettled (Resolved tt)) (step EvStopClick zoom_session))
  = false.
Proof.
  refine (proj1 (proj2 (proj2 (proj1 (proj2 (proj2
    (@X10_stop_outcomes zoom_session zoom_session_section
       {| isScanning := true |} _ _ _))))))).
  - vm_compute. reflexivity.
  - reflexivity.
  - vm_compute. reflexivity.
Defined.

(** ** The guard while scanning *)

Lemma selector_start_onclick c s :
  scanTypeSelector (cameraActionStartButton_onclick c s) = scanTypeSelector s.
Proof.
  pose proof (fixed_cameraActionStartButton_onclick c s) as F.
  unfold fixed_part in F. now injection F.
Qed.

Lemma guard_start_onclick c s :
  hasMoreThanOneScanType (scanTypeSelector s) = true ->
  sectionSwapAllowed (cameraActionStartButton_onclick c s) = false.
Proof.
  intros M. unfold cameraActionStartButton_onclick. cbv zeta.
  change (scanTypeSelector (upd_cameraSection _ s)) with (scanTypeSelector s).
  rewrite M.
  match goal with
  | |- context [match html5Qrcode ?x with _ => _ end] =>
      destruct (html5Qrcode x)
  end; autorewrite with observe; now apply guard_showHide.
Qed.

Lemma guard_start_then caps s :
  sectionSwapAllowed (start_then caps s) = sectionSwapAllowed s.
Proof.
  unfold start_then. cbv zeta.
  repeat match goal with
         | |- context [if ?b then _ else _] => destruct b
         end; now autorewrite with observe.
Qed.

(** X11: in a scanner with a swap link, a click on the enabled start
    button closes the guard, and the guard stays closed when the start
    succeeds: while the camera is starting or scanning a click on the swap
    link changes neither the scan type nor what is shown for it.  A start
    that fails opens the guard again. *)
Theorem X11_swap_is_closed_while_scanning s c caps :
  hasMoreThanOneScanType (scanTypeSelector s) = true ->
  get_cameraSection s = Some c ->
  sb_disabled (cameraActionStartButton c) = false ->
  let s1 := step EvStartClick s in
  let s2 := step (EvStartSettled (Resolved caps)) s1 in
  sectionSwapAllowed s1 = false /\
  sectionSwapAllowed s2 = false /\
  mode_view (step EvSwapClick s1) = mode_view s1 /\
  mode_view (step EvSwapClick s2) = mode_view s2 /\
  (forall error,
     sectionSwapAllowed (step (EvStartSettled (Rejected error)) s1) = true).
Proof.
  intros M C D s1 s2.
  assert (E1 : s1 = cameraActionStartButton_onclick c s)
    by now apply start_click_enabled.
  assert (G1 : sectionSwapAllowed s1 = false)
    by (rewrite E1; now apply guard_start_onclick).
  assert (R1 : rendered s1 = true).
  { rewrite E1. eapply section_rendered.
    apply start_onclick_section. exact C. }
  assert (E2 : s2 = start_then caps (engine_settled true s1)).
  { unfold s2. now rewrite step_rendered by (auto; exact I). }
  assert (G2 : sectionSwapAllowed s2 = false)
    by (rewrite E2, guard_start_then; exact G1).
  split; [exact G1|]. split; [exact G2|]. split; [|split].
  - destruct (swap_click_refused _ G1) as [-> | ->]; reflexivity.
  - destruct (swap_click_refused _ G2) as [-> | ->]; reflexivity.
  - intros error. rewrite step_rendered by (auto; exact I).
    unfold start_settled, start_catch. cbv zeta.
    autorewrite with observe. apply guard_showHide.
    now rewrite E1, selector_start_onclick.
Qed.

Lemma X11_swap_is_closed_while_scanning_witness :
  mode_view (step EvSwapClick (step EvStartClick cameras_listed))
  = mode_view (step EvStartClick cameras_listed).
Proof.
  refine (proj1 (proj2 (proj2
    (@X11_swap_is_closed_while_scanning cameras_listed
       (new_cameraSection two_cameras) zoom_1_to_5 _ _ _))));
    vm_compute; reflexivity.
Defined.

(** ** File scan *)

Lemma onFileSelected_in_camera_mode file s h :
  html5Qrcode s = Some h ->
  isFileScanType (currentScanType s) = false ->
  onFileSelected file s
  = upd_layout (fun u =>
      set_fileSelectionUi (set_fs_value (Some file) (fileSelectionUi u)) u) s.
Proof.
  intros H F. unfold onFileSelected. cbv zeta.
  change (html5Qrcode (upd_layout _ s)) with (html5Qrcode s). rewrite H.
  change (currentScanType (upd_layout _ s)) with (currentScanType s).
  now rewrite F.
Qed.

Lemma onFileSelected_in_file_mode file s h :
  html5Qrcode s = Some h ->
  isFileScanType (currentScanType s) = true ->
  onFileSelected file s
  = emit (CallScanFile file)
      (setHeaderMessage loadingImage None
         (upd_layout (fun u =>
            set_fileSelectionUi (set_fs_value (Some file) (fileSelectionUi u)) u)
            s)).
Proof.
  intros H F. unfold onFileSelected. cbv zeta.
  change (html5Qrcode (upd_layout _ s)) with (html5Qrcode s). rewrite H.
  change (currentScanType (upd_layout _ s)) with (currentScanType s).
  now rewrite F.
Qed.

(** X12: a file chosen while the camera is the active scan type is not
    scanned: nothing is asked of the engine and the header is left as it
    is.  In file mode the header shows the loading text and the engine is
    asked to scan that file.  A result of the scan hides the header and
    goes through the success wrapper; a failure puts the error itself in
    the header as a warning and is passed to the caller's error callback
    when there is one. *)
Theorem X12_file_is_scanned_only_in_file_mode s h file :
  rendered s = true ->
  html5Qrcode s = Some h ->
  let s1 := step (EvFileSelected file) s in
  (isFileScanType (currentScanType s) = false ->
   effects s1 = effects s /\ get_header s1 = get_header s) /\
  (isFileScanType (currentScanType s) = true ->
   effects s1 = (effects s ++ [CallScanFile file])%list /\
   get_header s1
     = Some {| hm_innerText := Some loadingImage;
               hm_display := DisplayBlock;
               hm_colours := ColoursDefault |}) /\
  (forall callerSupplied decodedText,
     qrCodeSuccessCallback s = Some callerSupplied ->
     step (EvScanFileSettled (Resolved decodedText)) s
     = successWrapper callerSupplied decodedText (resetHeaderMessage s)) /\
  (forall callerSupplied error,
     qrCodeErrorCallback s = Some callerSupplied ->
     let s2 := step (EvScanFileSettled (Rejected error)) s in
     effects s2
       = (effects s ++ (if callerSupplied then [CallerError error] else []))%list /\
     get_header s2
       = Some {| hm_innerText := Some (errorText error);
                 hm_display := DisplayBlock;
                 hm_colours := ColoursWarning |}).
Proof.
  intros R H s1.
  assert (E1 : s1 = onFileSelected file s).
  { unfold s1. now rewrite step_rendered by (auto; exact I). }
  split; [|split; [|split]].
  - intros F. rewrite E1, (onFileSelected_in_camera_mode _ _ H F).
    split; [reflexivity|].
    unfold get_header, upd_layout. simpl. now destruct (layout s).
  - intros F. rewrite E1, (onFileSelected_in_file_mode _ _ H F).
    autorewrite with observe. now rewrite R.
  - intros b decodedText S.
    rewrite step_rendered by (auto; exact I).
    unfold scanFile_settled, scanFile_then. cbv zeta.
    change (qrCodeSuccessCallback (resetHeaderMessage s))
      with (qrCodeSuccessCallback s).
    now rewrite S.
  - intros b error F s2.
    assert (E2 : s2 = scanFile_catch error s).
    { unfold s2. now rewrite step_rendered by (auto; exact I). }
    rewrite E2. unfold scanFile_catch. cbv zeta.
    change (qrCodeErrorCallback (setHeaderMessage _ _ s))
      with (qrCodeErrorCallback s).
    rewrite F. unfold errorWrapper.
    destruct b; autorewrite with observe; rewrite R, ?app_nil_r;
      split; reflexivity.
Qed.

Lemma X12_file_is_scanned_only_in_file_mode_witness :
  effects (step (EvFileSelected "code.png") camera_first_rendered)
  = effects camera_first_rendered.
Proof.
  refine (proj1 (proj1
    (@X12_file_is_scanned_only_in_file_mode camera_first_rendered
       {| isScanning := false |} "code.png" _ _) _));
    vm_compute; reflexivity.
Defined.

(** ** The permission check made by render *)

(** X13: when the permission check made by [render] reports that
    permission is granted, the camera list is requested at once, with the
    "requesting permission" text in the header and without any
    request-permission button being created.  When it reports that
    permission is not granted, or fails, the stored permission is
    withdrawn, the stored camera id is kept, and an enabled
    request-permission button is added; nothing is asked of the engine. *)
Theorem X13_permission_check_at_render s :
  rendered s = true ->
  (let s1 := step (EvPermissionsAtRenderSettled (Resolved true)) s in
   effects s1 = (effects s ++ [CallGetCameras])%list /\
   get_permissionButtons s1 = get_permissionButtons s /\
   persistedDataManager s1 = persistedDataManager s /\
   get_header s1
     = Some {| hm_innerText := Some cameraPermissionRequesting;
               hm_display := DisplayBlock;
               hm_colours := ColoursDefault |}) /\
  (forall o,
     o <> Resolved true ->
     let s1 := step (EvPermissionsAtRenderSettled o) s in
     effects s1 = effects s /\
     hasCameraPermissions (persistedDataManager s1) = false /\
     getLastUsedCameraId (persistedDataManager s1)
       = getLastUsedCameraId (persistedDataManager s) /\
     get_permissionButtons s1
       = (get_permissionButtons s ++ [{| pb_disabled := false |}])%list).
Proof.
  intros R. split.
  - intros s1.
    assert (E : s1 = createCameraListUi s).
    { unfold s1. now rewrite step_rendered by (auto; exact I). }
    rewrite E. unfold createCameraListUi.
    autorewrite with observe. rewrite R. repeat split.
  - intros o N s1.
    assert (E : s1 = createPermissionButton
                       (upd_persisted (setHasPermission false) s)).
    { unfold s1. rewrite step_rendered by (auto; exact I).
      destruct o as [[|]|]; try reflexivity. now contradiction N. }
    rewrite E.
    rewrite buttons_createPermissionButton by exact R.
    repeat split.
Qed.

Lemma X13_permission_check_at_render_witness :
  hasCameraPermissions
    (persistedDataManager
       (step (EvPermissionsAtRenderSettled (Rejected (Thrown "SecurityError")))
          camera_first_rendered)) = false.
Proof.
  refine (proj1 (proj2 (proj2
    (@X13_permission_check_at_render camera_first_rendered _)
    (Rejected (Thrown "SecurityError")) _))).
  - vm_compute. reflexivity.
  - discriminate.
Defined.

(** ** A start that succeeds *)

(** X14: when the engine has started, the stop button is shown and
    enabled and the start button is hidden, reset and enabled; the guard,
    the stored preferences and the header are untouched.  When the
    configuration says [showZoomSliderIfSupported: true] and the camera
    supports zoom, the zoom slider is set up with the capability's bounds
    and the clamped default zoom, and that default is applied to the
    camera, which is the only call made; otherwise the slider is left as
    it was and no call is made.  The torch button is touched only when
    the configuration says [showTorchButtonIfSupported: true]. *)
Theorem X14_start_success_shows_stop_button s c caps :
  get_cameraSection s = Some c ->
  let s' := step (EvStartSettled (Resolved caps)) s in
  let zoom :=
    is_true (showZoomSliderIfSupported (config s))
    && zoom_isSupported (zoomFeature caps) in
  let lo := zoom_min (zoomFeature caps) in
  let hi := zoom_max (zoomFeature caps) in
  let defaultZoom :=
    match defaultZoomValueIfSupported (config s) with
    | Some z => if truthy_number (Some z) then z else 1
    | None => 1
    end in
  option_map cameraActionStopButton (get_cameraSection s')
    = Some {| stop_disabled := false; stop_display := DisplayInlineBlock |} /\
  option_map cameraActionStartButton (get_cameraSection s')
    = Some {| sb_innerText := scanButtonStartScanningText;
              sb_disabled := false;
              sb_opacity := OpacityFull;
              sb_display := DisplayNone |} /\
  sectionSwapAllowed s' = sectionSwapAllowed s /\
  persistedDataManager s' = persistedDataManager s /\
  get_header s' = get_header s /\
  effects s'
    = (effects s
         ++ if zoom then [CallZoomApply (clip defaultZoom lo hi)] else [])%list /\
  (zoom = true ->
   option_map cameraZoomUi (get_cameraSection s')
   = Some {| zu_shown := true;
             zu_values := Some {| zv_min := lo; zv_max := hi;
                                  zv_value := clip defaultZoom lo hi;
                                  zv_step := zoom_step (zoomFeature caps) |};
             zu_callback := Some (zoomFeature caps) |}) /\
  (zoom = false ->
   option_map cameraZoomUi (get_cameraSection s') = Some (cameraZoomUi c)) /\
  (is_true (showTorchButtonIfSupported (config s)) = false ->
   option_map torchButton (get_cameraSection s') = Some (torchButton c)).
Proof.
  intros C s' zoom lo hi defaultZoom.
  assert (R : rendered s = true) by now apply section_rendered with c.
  assert (E : s' = start_then caps (engine_settled true s)).
  { unfold s'. now rewrite step_rendered by (auto; exact I). }
  rewrite E. unfold start_then. cbv zeta.
  set (f := fun c : CameraSection =>
    set_cameraActionStartButton
      (resetCameraActionStartButton false (cameraActionStartButton c))
      (set_cameraActionStopButton
         {| stop_disabled := false; stop_display := DisplayInlineBlock |} c)).
  set (s1 := upd_cameraSection f (engine_settled true s)).
  assert (C1 : get_cameraSection s1 = Some (f c)).
  { unfold s1. rewrite section_upd_cameraSection.
    change (get_cameraSection (engine_settled true s))
      with (get_cameraSection s).
    now rewrite C. }
  assert (H1 : get_header s1 = get_header s).
  { unfold s1. now rewrite header_upd_cameraSection. }
  change (config s1) with (config s).
  set (torch := is_true (showTorchButtonIfSupported (config s))).
  set (s2 := if torch
             then upd_cameraSection (createAndShowTorchButtonIfSupported caps) s1
             else s1).
  set (c2 := if torch then createAndShowTorchButtonIfSupported caps (f c)
             else f c).
  assert (C2 : get_cameraSection s2 = Some c2).
  { unfold s2, c2. destruct torch; [|exact C1].
    now rewrite section_upd_cameraSection, C1. }
  assert (H2 : get_header s2 = get_header s).
  { unfold s2. destruct torch; [|exact H1].
    now rewrite header_upd_cameraSection. }
  assert (K2 : config s2 = config s) by (unfold s2; now destruct torch).
  assert (F2 : effects s2 = effects s) by (unfold s2; now destruct torch).
  assert (G2 : sectionSwapAllowed s2 = sectionSwapAllowed s)
    by (unfold s2; now destruct torch).
  assert (P2 : persistedDataManager s2 = persistedDataManager s)
    by (unfold s2; now destruct torch).
  assert (B2 : cameraActionStopButton c2
               = {| stop_disabled := false; stop_display := DisplayInlineBlock |}).
  { unfold c2, createAndShowTorchButtonIfSupported.
    destruct torch; [destruct (torchFeature_isSupported caps)|]; reflexivity. }
  assert (A2 : cameraActionStartButton c2
               = {| sb_innerText := scanButtonStartScanningText;
                    sb_disabled := false;
                    sb_opacity := OpacityFull;
                    sb_display := DisplayNone |}).
  { unfold c2, createAndShowTorchButtonIfSupported.
    destruct torch; [destruct (torchFeature_isSupported caps)|]; reflexivity. }
  assert (Z2 : cameraZoomUi c2 = cameraZoomUi c).
  { unfold c2, createAndShowTorchButtonIfSupported.
    destruct torch; [destruct (torchFeature_isSupported caps)|]; reflexivity. }
  assert (T2 : torch = false -> torchButton c2 = torchButton c).
  { unfold c2. now intros ->. }
  rewrite K2. unfold zoom.
  destruct (is_true (showZoomSliderIfSupported (config s))) eqn:Z; simpl andb.
  - destruct (zoom_isSupported (zoomFeature caps)) eqn:S.
    + rewrite (@renderCameraZoomUi_supported caps s2 c2 S C2). cbv zeta.
      rewrite K2. fold lo hi defaultZoom.
      rewrite header_emit, header_upd_cameraSection, H2.
      rewrite section_emit, section_upd_cameraSection, C2. simpl.
      rewrite B2, A2, F2.
      repeat split; auto; try discriminate.
      intros T. now rewrite T2.
    + rewrite (@renderCameraZoomUi_unsupported caps s2 S).
      rewrite C2, F2, app_nil_r. simpl. rewrite B2, A2, Z2.
      repeat split; auto; try discriminate.
      intros T. now rewrite T2.
  - rewrite C2, F2, app_nil_r. simpl. rewrite B2, A2, Z2.
    repeat split; auto; try discriminate.
    intros T. now rewrite T2.
Qed.

Lemma X14_start_success_shows_stop_button_witness :
  option_map cameraActionStopButton
    (get_cameraSection
       (step (EvStartSettled (Resolved zoom_1_to_5))
          (step EvStartClick cameras_listed)))
  = Some {| stop_disabled := false; stop_display := DisplayInlineBlock |}.
Proof.
  refine (proj1
    (@X14_start_success_shows_stop_button (step EvStartClick cameras_listed)
       (set_cameraActionStartButton
          (set_sb_opacity OpacityHalf
             (set_sb_disabled true
                (set_sb_innerText scanButtonScanningStarting
                   (cameraActionStartButton (new_cameraSection two_cameras)))))
          (set_cameraSelectUi
             (set_cs_enabled false
                (cameraSelectUi (new_cameraSection two_cameras)))
             (new_cameraSection two_cameras)))
       zoom_1_to_5 _)).
  vm_compute. reflexivity.
Defined.

(** ** The selected camera *)

Create Rewrite HintDb sel.

Lemma sel_upd_layout f s :
  (forall u, cameraSection (f u) = cameraSection u) ->
  selection_view (upd_layout f s) = selection_view s.
Proof.
  intros H. unfold selection_view, get_cameraSection, upd_layout. simpl.
  destruct (layout s) as [u|]; simpl; [now rewrite H|reflexivity].
Qed.

Lemma sel_upd_cameraSection f s :
  (forall c, selection_of (f c) = selection_of c) ->
  selection_view (upd_cameraSection f s) = selection_view s.
Proof.
  intros H. unfold selection_view. rewrite section_upd_cameraSection.
  destruct (get_cameraSection s) as [c|]; simpl; [now rewrite H|reflexivity].
Qed.

Lemma sel_upd_persisted f s :
  selection_view (upd_persisted f s) = selection_view s.
Proof. reflexivity. Qed.

Lemma sel_emit e s : selection_view (emit e s) = selection_view s.
Proof. reflexivity. Qed.

Lemma sel_setHeaderMessage t st s :
  selection_view (setHeaderMessage t st s) = selection_view s.
Proof. unfold setHeaderMessage. now apply sel_upd_layout. Qed.

Lemma sel_resetHeaderMessage s :
  selection_view (resetHeaderMessage s) = selection_view s.
Proof. unfold resetHeaderMessage. now apply sel_upd_layout. Qed.

Lemma sel_clearScanRegion s :
  selection_view (clearScanRegion s) = selection_view s.
Proof. unfold clearScanRegion. now apply sel_upd_layout. Qed.

Lemma sel_createPermissionButton s :
  selection_view (createPermissionButton s) = selection_view s.
Proof. unfold createPermissionButton. now apply sel_upd_layout. Qed.

Lemma sel_set_permissionButton_disabled i d s :
  selection_view (set_permissionButton_disabled i d s) = selection_view s.
Proof. unfold set_permissionButton_disabled. now apply sel_upd_layout. Qed.

Lemma sel_set_sectionSwapAllowed b s :
  selection_view (set_sectionSwapAllowed b s) = selection_view s.
Proof. reflexivity. Qed.

Lemma sel_set_currentScanType t s :
  selection_view (set_currentScanType t s) = selection_view s.
Proof. reflexivity. Qed.

Lemma sel_set_lastMatchFound v s :
  selection_view (set_lastMatchFound v s) = selection_view s.
Proof. reflexivity. Qed.

Lemma sel_set_cameraScanImage v s :
  selection_view (set_cameraScanImage v s) = selection_view s.
Proof. reflexivity. Qed.

Lemma sel_set_fileScanImage v s :
  selection_view (set_fileScanImage v s) = selection_view s.
Proof. reflexivity. Qed.

Lemma sel_set_container v s :
  selection_view (set_container v s) = selection_view s.
Proof. reflexivity. Qed.

Lemma sel_emptyHtmlContainer s :
  selection_view (emptyHtmlContainer s) = selection_view s.
Proof. reflexivity. Qed.

Lemma sel_engine_settled b s :
  selection_view (engine_settled b s) = selection_view s.
Proof. reflexivity. Qed.

Lemma sel_showHide b s :
  selection_view (showHideScanTypeSwapLink b s) = selection_view s.
Proof. unfold selection_view. now rewrite section_showHide. Qed.

#[local] Hint Rewrite
  sel_upd_persisted sel_emit sel_setHeaderMessage sel_resetHeaderMessage
  sel_clearScanRegion sel_createPermissionButton
  sel_set_permissionButton_disabled sel_set_sectionSwapAllowed
  sel_set_currentScanType sel_set_lastMatchFound sel_set_cameraScanImage
  sel_set_fileScanImage sel_set_container sel_emptyHtmlContainer
  sel_engine_settled sel_showHide : sel.
#[local] Hint Rewrite sel_upd_layout using (intros; reflexivity) : sel.
#[local] Hint Rewrite sel_upd_cameraSection using (intros; reflexivity) : sel.

(** Splits on the tests of a handler, innermost first, and rewrites the
    selection through its parts. *)
Ltac sel_through :=
  cbv zeta;
  repeat first
    [ progress autorewrite with sel
    | match goal with
      | |- context [match ?x with _ => _ end] =>
          lazymatch x with
          | context [match _ with _ => _ end] => fail
          | _ => destruct x
          end
      end ];
  try reflexivity.

Lemma sel_insertCameraScanImageToScanRegion s :
  selection_view (insertCameraScanImageToScanRegion s) = selection_view s.
Proof. unfold insertCameraScanImageToScanRegion. sel_through. Qed.

Lemma sel_insertFileScanImageToScanRegion s :
  selection_view (insertFileScanImageToScanRegion s) = selection_view s.
Proof. unfold insertFileScanImageToScanRegion. sel_through. Qed.

Lemma sel_image_onload k s : selection_view (image_onload k s) = selection_view s.
Proof. unfold image_onload. sel_through. Qed.

Lemma sel_createCameraListUi s :
  selection_view (createCameraListUi s) = selection_view s.
Proof. unfold createCameraListUi. sel_through. Qed.

#[local] Hint Rewrite
  sel_insertCameraScanImageToScanRegion sel_insertFileScanImageToScanRegion
  sel_image_onload sel_createCameraListUi : sel.

Lemma sel_createPermissionButtonIfNotExists b s :
  selection_view (createPermissionButtonIfNotExists b s) = selection_view s.
Proof. unfold createPermissionButtonIfNotExists. sel_through. Qed.

Lemma sel_permissionButton_click i s :
  selection_view (permissionButton_click i s) = selection_view s.
Proof. unfold permissionButton_click. sel_through. Qed.

Lemma sel_start_onclick c s :
  selection_view (cameraActionStartButton_onclick c s) = selection_view s.
Proof. unfold cameraActionStartButton_onclick. sel_through. Qed.

#[local] Hint Rewrite
  sel_createPermissionButtonIfNotExists sel_permissionButton_click
  sel_start_onclick : sel.

Lemma sel_start_click s :
  selection_view (cameraActionStartButton_click s) = selection_view s.
Proof. unfold cameraActionStartButton_click. sel_through. Qed.

#[local] Hint Rewrite sel_start_click : sel.

Lemma sel_createAndShowTorch caps c :
  selection_of (createAndShowTorchButtonIfSupported caps c) = selection_of c.
Proof.
  unfold createAndShowTorchButtonIfSupported.
  now destruct (negb _).
Qed.

Lemma sel_CameraZoomUi_onValueChange s :
  selection_view (CameraZoomUi_onValueChange s) = selection_view s.
Proof.
  unfold CameraZoomUi_onValueChange, onCameraZoomValueChange. sel_through.
Qed.

#[local] Hint Rewrite sel_CameraZoomUi_onValueChange : sel.

Lemma sel_CameraZoomUi_setValues lo hi v st s :
  selection_view (CameraZoomUi_setValues lo hi v st s) = selection_view s.
Proof. unfold CameraZoomUi_setValues. sel_through. Qed.

#[local] Hint Rewrite sel_CameraZoomUi_setValues : sel.

Lemma sel_renderCameraZoomUiIfSupported caps s :
  selection_view (renderCameraZoomUiIfSupported caps s) = selection_view s.
Proof. unfold renderCameraZoomUiIfSupported. sel_through. Qed.

#[local] Hint Rewrite sel_renderCameraZoomUiIfSupported : sel.

Lemma sel_CameraZoomUi_input v s :
  selection_view (CameraZoomUi_input v s) = selection_view s.
Proof. unfold CameraZoomUi_input. sel_through. Qed.

Lemma sel_start_settled o s :
  selection_view (start_settled o s) = selection_view s.
Proof.
  unfold start_settled, start_then, start_catch. cbv zeta.
  destruct o; [|sel_through].
  repeat match goal with
         | |- context [if ?b then _ else _] => destruct b
         end;
    autorewrite with sel;
    rewrite ?(sel_upd_cameraSection _ _ (sel_createAndShowTorch _));
    sel_through.
Qed.

Lemma sel_stop_click s :
  selection_view (cameraActionStopButton_click s) = selection_view s.
Proof.
  unfold cameraActionStopButton_click, cameraActionStopButton_onclick.
  sel_through.
Qed.

Lemma sel_stop_settled o s :
  selection_view (stop_settled o s) = selection_view s.
Proof. unfold stop_settled, stop_then, stop_catch. sel_through. Qed.

Lemma sel_getCameras_catch b e s :
  selection_view (getCameras_catch b e s) = selection_view s.
Proof. unfold getCameras_catch. sel_through. Qed.

#[local] Hint Rewrite sel_getCameras_catch : sel.

Lemma sel_createPermissionsUi s :
  selection_view (createPermissionsUi s) = selection_view s.
Proof. unfold createPermissionsUi. sel_through. Qed.

Lemma sel_createPermissionsUi_settled o s :
  selection_view (createPermissionsUi_settled o s) = selection_view s.
Proof. unfold createPermissionsUi_settled. sel_through. Qed.

Lemma sel_torchButton_onFailure e s :
  selection_view (torchButton_onFailure e s) = selection_view s.
Proof. unfold torchButton_onFailure. sel_through. Qed.

Lemma sel_successWrapper b t s :
  selection_view (successWrapper b t s) = selection_view s.
Proof. unfold successWrapper. sel_through. Qed.

Lemma sel_errorWrapper b e s :
  selection_view (errorWrapper b e s) = selection_view s.
Proof. unfold errorWrapper. sel_through. Qed.

#[local] Hint Rewrite sel_createPermissionsUi sel_successWrapper
  sel_errorWrapper : sel.

Lemma sel_scanFile_settled o s :
  selection_view (scanFile_settled o s) = selection_view s.
Proof.
  unfold scanFile_settled, scanFile_then, scanFile_catch. sel_through.
Qed.

Lemma sel_onFileSelected f s :
  selection_view (onFileSelected f s) = selection_view s.
Proof. unfold onFileSelected. sel_through. Qed.

Lemma sel_permissionsOnSwap_settled o s :
  selection_view (permissionsOnSwap_settled o s) = selection_view s.
Proof.
  unfold permissionsOnSwap_settled, permissionsOnSwap_then,
    permissionsOnSwap_catch.
  sel_through.
Qed.

Lemma sel_swap_click s :
  selection_view (switchScanTypeLink_click s) = selection_view s.
Proof.
  unfold switchScanTypeLink_click, switchScanTypeLink_onclick,
    swap_cleanup, swap_activate, startCameraScanIfPermissionExistsOnSwap.
  sel_through.
Qed.

Lemma sel_clear s : selection_view (clear s) = selection_view s.
Proof. unfold clear. sel_through. Qed.

Lemma sel_clear_stop_settled o s :
  selection_view (clear_stop_settled o s) = selection_view s.
Proof.
  unfold clear_stop_settled, clear_stop_then, clear_stop_catch. sel_through.
Qed.

Lemma render_section_none sc ec s : get_cameraSection (render sc ec s) = None.
Proof.
  unfold render, createBasicLayout. cbv zeta.
  match goal with
  | |- context [set_layout (Some ?u) ?x] =>
      set (s0 := set_layout (Some u) x)
  end.
  assert (C0 : get_cameraSection s0 = None) by reflexivity.
  clearbody s0.
  set (s1 := if isCameraScanType (currentScanType s0) then _ else _).
  assert (C1 : get_cameraSection s1 = None).
  { unfold s1, insertCameraScanImageToScanRegion,
      insertFileScanImageToScanRegion.
    destruct (isCameraScanType _), (cameraScanImage s0), (fileScanImage s0);
      try exact C0;
      unfold get_cameraSection, upd_layout in *; simpl;
      destruct (layout s0); simpl in *; auto. }
  clearbody s1.
  set (s2 := if isCameraScanRequired (scanTypeSelector s1) then _ else s1).
  assert (C2 : get_cameraSection s2 = None).
  { unfold s2, createPermissionsUi, createPermissionButton.
    destruct (isCameraScanRequired _); [|exact C1].
    destruct (_ && _); [exact C1|].
    unfold get_cameraSection, upd_layout in *; simpl;
      destruct (layout s1); simpl in *; auto. }
  clearbody s2.
  change (get_cameraSection (set_html5Qrcode ?a ?b))
    with (get_cameraSection b).
  destruct (hasMoreThanOneScanType _); [|exact C2].
  unfold createSectionSwap, get_cameraSection, upd_layout in *; simpl;
    destruct (layout s2); simpl in *; auto.
Qed.

Lemma sel_render sc ec s : selection_view (render sc ec s) = None.
Proof. unfold selection_view. now rewrite render_section_none. Qed.

Lemma sel_ok_renderCameraSelection cam cams s :
  selection_ok (selection_view (renderCameraSelection (cam :: cams) s)) = true.
Proof.
  unfold renderCameraSelection. cbv zeta.
  set (s1 := upd_layout _ s).
  assert (V1 : selection_view s1 = None \/
               selection_view s1 = Some (cam :: cams, cam_id cam)).
  { unfold s1, selection_view, get_cameraSection, upd_layout. simpl.
    destruct (layout s); [right|left]; reflexivity. }
  clearbody s1.
  set (s2 := if hasSingleItem _ then _ else s1).
  assert (V2 : selection_view s2 = selection_view s1)
    by (unfold s2; destruct (hasSingleItem _); now autorewrite with sel).
  clearbody s2. rewrite <- V2 in V1. clear V2 s1.
  assert (OK : selection_ok (selection_view s2) = true).
  { destruct V1 as [-> | ->]; [reflexivity|].
    simpl. now rewrite String.eqb_refl. }
  destruct (getLastUsedCameraId _) as [cameraId|]; [|exact OK].
  destruct (String.eqb cameraId ""); [exact OK|].
  destruct (hasValue cameraId _) eqn:V.
  - rewrite sel_start_click. unfold selection_view in *.
    rewrite section_upd_cameraSection.
    destruct (get_cameraSection s2) as [c2|]; [|reflexivity].
    destruct V1 as [V1|V1]; [discriminate|].
    unfold selection_of in *. simpl in V1. injection V1 as Hc _.
    simpl. rewrite Hc. exact V.
  - now autorewrite with sel.
Qed.

Lemma sel_ok_getCameras_settled b o s :
  selection_ok (selection_view s) = true ->
  selection_ok (selection_view (getCameras_settled b o s)) = true.
Proof.
  intros OK. unfold getCameras_settled, getCameras_then. cbv zeta.
  destruct o as [[|cam cams]|error].
  - now autorewrite with sel.
  - destruct (requestPermissionContainer_isChild _).
    + apply sel_ok_renderCameraSelection.
    + now autorewrite with sel.
  - now autorewrite with sel.
Qed.

Lemma camera_selected s c id :
  get_cameraSection s = Some c ->
  cs_enabled (cameraSelectUi c) = true ->
  hasValue id (cameraSelectUi c) = true ->
  step (EvCameraSelected id) s
  = upd_cameraSection (fun c =>
      set_cameraSelectUi (set_cs_value id (cameraSelectUi c)) c) s.
Proof.
  intros C E V.
  rewrite step_rendered by (eauto using section_rendered; exact I).
  unfold CameraSelectionUi_select. now rewrite C, E, V.
Qed.

Lemma sel_ok_CameraSelectionUi_select id s :
  selection_ok (selection_view s) = true ->
  selection_ok (selection_view (CameraSelectionUi_select id s)) = true.
Proof.
  intros OK. unfold CameraSelectionUi_select.
  destruct (get_cameraSection s) as [c|] eqn:C; [|exact OK].
  destruct (cs_enabled (cameraSelectUi c) && hasValue id (cameraSelectUi c))
    eqn:E; [|exact OK].
  apply andb_true_iff in E as [_ V].
  unfold selection_view. rewrite section_upd_cameraSection, C. exact V.
Qed.

Lemma sel_ok_step e s :
  selection_ok (selection_view s) = true ->
  selection_ok (selection_view (step e s)) = true.
Proof.
  intros OK.
  destruct e;
    [ change (step (EvRender qrCodeSuccessCallback' qrCodeErrorCallback') s)
        with (render qrCodeSuccessCallback' qrCodeErrorCallback' s);
      now rewrite sel_render
    | change (step EvClear s) with (clear s); now rewrite sel_clear
    | change (step (EvClearStopSettled o) s) with (clear_stop_settled o s);
      now rewrite sel_clear_stop_settled
    | .. ];
    simpl; destruct (layout s) eqn:L; try exact OK.
  - now rewrite sel_createPermissionsUi_settled.
  - now rewrite sel_permissionButton_click.
  - now apply sel_ok_CameraSelectionUi_select.
  - now apply sel_ok_getCameras_settled.
  - now rewrite sel_start_click.
  - now rewrite sel_start_settled.
  - now rewrite sel_stop_click.
  - now rewrite sel_stop_settled.
  - now rewrite sel_CameraZoomUi_input.
  - now rewrite sel_torchButton_onFailure.
  - now rewrite sel_swap_click.
  - now rewrite sel_permissionsOnSwap_settled.
  - now rewrite sel_onFileSelected.
  - now rewrite sel_scanFile_settled.
  - unfold engine_decoded. destruct (qrCodeSuccessCallback s);
      [now rewrite sel_successWrapper|exact OK].
  - unfold engine_decodeFailed. destruct (qrCodeErrorCallback s);
      [now rewrite sel_errorWrapper|exact OK].
  - now rewrite sel_image_onload.
Qed.

Lemma reachable_selection_ok K s :
  reachable K s -> selection_ok (selection_view s) = true.
Proof.
  induction 1 as [el config v stored s Hnew | e s _ IH].
  - unfold constructor in Hnew.
    destruct (validateInput el); [discriminate|].
    destruct (newScanTypeSelector _ _); [discriminate|].
    destruct config; [|discriminate].
    injection Hnew as <-. reflexivity.
  - now apply sel_ok_step.
Qed.



(** ** A camera list that arrives *)

Lemma permission_start_click s :
  hasPermission (persistedDataManager (cameraActionStartButton_click s))
  = hasPermission (persistedDataManager s).
Proof.
  unfold cameraActionStartButton_click.
  destruct (get_cameraSection s) as [c|]; [|reflexivity].
  destruct (sb_disabled _); [reflexivity|].
  now rewrite start_onclick_persisted.
Qed.

Lemma permission_renderCameraSelection cameras s :
  hasPermission (persistedDataManager (renderCameraSelection cameras s))
  = hasPermission (persistedDataManager s).
Proof.
  unfold renderCameraSelection. cbv zeta.
  set (s1 := upd_layout _ s).
  assert (P1 : hasPermission (persistedDataManager s1)
               = hasPermission (persistedDataManager s)) by reflexivity.
  clearbody s1.
  set (s2 := if hasSingleItem _ then _ else s1).
  assert (P2 : hasPermission (persistedDataManager s2)
               = hasPermission (persistedDataManager s)).
  { unfold s2. destruct (hasSingleItem _); [|exact P1].
    now rewrite permission_start_click. }
  clearbody s2.
  destruct (getLastUsedCameraId _); [|exact P2].
  destruct (String.eqb _ _); [exact P2|].
  destruct (hasValue _ _).
  - rewrite permission_start_click. exact P2.
  - exact P2.
Qed.

Lemma cameras_renderCameraSelection cameras s :
  rendered s = true ->
  option_map fst (selection_view (renderCameraSelection cameras s))
  = Some cameras.
Proof.
  intros R. unfold renderCameraSelection. cbv zeta.
  set (s1 := upd_layout _ s).
  assert (V1 : option_map fst (selection_view s1) = Some cameras).
  { unfold s1, selection_view. now rewrite section_set_new. }
  clearbody s1.
  set (s2 := if hasSingleItem _ then _ else s1).
  assert (V2 : option_map fst (selection_view s2) = Some cameras).
  { unfold s2. destruct (hasSingleItem _); [|exact V1].
    now rewrite sel_start_click. }
  clearbody s2.
  destruct (getLastUsedCameraId _); [|exact V2].
  destruct (String.eqb _ _); [exact V2|].
  destruct (hasValue _ _).
  - rewrite sel_start_click. unfold selection_view in *.
    rewrite section_upd_cameraSection.
    destruct (get_cameraSection s2); [exact V2|discriminate].
  - now autorewrite with sel.
Qed.

(** X16: when the camera list arrives with at least one camera while the
    request-permission container is still in place, permission is stored
    as granted, whatever the start that may follow does, and the camera
    selection lists exactly the cameras that arrived, in their order. *)
Theorem X16_camera_list_is_shown s requestPermissionButton cam cams :
  rendered s = true ->
  requestPermissionContainer_isChild s = true ->
  let s' :=
    step (EvGetCamerasSettled requestPermissionButton (Resolved (cam :: cams)))
      s in
  hasCameraPermissions (persistedDataManager s') = true /\
  option_map (fun c => cs_cameras (cameraSelectUi c)) (get_cameraSection s')
    = Some (cam :: cams) /\
  (forall o,
     hasCameraPermissions
       (persistedDataManager (step (EvStartSettled o) s')) = true).
Proof.
  intros R A s'.
  assert (E : s' = renderCameraSelection (cam :: cams)
                     (upd_layout (set_requestPermissionContainer_attached false)
                        (resetHeaderMessage
                           (showHideScanTypeSwapLink true
                              (upd_persisted (setHasPermission true) s))))).
  { unfold s'. rewrite step_rendered by (auto; exact I).
    unfold getCameras_settled, getCameras_then. cbv zeta.
    replace (requestPermissionContainer_isChild
               (resetHeaderMessage
                  (showHideScanTypeSwapLink true
                     (upd_persisted (setHasPermission true) s))))
      with true; [reflexivity|].
    rewrite <- A.
    unfold requestPermissionContainer_isChild, resetHeaderMessage,
      showHideScanTypeSwapLink, upd_layout.
    destruct (hasMoreThanOneScanType _); simpl; now destruct (layout s). }
  assert (P : hasCameraPermissions (persistedDataManager s') = true).
  { rewrite E. unfold hasCameraPermissions.
    rewrite permission_renderCameraSelection.
    now autorewrite with observe. }
  split; [exact P|]. split.
  - assert (V : option_map fst (selection_view s') = Some (cam :: cams)).
    { rewrite E. apply cameras_renderCameraSelection.
      now autorewrite with observe. }
    unfold selection_view in V.
    destruct (get_cameraSection s'); [exact V|discriminate].
  - intros o. simpl.
    destruct (layout s'); [|exact P].
    now rewrite start_settled_persisted.
Qed.

Lemma X16_camera_list_is_shown_witness :
  hasCameraPermissions
    (persistedDataManager
       (step (EvGetCamerasSettled (Some 0%nat) (Resolved two_cameras))
          permission_requested)) = true.
Proof.
  refine (proj1
    (@X16_camera_list_is_shown permission_requested (Some 0%nat)
       {| cam_id := "cam-back"; cam_label := "Back camera" |}
       [{| cam_id := "cam-front"; cam_label := "Front camera" |}] _ _));
    vm_compute; reflexivity.
Defined.
